(** * batsim-py: the simulator handler (src/batsim_py/simulator.py)

    A shallow embedding of [SimulatorHandler]: the handler's private
    attributes become the fields of a record, every method becomes a function
    in a small state-and-exception monad, and the transport to the engine is
    an explicit part of the state (the messages sent so far, and the replies
    the engine is going to give).

    Simulated times are Python floats in the source.  They are modelled as
    rationals ([Qc]): the double nearest to a number of tenths stands for
    that number of tenths, as the clock always is ([current_time] is
    [float(f"{x:.1f}")]), and any other double stands for its exact value.
    Comparisons, equality as a key of a dict and the one-decimal rounding are
    then those of the rationals: the round-half-even rounding that the format
    [.1f] performs.  The addition is not: the sum of two floats is the double
    nearest to the exact sum ([float_add]), so that [0.1 + 0.2] is not [0.3],
    and a small enough duration added to the clock gives the clock.  NaN,
    infinities, overflow and subnormal numbers are outside the model. *)

From Stdlib Require Import ZArith QArith Qcanon Qround Qabs Qpower Lia Lqa.
From stdpp Require Import base decidable option list gmap strings.

#[local] Set Warnings "-clear-no-such-hyp".

Local Open Scope Z_scope.

(** ** Simulated time *)

Abbreviation time := Qc.

Definition Qc_of_tenths (k : Z) : Qc := Q2Qc (k # 10).
Definition Qc_of_hundredths (k : Z) : Qc := Q2Qc (k # 100).

(** Round-half-even of a rational to an integer: what a correctly rounded
    decimal formatting does with the digits it drops. *)
Definition round_half_even (q : Q) : Z :=
  let f := Qfloor q in
  match Qcompare (q - inject_Z f) (1 # 2) with
  | Lt => f
  | Gt => f + 1
  | Eq => if Z.even f then f else f + 1
  end.

(** [float(f"{x:.1f}")]: the time with one digit after the decimal point. *)
Definition round1 (x : time) : time :=
  Q2Qc (inject_Z (round_half_even (Qcanon.this x * inject_Z 10)) / inject_Z 10).

(** Python truthiness of an [Optional[float]]: [None] and [0.0] are false. *)
Definition truthy (o : option time) : bool :=
  match o with
  | Some t => negb (bool_decide (t = Q2Qc 0))
  | None => false
  end.

(** The sum of two floats.  A double is a rational [m * 2^(e - 52)] with a
    significand [m] of at most 53 bits; [binade] is the exponent [e] of a
    positive rational [q], the one with [2^e <= q < 2^(e + 1)], and
    [to_double] the double nearest to a rational, ties going to the even
    significand. *)
Definition binade (q : Q) : Z :=
  let e := Z.log2 (Qnum q) - Z.log2 (Zpos (Qden q)) in
  if Qle_bool (2 ^ e)%Q q then e else e - 1.

Definition to_double (q : Q) : Q :=
  if Qeq_bool q 0 then 0%Q
  else
    let ulp := (2 ^ (binade (Qabs q) - 52))%Q in
    (inject_Z (round_half_even (q / ulp)) * ulp)%Q.

(** The rational that stands for a double: the number of tenths it is
    nearest to, if there is one, and its own value otherwise. *)
Definition of_double (d : Q) : Q :=
  let tenths := (inject_Z (round_half_even (d * inject_Z 10)) / inject_Z 10)%Q in
  if Qeq_bool (to_double tenths) d then tenths else d.

(** [x + y] on floats: the exact sum of the two doubles, rounded to the
    nearest double. *)
Definition float_add (x y : time) : time :=
  Q2Qc (of_double (to_double (to_double (Qcanon.this x) + to_double (Qcanon.this y)))).

(** ** Jobs (batsim_py/jobs.py is not part of the sources at hand) *)

(** Modelled from the spec: the states of a job (section 4.2: submitted,
    allocated, running, then completed or killed, plus rejected). *)
Inductive JobState :=
| SUBMITTED | ALLOCATED | RUNNING | COMPLETED | KILLED | REJECTED.

Global Instance JobState_eq_dec : EqDecision JobState.
Proof. solve_decision. Defined.

(** Modelled from the spec: the class [Job] (section 3: a unique id, the
    current state, the allocation, an ordered set of host ids, and the times
    of submission, start and completion). *)
Record Job := mkJob {
  job_id : string;
  job_state : JobState;
  job_allocation : option (list Z);
  job_subtime : option time;
  job_start_time : option time;
  job_stop_time : option time;
}.

(** Modelled from the spec: the properties [is_submitted], [is_runnable]
    and [is_running] of a job: queued, allocated and not yet started,
    started. *)
Definition is_submitted (j : Job) : bool := bool_decide (job_state j = SUBMITTED).
Definition is_runnable (j : Job) : bool := bool_decide (job_state j = ALLOCATED).
Definition is_running_job (j : Job) : bool := bool_decide (job_state j = RUNNING).

(** ** Exceptions *)

Inductive exn :=
| RuntimeError (msg : string)
| ValueError (msg : string)
| TypeError (msg : string)
| LookupError (msg : string)
| SystemError (msg : string)
| AssertionError (msg : string)
| AttributeError (msg : string)
| KeyError (msg : string).

(** Modelled from the spec: the method [Job._submit] (section 4.2: submit
    is driven by the engine and creates the job; the time of submission is
    recorded). *)
Definition Job_submit (t : time) (j : Job) : Job :=
  mkJob (job_id j) SUBMITTED (job_allocation j) (Some t)
        (job_start_time j) (job_stop_time j).

(** Modelled from the spec: the method [Job._allocate] (section 4.2:
    allocate records the host set and requires a submitted job; the
    allocation is set at most once). *)
Definition Job_allocate (hosts : list Z) (j : Job) : exn + Job :=
  if is_submitted j
  then inr (mkJob (job_id j) ALLOCATED (Some hosts) (job_subtime j)
                  (job_start_time j) (job_stop_time j))
  else inl (RuntimeError "This job was already allocated or is not in the queue.").

(** Modelled from the spec: the method [Job._start] (section 4.2: start
    takes an allocated job to running and records the start time). *)
Definition Job_start (t : time) (j : Job) : exn + Job :=
  if is_runnable j
  then inr (mkJob (job_id j) RUNNING (job_allocation j) (job_subtime j)
                  (Some t) (job_stop_time j))
  else inl (RuntimeError "The job cannot start if it is not runnable.").

(** Modelled from the spec: the method [Job._terminate] (section 4.2:
    terminate requires a running job and records the end time and the
    outcome). *)
Definition Job_terminate (t : time) (final : JobState) (j : Job) : exn + Job :=
  if is_running_job j
  then inr (mkJob (job_id j) final (job_allocation j) (job_subtime j)
                  (job_start_time j) (Some t))
  else inl (RuntimeError "The job cannot be finished if it is not running.").

(** ** Hosts and the platform (batsim_py/resources.py is not part of the
    sources at hand) *)

(** Modelled from the spec: the activity states of a host (section 4.3). *)
Inductive HostState := IDLE | SWITCHING_ON | SLEEPING | SWITCHING_OFF | COMPUTING.

Global Instance HostState_eq_dec : EqDecision HostState.
Proof. solve_decision. Defined.

(** Modelled from the spec: the power states of the catalog of a host
    (section 4.3: one is the sleep state, the others carry a computation
    power), each known by its id. *)
Inductive PowerStateType := COMPUTATION | SLEEP.

Global Instance PowerStateType_eq_dec : EqDecision PowerStateType.
Proof. solve_decision. Defined.

Record PowerState := mkPowerState {
  ps_id : Z;
  ps_type : PowerStateType;
}.

(** Modelled from the spec: the class [Host] (section 3: the activity state,
    the jobs bound to the host, the catalog of power states with the default
    one and the sleep one, the current power state).  A host is known by its
    id, the key under which the platform holds it. *)
Record Host := mkHost {
  host_state : HostState;
  host_jobs : list string;
  host_pstates : list PowerState;
  host_default_pstate : option PowerState;
  host_sleep_pstate : option PowerState;
  host_pstate : option PowerState;
}.

Definition set_host_state (st : HostState) (h : Host) : Host :=
  mkHost st (host_jobs h) (host_pstates h)
         (host_default_pstate h) (host_sleep_pstate h) (host_pstate h).

Definition set_host_pstate (p : PowerState) (h : Host) : Host :=
  mkHost (host_state h) (host_jobs h) (host_pstates h)
         (host_default_pstate h) (host_sleep_pstate h) (Some p).

Definition set_host_jobs (js : list string) (h : Host) : Host :=
  mkHost (host_state h) js (host_pstates h)
         (host_default_pstate h) (host_sleep_pstate h) (host_pstate h).

(** Modelled from the spec: the properties of a host that tell its activity
    state. *)
Definition is_idle (h : Host) : bool := bool_decide (host_state h = IDLE).
Definition is_sleeping (h : Host) : bool := bool_decide (host_state h = SLEEPING).
Definition is_computing (h : Host) : bool := bool_decide (host_state h = COMPUTING).
Definition is_switching_on (h : Host) : bool :=
  bool_decide (host_state h = SWITCHING_ON).
Definition is_switching_off (h : Host) : bool :=
  bool_decide (host_state h = SWITCHING_OFF).

(** Modelled from the spec: the methods [Host.get_default_pstate] and
    [Host.get_sleep_pstate] (section 4.3: the catalog has a designated default
    and a designated sleep state; the docstrings of [switch_on] and
    [switch_off] in the source tell that they fail when no power state is
    defined). *)
Definition Host_get_default_pstate (h : Host) : exn + PowerState :=
  match host_default_pstate h with
  | Some p => inr p
  | None => inl (RuntimeError "Cannot get default power state because no power state was defined.")
  end.

Definition Host_get_sleep_pstate (h : Host) : exn + PowerState :=
  match host_sleep_pstate h with
  | Some p => inr p
  | None => inl (RuntimeError "Cannot get sleep power state because no power state was defined.")
  end.

(** Modelled from the spec: the methods [Host._switch_on] and
    [Host._switch_off] (section 4.3: switch-on requires a sleeping host,
    switch-off an idle one).  The handler of state changes (source lines
    605-608) finds hosts switching on and off, and these two methods are the
    only ones that can have put them there: the host is switching until the
    engine reports the end of the transition, and reaches idle or sleeping
    only then, through [Host._set_on] and [Host._set_off]. *)
Definition Host_switch_on (h : Host) : exn + Host :=
  match host_default_pstate h with
  | None => inl (RuntimeError "Cannot switch on because no power state was defined.")
  | Some _ =>
      if is_sleeping h then inr (set_host_state SWITCHING_ON h)
      else inl (RuntimeError "A host must be sleeping to switch on.")
  end.

Definition Host_switch_off (h : Host) : exn + Host :=
  match host_sleep_pstate h with
  | None => inl (RuntimeError "Cannot switch off because no power state was defined.")
  | Some _ =>
      if is_idle h then inr (set_host_state SWITCHING_OFF h)
      else inl (RuntimeError "A host must be idle to switch off.")
  end.

(** Modelled from the spec: the methods [Host._set_off] and [Host._set_on]
    (section 4.3: a host that was switching off reaches the sleep power state
    and sleeps; one that was switching on is idle at the default power
    state). *)
Definition Host_set_off (h : Host) : exn + Host :=
  match host_sleep_pstate h with
  | None => inl (RuntimeError "Cannot set off because no power state was defined.")
  | Some p =>
      if is_switching_off h then inr (set_host_pstate p (set_host_state SLEEPING h))
      else inl (SystemError "A host must be switching off to sleep.")
  end.

Definition Host_set_on (h : Host) : exn + Host :=
  match host_default_pstate h with
  | None => inl (RuntimeError "Cannot set on because no power state was defined.")
  | Some p =>
      if is_switching_on h then inr (set_host_pstate p (set_host_state IDLE h))
      else inl (SystemError "A host must be switching on to become idle.")
  end.

(** Modelled from the spec: the method [Host._set_computation_pstate]
    (section 4.3: an explicit change of the computation power state requires
    an idle or computing host and a valid entry of the catalog). *)
Definition Host_set_computation_pstate (pstate_id : Z) (h : Host) : exn + Host :=
  if is_idle h || is_computing h then
    match List.find (fun p => bool_decide (ps_id p = pstate_id)) (host_pstates h) with
    | Some p =>
        if bool_decide (ps_type p = COMPUTATION) then inr (set_host_pstate p h)
        else inl (RuntimeError "The power state is not a computation one.")
    | None => inl (LookupError "The power state could not be found.")
    end
  else inl (RuntimeError "The host must be idle or computing to switch its power state.")
.

(** Modelled from the spec: the method [Host._allocate] (section 4.1:
    allocate binds the hosts to the job). *)
Definition Host_allocate (job : string) (h : Host) : Host :=
  set_host_jobs (host_jobs h ++ [job]) h.

(** Modelled from the spec: what the start and the end of a job do to the
    hosts bound to it (section 2: the platform mirror applies the allocate,
    start and state-change transitions; section 3: the assigned job is cleared
    on completion).  The host computes from the start of the job, and is idle
    again when the job terminates. *)
Definition Host_start_computing (h : Host) : Host := set_host_state COMPUTING h.

Definition Host_release (job : string) (h : Host) : Host :=
  let h' := set_host_jobs (List.filter (fun j => negb (String.eqb j job)) (host_jobs h)) h in
  if is_computing h' then set_host_state IDLE h' else h'.

Abbreviation Platform := (gmap Z Host).

(** Modelled from the spec: the method [Platform.get] (section 3: lookup by
    id, which fails with a not-found condition if the host is absent). *)
Definition Platform_get (h_id : Z) (p : Platform) : exn + Host :=
  match p !! h_id with
  | Some h => inr h
  | None => inl (LookupError "There are no resources with this id.")
  end.

(** ** Protocol (batsim_py/protocol.py is not part of the sources at hand) *)

(** Modelled from the spec: the requests (section 6: execute-job with job id
    and host ids, kill-job, reject-job, set-resource-state with host ids and
    power-state id, call-me-later with target time), with the arguments that
    the source gives to their constructors.  The resources of a
    set-resource-state request form a set of host ids (section 4.4). *)
Inductive BatsimRequest :=
| CallMeLaterBatsimRequest (timestamp : time) (at_ : time)
| KillJobBatsimRequest (timestamp : time) (job : string)
| ExecuteJobBatsimRequest (timestamp : time) (job : string) (alloc : list Z)
| RejectJobBatsimRequest (timestamp : time) (job : string)
| SetResourceStateBatsimRequest (timestamp : time) (resources : gset Z) (state : Z).

Definition request_timestamp (r : BatsimRequest) : time :=
  match r with
  | CallMeLaterBatsimRequest t _ => t
  | KillJobBatsimRequest t _ => t
  | ExecuteJobBatsimRequest t _ _ => t
  | RejectJobBatsimRequest t _ => t
  | SetResourceStateBatsimRequest t _ _ => t
  end.

(** Modelled from the spec: the method [add_resource] of a
    set-resource-state request (section 4.4: the new host id is added to the
    host set of the existing request). *)
Definition add_resource (h_id : Z) (r : BatsimRequest) : BatsimRequest :=
  match r with
  | SetResourceStateBatsimRequest t res st =>
      SetResourceStateBatsimRequest t (res ∪ {[h_id]}) st
  | _ => r
  end.

(** Modelled from the spec: the events (section 6: simulation-begins with
    the platform, simulation-ends, job-submitted, job-completed with the
    outcome, resource-state-changed with the hosts and the resulting
    power-state id, call-me-later fired, no-more-jobs-to-submit), each with
    its timestamp; the last constructor stands for the events that the
    handler has no entry for. *)
Inductive BatsimEvent :=
| SimulationBeginsBatsimEvent (timestamp : time) (platform : Platform)
| SimulationEndsBatsimEvent (timestamp : time)
| JobCompletedBatsimEvent (timestamp : time) (job : string) (final : JobState)
| JobSubmittedBatsimEvent (timestamp : time) (job : Job)
| ResourcePowerStateChangedBatsimEvent (timestamp : time) (resources : list Z) (state : Z)
| RequestedCallBatsimEvent (timestamp : time)
| NoMoreStaticJobToSubmitBatsimEvent (timestamp : time)
| OtherBatsimEvent (timestamp : time).

Definition event_timestamp (e : BatsimEvent) : time :=
  match e with
  | SimulationBeginsBatsimEvent t _ => t
  | SimulationEndsBatsimEvent t => t
  | JobCompletedBatsimEvent t _ _ => t
  | JobSubmittedBatsimEvent t _ => t
  | ResourcePowerStateChangedBatsimEvent t _ _ => t
  | RequestedCallBatsimEvent t => t
  | NoMoreStaticJobToSubmitBatsimEvent t => t
  | OtherBatsimEvent t => t
  end.

(** Modelled from the spec: the class [BatsimMessage] (section 3: a
    timestamped envelope with an ordered sequence of requests, when it goes
    out, or of events, when it comes in). *)
Record BatsimMessage := mkBatsimMessage {
  msg_now : time;
  msg_requests : list BatsimRequest;
}.

Record BatsimReply := mkBatsimReply {
  reply_now : time;
  reply_events : list BatsimEvent;
}.

(** ** Callbacks

    A callback is either the closure [unflag] that [proceed_time] registers,
    or a function of the caller, known by a number.  Invoking a caller's
    function is recorded in the handler's trace; it is assumed not to call
    back into the handler (section 5: actions are invoked only between
    [proceed] calls). *)

Inductive callback := unflag | UserCallback (n : nat).

Inductive pyobject := Callable (c : callback) | NotCallable.

Inductive SimulatorEvent := SIMULATION_BEGINS | SIMULATION_ENDS.

(** ** The handler *)

Record SimulatorHandler := mkHandler {
  (* attributes of the class *)
  __current_time : time;
  __simulator : bool;                      (* the subprocess is not None *)
  __simulation_time : option time;
  __platform : option Platform;
  __no_more_jobs_to_submit : bool;
  __batsim_requests : list BatsimRequest;
  __jobs : list Job;
  __callbacks : gmap Qc (list callback);
  __wait_callback : bool;
  (* the transport: messages sent, and the replies the engine will give;
     [recv] on an empty list never returns *)
  net_sent : list BatsimMessage;
  net_inbox : list BatsimReply;
  (* observable effects: callbacks invoked and notifications dispatched *)
  invoked : list (callback * time);
  dispatched : list SimulatorEvent;
}.

Definition set_current_time (t : time) (s : SimulatorHandler) :=
  mkHandler t (__simulator s) (__simulation_time s) (__platform s)
    (__no_more_jobs_to_submit s) (__batsim_requests s) (__jobs s) (__callbacks s)
    (__wait_callback s) (net_sent s) (net_inbox s) (invoked s) (dispatched s).
Definition set_simulator (b : bool) (s : SimulatorHandler) :=
  mkHandler (__current_time s) b (__simulation_time s) (__platform s)
    (__no_more_jobs_to_submit s) (__batsim_requests s) (__jobs s) (__callbacks s)
    (__wait_callback s) (net_sent s) (net_inbox s) (invoked s) (dispatched s).
Definition set_simulation_time (o : option time) (s : SimulatorHandler) :=
  mkHandler (__current_time s) (__simulator s) o (__platform s)
    (__no_more_jobs_to_submit s) (__batsim_requests s) (__jobs s) (__callbacks s)
    (__wait_callback s) (net_sent s) (net_inbox s) (invoked s) (dispatched s).
Definition set_platform (p : option Platform) (s : SimulatorHandler) :=
  mkHandler (__current_time s) (__simulator s) (__simulation_time s) p
    (__no_more_jobs_to_submit s) (__batsim_requests s) (__jobs s) (__callbacks s)
    (__wait_callback s) (net_sent s) (net_inbox s) (invoked s) (dispatched s).
Definition set_no_more_jobs_to_submit (b : bool) (s : SimulatorHandler) :=
  mkHandler (__current_time s) (__simulator s) (__simulation_time s) (__platform s)
    b (__batsim_requests s) (__jobs s) (__callbacks s)
    (__wait_callback s) (net_sent s) (net_inbox s) (invoked s) (dispatched s).
Definition set_batsim_requests (l : list BatsimRequest) (s : SimulatorHandler) :=
  mkHandler (__current_time s) (__simulator s) (__simulation_time s) (__platform s)
    (__no_more_jobs_to_submit s) l (__jobs s) (__callbacks s)
    (__wait_callback s) (net_sent s) (net_inbox s) (invoked s) (dispatched s).
Definition set_jobs (l : list Job) (s : SimulatorHandler) :=
  mkHandler (__current_time s) (__simulator s) (__simulation_time s) (__platform s)
    (__no_more_jobs_to_submit s) (__batsim_requests s) l (__callbacks s)
    (__wait_callback s) (net_sent s) (net_inbox s) (invoked s) (dispatched s).
Definition set_callbacks (m : gmap Qc (list callback)) (s : SimulatorHandler) :=
  mkHandler (__current_time s) (__simulator s) (__simulation_time s) (__platform s)
    (__no_more_jobs_to_submit s) (__batsim_requests s) (__jobs s) m
    (__wait_callback s) (net_sent s) (net_inbox s) (invoked s) (dispatched s).
Definition set_wait_callback (b : bool) (s : SimulatorHandler) :=
  mkHandler (__current_time s) (__simulator s) (__simulation_time s) (__platform s)
    (__no_more_jobs_to_submit s) (__batsim_requests s) (__jobs s) (__callbacks s)
    b (net_sent s) (net_inbox s) (invoked s) (dispatched s).
Definition set_net_sent (l : list BatsimMessage) (s : SimulatorHandler) :=
  mkHandler (__current_time s) (__simulator s) (__simulation_time s) (__platform s)
    (__no_more_jobs_to_submit s) (__batsim_requests s) (__jobs s) (__callbacks s)
    (__wait_callback s) l (net_inbox s) (invoked s) (dispatched s).
Definition set_net_inbox (l : list BatsimReply) (s : SimulatorHandler) :=
  mkHandler (__current_time s) (__simulator s) (__simulation_time s) (__platform s)
    (__no_more_jobs_to_submit s) (__batsim_requests s) (__jobs s) (__callbacks s)
    (__wait_callback s) (net_sent s) l (invoked s) (dispatched s).
Definition set_invoked (l : list (callback * time)) (s : SimulatorHandler) :=
  mkHandler (__current_time s) (__simulator s) (__simulation_time s) (__platform s)
    (__no_more_jobs_to_submit s) (__batsim_requests s) (__jobs s) (__callbacks s)
    (__wait_callback s) (net_sent s) (net_inbox s) l (dispatched s).
Definition set_dispatched (l : list SimulatorEvent) (s : SimulatorHandler) :=
  mkHandler (__current_time s) (__simulator s) (__simulation_time s) (__platform s)
    (__no_more_jobs_to_submit s) (__batsim_requests s) (__jobs s) (__callbacks s)
    (__wait_callback s) (net_sent s) (net_inbox s) (invoked s) l.

(** ** A monad for methods: state, exceptions, and a receive that may never
    return *)

Inductive outcome (A : Type) : Type :=
| Returns (a : A) (s : SimulatorHandler)
| Raises (e : exn) (s : SimulatorHandler)
| Blocks (s : SimulatorHandler).
Arguments Returns {A} a s.
Arguments Raises {A} e s.
Arguments Blocks {A} s.

Definition M (A : Type) : Type := SimulatorHandler -> outcome A.

Definition ret {A} (a : A) : M A := fun s => Returns a s.
Definition bind {A B} (c : M A) (k : A -> M B) : M B :=
  fun s => match c s with
           | Returns a s' => k a s'
           | Raises e s' => Raises e s'
           | Blocks s' => Blocks s'
           end.
Definition raise {A} (e : exn) : M A := fun s => Raises e s.
Definition gets {A} (f : SimulatorHandler -> A) : M A := fun s => Returns (f s) s.
Definition modify (f : SimulatorHandler -> SimulatorHandler) : M unit :=
  fun s => Returns tt (f s).
Definition lift {A} (r : exn + A) : M A :=
  match r with inl e => raise e | inr a => ret a end.
Definition when (b : bool) (c : M unit) : M unit := if b then c else ret tt.

Declare Scope handler_scope.
Delimit Scope handler_scope with handler.
Notation "'let*' x ':=' c 'in' k" := (bind c (fun x => k))
  (at level 10, x name, c at level 100, k at level 200, only parsing) : handler_scope.
Notation "c ;;; k" := (bind c (fun _ => k))
  (at level 100, k at level 200, only parsing, right associativity) : handler_scope.
Local Open Scope handler_scope.

(** [for x in l: body(x)] *)
Fixpoint for_each {A} (l : list A) (body : A -> M unit) : M unit :=
  match l with
  | [] => ret tt
  | x :: l' => body x ;;; for_each l' body
  end.

(** ** Properties of the class *)

Definition is_running (s : SimulatorHandler) : bool := __simulator s.

Definition current_time (s : SimulatorHandler) : time := round1 (__current_time s).

Definition is_submitter_finished (s : SimulatorHandler) : bool :=
  __no_more_jobs_to_submit s.

Definition jobs (s : SimulatorHandler) : list Job := __jobs s.

Definition queue (s : SimulatorHandler) : list Job :=
  List.filter is_submitted (__jobs s).

(** ** Collaborators: the transport, the notifications, the callbacks *)

(** Modelled from the spec: the method [NetworkHandler.send] (section 2: the
    channel exchanges whole messages); the message goes to the engine. *)
Definition network_send (msg : BatsimMessage) : M unit :=
  modify (fun s => set_net_sent (net_sent s ++ [msg]) s).

(** Modelled from the spec: the method [NetworkHandler.recv] (section 5:
    receiving suspends until the engine replies, without timeout). *)
Definition network_recv : M BatsimReply :=
  fun s => match net_inbox s with
           | [] => Blocks s
           | msg :: rest => Returns msg (set_net_inbox rest s)
           end.

Definition network_bind : M unit := ret tt.
Definition network_close : M unit := ret tt.

(** Modelled from the spec: the function [dispatch] of the dispatcher
    (section 4.1: a notification is signalled); it is recorded. *)
Definition dispatch (e : SimulatorEvent) : M unit :=
  modify (fun s => set_dispatched (dispatched s ++ [e]) s).

(** [callback(arg)] *)
Definition call (c : callback) (arg : time) : M unit :=
  modify (fun s => set_invoked (invoked s ++ [(c, arg)]) s) ;;;
  match c with
  | unflag => modify (set_wait_callback false)
  | UserCallback _ => ret tt
  end.

(** ** Access to the mirrored hosts and jobs *)

Definition require_running : M unit :=
  fun s => if is_running s then Returns tt s
           else Raises (RuntimeError "The simulation is not running.") s.

Definition require_platform : M unit :=
  fun s => match __platform s with
           | Some _ => Returns tt s
           | None => Raises (SystemError "For some reason, the platform was not loaded.") s
           end.

(** [self.__platform.get(h_id)] *)
Definition platform_get (h_id : Z) : M Host :=
  fun s => match __platform s with
           | Some p => lift (Platform_get h_id p) s
           | None => Raises (AttributeError "NoneType object has no attribute get") s
           end.

(** The host object is mutated in place: the platform holds the new value. *)
Definition put_host (h_id : Z) (h : Host) : M unit :=
  modify (fun s => set_platform (insert h_id h <$> __platform s) s).

(** [next((j for j in self.__jobs if j.id == job_id), None)], with the place
    of the job in the list, which stands for the identity of the object. *)
Definition find_job (id : string) (s : SimulatorHandler) : option (nat * Job) :=
  list_find (fun j => job_id j = id) (__jobs s).

Definition put_job (i : nat) (j : Job) : M unit :=
  modify (fun s => set_jobs (<[i := j]> (__jobs s)) s).

Definition append_request (r : BatsimRequest) : M unit :=
  modify (fun s => set_batsim_requests (__batsim_requests s ++ [r]) s).

(** ** Private methods: the request batcher *)

Definition is_call_me_later_at (at_ : time) (r : BatsimRequest) : bool :=
  match r with
  | CallMeLaterBatsimRequest _ a => bool_decide (a = at_)
  | _ => false
  end.

Definition __set_batsim_call_me_later (at_ : time) : M unit :=
  let* s := gets id in
  if bool_decide (at_ ≤ current_time s)%Qc then ret tt
  else
    let request := CallMeLaterBatsimRequest (current_time s) at_ in
    if negb (existsb (is_call_me_later_at at_) (__batsim_requests s))
    then append_request request
    else ret tt.

(** The test of [get_old_request]: same instant, a set-resource-state
    request, same destination power state. *)
Definition same_properties (now : time) (pstate_id : Z) (r : BatsimRequest) : bool :=
  if negb (bool_decide (request_timestamp r = now)) then false
  else match r with
       | SetResourceStateBatsimRequest _ _ st =>
           if negb (bool_decide (st = pstate_id)) then false else true
       | _ => false
       end.

Definition get_old_request (now : time) (pstate_id : Z) (reqs : list BatsimRequest)
  : option (nat * BatsimRequest) :=
  list_find (fun r => Is_true (same_properties now pstate_id r)) reqs.

(** The effect of [__set_batsim_host_pstate] on the pending requests: the old
    request is updated where it stands, or a new one is appended. *)
Definition set_host_pstate_request (now : time) (h_id pstate_id : Z)
    (reqs : list BatsimRequest) : list BatsimRequest :=
  match get_old_request now pstate_id reqs with
  | Some (i, request) => <[i := add_resource h_id request]> reqs
  | None => reqs ++ [SetResourceStateBatsimRequest now {[h_id]} pstate_id]
  end.

Definition __set_batsim_host_pstate (h_id pstate_id : Z) : M unit :=
  modify (fun s =>
    set_batsim_requests
      (set_host_pstate_request (current_time s) h_id pstate_id (__batsim_requests s)) s).

Definition __send_requests : M unit :=
  let* s := gets id in
  network_send (mkBatsimMessage (current_time s) (__batsim_requests s)) ;;;
  modify (set_batsim_requests []).

(** ** Closing *)

Definition __close_simulator : M unit :=
  let* s := gets id in
  if __simulator s then modify (set_simulator false) else ret tt.

Definition close : M unit :=
  let* s := gets id in
  if negb (is_running s) then ret tt
  else
    __close_simulator ;;;
    network_close ;;;
    modify (set_simulation_time None) ;;;
    modify (set_batsim_requests []) ;;;
    modify (set_callbacks ∅) ;;;
    dispatch SIMULATION_ENDS.

(** ** Power actions *)

(** The bodies of the loops of [switch_on] and [switch_off]. *)
Definition switch_on_host (h_id : Z) : M unit :=
  let* host := platform_get h_id in
  let* host' := lift (Host_switch_on host) in
  put_host h_id host' ;;;
  let* ending_pstate := lift (Host_get_default_pstate host') in
  __set_batsim_host_pstate h_id (ps_id ending_pstate).

Definition switch_off_host (h_id : Z) : M unit :=
  let* host := platform_get h_id in
  let* host' := lift (Host_switch_off host) in
  put_host h_id host' ;;;
  let* ending_pstate := lift (Host_get_sleep_pstate host') in
  __set_batsim_host_pstate h_id (ps_id ending_pstate).

Definition switch_on (hosts_id : list Z) : M unit :=
  require_running ;;;
  require_platform ;;;
  for_each hosts_id switch_on_host.

Definition switch_off (hosts_id : list Z) : M unit :=
  require_running ;;;
  require_platform ;;;
  for_each hosts_id switch_off_host.

Definition switch_power_state (h_id pstate_id : Z) : M unit :=
  require_running ;;;
  require_platform ;;;
  let* host := platform_get h_id in
  let* host' := lift (Host_set_computation_pstate pstate_id host) in
  put_host h_id host' ;;;
  match host_pstate host' with
  | None => raise (AssertionError "host.pstate")
  | Some p => __set_batsim_host_pstate h_id (ps_id p)
  end.

(** ** Starting the jobs that can run *)

(** The inner loop of [__start_runnable_jobs]: the local [is_ready] is
    threaded through the iterations. *)
Fixpoint check_allocation (alloc : list Z) (is_ready : bool) : M bool :=
  match alloc with
  | [] => ret is_ready
  | h_id :: rest =>
      let* host := platform_get h_id in
      let is_ready := if negb (is_idle host) then false else is_ready in
      when (is_sleeping host) (switch_on [h_id]) ;;;
      check_allocation rest is_ready
  end.

(** [job._start(now)]: the job runs, and the hosts bound to it compute. *)
Definition start_job (i : nat) (job : Job) (now : time) : M unit :=
  let* job' := lift (Job_start now job) in
  put_job i job' ;;;
  modify (fun s =>
    set_platform
      ((fun p => foldr (alter Host_start_computing) p (default [] (job_allocation job)))
         <$> __platform s) s).

(** The body of the outer loop, for the job that stands at place [i]. *)
Definition start_if_ready (i : nat) : M unit :=
  let* s := gets id in
  match __jobs s !! i with
  | None => ret tt
  | Some job =>
      match job_allocation job with
      | None | Some [] =>
          raise (SystemError "For some reason, the job has no resources to start.")
      | Some alloc =>
          let* is_ready := check_allocation alloc true in
          if is_ready then
            let* now := gets current_time in
            start_job i job now ;;;
            let* now := gets current_time in
            append_request (ExecuteJobBatsimRequest now (job_id job) alloc)
          else ret tt
      end
  end.

(** [[j for j in self.__jobs if j.is_runnable]], as places in the registry. *)
Definition runnable_jobs (s : SimulatorHandler) : list nat :=
  List.filter (fun i => match __jobs s !! i with
                        | Some j => is_runnable j
                        | None => false
                        end)
              (seq 0 (length (__jobs s))).

Definition __start_runnable_jobs : M unit :=
  let* s := gets id in
  if negb (is_running s) then ret tt
  else
    require_platform ;;;
    for_each (runnable_jobs s) start_if_ready.

(** ** Handlers of the engine's events *)

Definition __on_batsim_simulation_begins (p : Platform) : M unit :=
  modify (set_platform (Some p)).

Definition __on_batsim_simulation_ends : M unit :=
  let* s := gets id in
  when (__simulator s) (network_send (mkBatsimMessage (current_time s) [])) ;;;
  close.

(** The three transition rules of [__on_batsim_host_state_changed]. *)
Definition apply_reported_state (state : Z) (pstate : PowerState) (h : Host)
  : exn + Host :=
  if is_switching_off h then Host_set_off h
  else if is_switching_on h then Host_set_on h
  else if (is_idle h || is_computing h) && negb (bool_decide (ps_id pstate = state))
  then Host_set_computation_pstate state h
  else inr h.

(** The body of its loop over the reported hosts. *)
Definition host_state_changed (state : Z) (h_id : Z) : M unit :=
  let* h := platform_get h_id in
  match host_pstate h with
  | None => raise (AssertionError "h.pstate")
  | Some pstate =>
      let* h' := lift (apply_reported_state state pstate h) in
      put_host h_id h' ;;;
      match host_pstate h' with
      | None => raise (AttributeError "NoneType object has no attribute id")
      | Some pstate' =>
          if negb (bool_decide (ps_id pstate' = state))
          then raise (SystemError "For some reason, the internal platform differs from the Batsim platform.")
          else ret tt
      end
  end.

Definition __on_batsim_host_state_changed (resources : list Z) (state : Z) : M unit :=
  require_platform ;;;
  for_each resources (host_state_changed state) ;;;
  __start_runnable_jobs.

Definition __on_batsim_requested_call : M unit :=
  let* s := gets id in
  match __callbacks s !! current_time s with
  | Some registered =>
      for_each registered (fun callback =>
        let* now := gets current_time in call callback now) ;;;
      let* s := gets id in
      match __callbacks s !! current_time s with
      | Some _ => modify (set_callbacks (delete (current_time s) (__callbacks s)))
      | None => raise (KeyError "del self.__callbacks[self.current_time]")
      end
  | None => ret tt
  end.

Definition __on_batsim_job_submitted (job : Job) : M unit :=
  let* now := gets current_time in
  modify (fun s => set_jobs (__jobs s ++ [Job_submit now job]) s).

(** [job._terminate(now, state)] releases the hosts bound to the job. *)
Definition __on_batsim_job_completed (id : string) (final : JobState) : M unit :=
  let* s := gets Datatypes.id in
  match find_job id s with
  | None => raise (SystemError "The job was not found.")
  | Some (i, job) =>
      let* job' := lift (Job_terminate (current_time s) final job) in
      modify (fun s =>
        set_platform
          ((fun p => foldr (alter (Host_release id)) p (default [] (job_allocation job)))
             <$> __platform s) s) ;;;
      modify (fun s => set_jobs (delete i (__jobs s)) s) ;;;
      __start_runnable_jobs
  end.

Definition __on_batsim_no_more_jobs_to_submit : M unit :=
  modify (set_no_more_jobs_to_submit true).

(** The table [__batsim_event_handlers]; an event of another type has no
    handler. *)
Definition handle_event (event : BatsimEvent) : M unit :=
  match event with
  | SimulationEndsBatsimEvent _ => __on_batsim_simulation_ends
  | SimulationBeginsBatsimEvent _ p => __on_batsim_simulation_begins p
  | JobCompletedBatsimEvent _ id final => __on_batsim_job_completed id final
  | JobSubmittedBatsimEvent _ job => __on_batsim_job_submitted job
  | ResourcePowerStateChangedBatsimEvent _ resources state =>
      __on_batsim_host_state_changed resources state
  | RequestedCallBatsimEvent _ => __on_batsim_requested_call
  | NoMoreStaticJobToSubmitBatsimEvent _ => __on_batsim_no_more_jobs_to_submit
  | OtherBatsimEvent _ => ret tt
  end.

(** The body of the loop of [__handle_batsim_events]: the clock takes the
    timestamp of the event, then the event is handled. *)
Definition deliver (event : BatsimEvent) : M unit :=
  modify (set_current_time (event_timestamp event)) ;;;
  handle_event event.

Definition __handle_batsim_events : M unit :=
  let* msg := network_recv in
  for_each (reply_events msg) deliver ;;;
  modify (set_current_time (reply_now msg)).

Definition __goto_next_batsim_event : M unit :=
  __send_requests ;;;
  __handle_batsim_events ;;;
  let* s := gets id in
  match __simulation_time s with
  | Some limit =>
      if truthy (Some limit) && bool_decide (limit ≤ current_time s)%Qc
      then close else ret tt
  | None => ret tt
  end.

(** ** Public methods *)

Definition set_callback (at_ : time) (call : pyobject) : M unit :=
  require_running ;;;
  let* s := gets id in
  if bool_decide (at_ ≤ current_time s)%Qc then
    raise (ValueError "Expected `at` argument to be a number greater than the current simulation time.")
  else
    match call with
    | NotCallable => raise (TypeError "Expected `call` argument to be callable ")
    | Callable c =>
        modify (fun s =>
          set_callbacks (<[at_ := default [] (__callbacks s !! at_) ++ [c]]> (__callbacks s)) s) ;;;
        __set_batsim_call_me_later at_
    end.

(** The [while] loop of [proceed_time].  Every turn receives one reply of the
    engine, so the number of replies still to come bounds the number of full
    turns; with none left the receive of the next turn never returns. *)
Fixpoint proceed_loop (turns : nat) : M unit :=
  let* s := gets id in
  if is_running s && __wait_callback s then
    match turns with
    | O => __goto_next_batsim_event
    | S turns' =>
        __goto_next_batsim_event ;;;
        __start_runnable_jobs ;;;
        proceed_loop turns'
    end
  else ret tt.

Definition proceed_time (time : option time) : M unit :=
  require_running ;;;
  (match time with
   | Some t =>
       if truthy time && bool_decide (t ≤ Q2Qc 0)%Qc then
         raise (ValueError "Expected `time` argument to be a number greater than zero.")
       else
         let* s := gets id in
         if negb (truthy time) then modify (set_wait_callback false)
         else if negb (truthy (__simulation_time s)) && is_submitter_finished s
                 && bool_decide (__jobs s = []) then
           modify (set_wait_callback false)
         else
           modify (set_wait_callback true) ;;;
           set_callback (float_add t (current_time s)) (Callable unflag)
   | None => modify (set_wait_callback false)
   end) ;;;
  __goto_next_batsim_event ;;;
  __start_runnable_jobs ;;;
  let* s := gets id in
  proceed_loop (length (net_inbox s)).

Definition allocate (id : string) (hosts_id : list Z) : M unit :=
  require_running ;;;
  fun s =>
  match __platform s with
  | None => Raises (SystemError "For some reason, the platform was not loaded") s
  | Some _ =>
      match find_job id s with
      | None => Raises (LookupError "The job was not found.") s
      | Some (i, job) =>
          (for_each hosts_id (fun h_id =>
             let* host := platform_get h_id in
             put_host h_id (Host_allocate id host)) ;;;
           let* job' := lift (Job_allocate hosts_id job) in
           put_job i job' ;;;
           __start_runnable_jobs) s
      end
  end.

Definition kill_job (id : string) : M unit :=
  require_running ;;;
  let* s := gets Datatypes.id in
  match find_job id s with
  | None => raise (LookupError "The job was not found.")
  | Some (i, job) =>
      modify (fun s => set_jobs (delete i (__jobs s)) s) ;;;
      let* now := gets current_time in
      append_request (KillJobBatsimRequest now id)
  end.

Definition reject_job (id : string) : M unit :=
  require_running ;;;
  let* s := gets Datatypes.id in
  match find_job id s with
  | None => raise (LookupError "The job was not found.")
  | Some (i, job) =>
      if negb (is_submitted job) then
        raise (RuntimeError "Only jobs in the queue can be rejected.")
      else
        modify (fun s => set_jobs (delete i (__jobs s)) s) ;;;
        let* now := gets current_time in
        append_request (RejectJobBatsimRequest now id)
  end.

(** The assignments at the head of [start], and the launch of the engine. *)
Definition start_reset (simulation_time : option time) (s : SimulatorHandler)
  : SimulatorHandler :=
  set_simulator true
    (set_no_more_jobs_to_submit false
       (set_simulation_time simulation_time
          (set_current_time (Q2Qc 0) (set_jobs [] s)))).

(** The rest of [start], once the engine is launched: the first exchange,
    the check of the platform, the timer of the time limit. *)
Definition start_handshake : M unit :=
  network_bind ;;;
  __handle_batsim_events ;;;
  let* s := gets id in
  match __platform s with
  | None => raise (RuntimeError "Could not load platfrom from Batsim.")
  | Some _ =>
      match __simulation_time s with
      | Some limit => when (truthy (Some limit)) (__set_batsim_call_me_later limit)
      | None => ret tt
      end ;;;
      dispatch SIMULATION_BEGINS
  end.

Definition start (platform workload verbosity : string)
    (simulation_time : option time) : M unit :=
  let* s := gets id in
  if is_running s then raise (RuntimeError "The simulation is already running.")
  else
    modify (start_reset simulation_time) ;;;
    start_handshake.

(** The handler that [__init__] makes: nothing runs, nothing is mirrored,
    nothing has been exchanged with the engine. *)
Definition __init__ : SimulatorHandler :=
  mkHandler (Q2Qc 0) false None None false [] [] ∅ false [] [] [] [].

(** ** Concrete handlers, for the examples *)

Module Fixtures.

Definition p_on : PowerState := mkPowerState 0 COMPUTATION.
Definition p_fast : PowerState := mkPowerState 2 COMPUTATION.
Definition p_sleep : PowerState := mkPowerState 1 SLEEP.

Definition host (st : HostState) (p : PowerState) : Host :=
  mkHost st [] [p_on; p_sleep; p_fast] (Some p_on) (Some p_sleep) (Some p).

(** Host 0 is idle, host 1 computes, host 2 sleeps, host 3 is idle. *)
Definition four_hosts : Platform :=
  <[0 := host IDLE p_on]> (<[1 := host COMPUTING p_on]>
    (<[2 := host SLEEPING p_sleep]> (<[3 := host IDLE p_on]> ∅))).

Definition job (id : string) (st : JobState) (alloc : option (list Z)) : Job :=
  mkJob id st alloc (Some (Q2Qc 0)) None None.

(** A handler just created. *)
Definition fresh : SimulatorHandler := __init__.

(** A running simulation at raw time [now], mirroring [four_hosts]. *)
Definition running (now : time) (js : list Job) (inbox : list BatsimReply)
  : SimulatorHandler :=
  mkHandler now true None (Some four_hosts) false [] js ∅ false [] inbox [] [].

End Fixtures.

(** ** Decidable equalities, to compare concrete values by evaluation *)

Global Instance exn_eq_dec : EqDecision exn.
Proof. solve_decision. Defined.
Global Instance PowerState_eq_dec : EqDecision PowerState.
Proof. solve_decision. Defined.
Global Instance Host_eq_dec : EqDecision Host.
Proof. solve_decision. Defined.
Global Instance Job_eq_dec : EqDecision Job.
Proof. solve_decision. Defined.
Global Instance BatsimRequest_eq_dec : EqDecision BatsimRequest.
Proof. solve_decision. Defined.
Global Instance BatsimMessage_eq_dec : EqDecision BatsimMessage.
Proof. solve_decision. Defined.
Global Instance callback_eq_dec : EqDecision callback.
Proof. solve_decision. Defined.
Global Instance BatsimEvent_eq_dec : EqDecision BatsimEvent.
Proof. solve_decision. Defined.
Global Instance BatsimReply_eq_dec : EqDecision BatsimReply.
Proof. solve_decision. Defined.
Global Instance SimulatorEvent_eq_dec : EqDecision SimulatorEvent.
Proof. solve_decision. Defined.
Global Instance SimulatorHandler_eq_dec : EqDecision SimulatorHandler.
Proof. solve_decision. Defined.
Global Instance outcome_eq_dec {A} `{EqDecision A} : EqDecision (outcome A).
Proof. solve_decision. Defined.

(** * Vocabulary of the properties *)

(** The errors that the properties name. *)
Definition proceed_time_error : exn :=
  ValueError "Expected `time` argument to be a number greater than zero.".

(** Two states that differ at most in the trace of invocations and in the
    flag that [unflag] clears. *)
Definition same_but_invocations (s s' : SimulatorHandler) : Prop :=
  set_invoked [] (set_wait_callback false s) =
  set_invoked [] (set_wait_callback false s').

(** The pending set-resource-state requests of an instant and a destination
    power state, and the hosts they name. *)
Definition pending_for (now : time) (p : Z) (reqs : list BatsimRequest)
  : list BatsimRequest :=
  List.filter (same_properties now p) reqs.

Definition resources_of (r : BatsimRequest) : gset Z :=
  match r with
  | SetResourceStateBatsimRequest _ res _ => res
  | _ => ∅
  end.

Definition hosts_pending (now : time) (p : Z) (reqs : list BatsimRequest) : gset Z :=
  ⋃ (resources_of <$> pending_for now p reqs).

(** At most one request for each instant and destination. *)
Definition coalesced (reqs : list BatsimRequest) : Prop :=
  forall now p, (length (pending_for now p reqs) <= 1)%nat.

(** A sequence of calls of [__set_batsim_host_pstate] at one instant, given
    by their arguments. *)
Definition set_host_pstate_requests (now : time) (targets : list (Z * Z))
    (reqs : list BatsimRequest) : list BatsimRequest :=
  foldl (fun reqs hp => set_host_pstate_request now hp.1 hp.2 reqs) reqs targets.

Definition targeted (p : Z) (targets : list (Z * Z)) : list Z :=
  (List.filter (fun hp => bool_decide (hp.2 = p)) targets).*1.

(** The power actions of the caller. *)
Inductive power_action :=
| SwitchOn (hosts_id : list Z)
| SwitchOff (hosts_id : list Z)
| SwitchPowerState (h_id pstate_id : Z).

Definition perform (a : power_action) : M unit :=
  match a with
  | SwitchOn hosts_id => switch_on hosts_id
  | SwitchOff hosts_id => switch_off hosts_id
  | SwitchPowerState h_id pstate_id => switch_power_state h_id pstate_id
  end.

(** The hosts an action names, each with the power state it is sent to: the
    default one of the host to switch it on, its sleep one to switch it off. *)
Definition destinations (pf : Platform) (a : power_action) : list (Z * Z) :=
  match a with
  | SwitchOn hosts_id =>
      omap (fun h => host ← pf !! h; p ← host_default_pstate host; Some (h, ps_id p))
           hosts_id
  | SwitchOff hosts_id =>
      omap (fun h => host ← pf !! h; p ← host_sleep_pstate host; Some (h, ps_id p))
           hosts_id
  | SwitchPowerState h_id pstate_id => [(h_id, pstate_id)]
  end.

(** The catalogs of power states do not change with the transitions. *)
Definition catalogs_agree (pf pf' : Platform) : Prop :=
  forall h,
    host_default_pstate <$> pf' !! h = host_default_pstate <$> pf !! h /\
    host_sleep_pstate <$> pf' !! h = host_sleep_pstate <$> pf !! h.

(** A command that only queues power-state requests, for the hosts and
    destinations that [targets_of] reads off the platform. *)
Definition queues_power_requests (targets_of : Platform -> list (Z * Z))
    (c : M unit) : Prop :=
  forall s s' pf,
    __platform s = Some pf ->
    c s = Returns tt s' ->
    exists pf',
      __platform s' = Some pf' /\ catalogs_agree pf pf' /\
      __current_time s' = __current_time s /\
      __batsim_requests s'
      = set_host_pstate_requests (current_time s) (targets_of pf) (__batsim_requests s).

(** The id of the power state that the mirror holds for a host. *)
Definition mirrored_pstate_id (s : SimulatorHandler) (h_id : Z) : option Z :=
  pf ← __platform s; host ← pf !! h_id; ps_id <$> host_pstate host.

Definition desync_error : exn :=
  SystemError "For some reason, the internal platform differs from the Batsim platform.".

(** The host that the mirror holds under an id. *)
Definition mirrored_host (s : SimulatorHandler) (h_id : Z) : option Host :=
  pf ← __platform s; pf !! h_id.

(** The transition rules, in the words of the specification: what a host
    becomes when the engine reports the power state [state] for it.  A host
    that is switching off sleeps in its sleep power state; one that is
    switching on is idle in its default power state; an idle or computing
    host in another power state takes the computation power state of its
    catalog that has the reported id; a sleeping host, and an idle or
    computing host that has the reported id already, are left as they
    are. *)
Inductive follows (state : Z) (host : Host) : Host -> Prop :=
| follows_off sleep :
    host_state host = SWITCHING_OFF ->
    host_sleep_pstate host = Some sleep ->
    follows state host (set_host_pstate sleep (set_host_state SLEEPING host))
| follows_on default :
    host_state host = SWITCHING_ON ->
    host_default_pstate host = Some default ->
    follows state host (set_host_pstate default (set_host_state IDLE host))
| follows_change pstate reported :
    host_state host = IDLE \/ host_state host = COMPUTING ->
    host_pstate host = Some pstate ->
    ps_id pstate <> state ->
    List.find (fun p => bool_decide (ps_id p = state)) (host_pstates host)
    = Some reported ->
    ps_type reported = COMPUTATION ->
    follows state host (set_host_pstate reported host)
| follows_same :
    host_state host = SLEEPING \/
    ((host_state host = IDLE \/ host_state host = COMPUTING) /\
     ps_id <$> host_pstate host = Some state) ->
    follows state host host.

Definition all_idle (s : SimulatorHandler) (alloc : list Z) : Prop :=
  forall h_id, h_id ∈ alloc ->
    exists host, mirrored_host s h_id = Some host /\ is_idle host = true.

(** The state in which [switch_on [h_id]] leaves the handler. *)
Definition switched_on (h_id : Z) (host : Host) (p : PowerState) (pf : Platform)
    (s : SimulatorHandler) : SimulatorHandler :=
  set_batsim_requests
    (set_host_pstate_request (current_time s) h_id (ps_id p) (__batsim_requests s))
    (set_platform (Some (<[h_id := set_host_state SWITCHING_ON host]> pf)) s).

(** The state in which the start of the job at place [i] leaves the handler. *)
Definition started (i : nat) (job : Job) (alloc : list Z) (s : SimulatorHandler)
  : SimulatorHandler :=
  set_batsim_requests
    (__batsim_requests s ++ [ExecuteJobBatsimRequest (current_time s) (job_id job) alloc])
    (set_platform
       ((fun p => foldr (alter Host_start_computing) p alloc) <$> __platform s)
       (set_jobs
          (<[i := mkJob (job_id job) RUNNING (job_allocation job) (job_subtime job)
                        (Some (current_time s)) (job_stop_time job)]> (__jobs s)) s)).

Definition is_execute (r : BatsimRequest) : bool :=
  match r with ExecuteJobBatsimRequest _ _ _ => true | _ => false end.

(** What switching hosts on leaves alone: the jobs and the execute requests. *)
Definition same_jobs (s0 s : SimulatorHandler) : Prop :=
  __jobs s = __jobs s0 /\
  List.filter is_execute (__batsim_requests s)
  = List.filter is_execute (__batsim_requests s0).

(** The job at place [k] is not running in [s] and runs in [s']. *)
Definition starts (k : nat) (s s' : SimulatorHandler) : Prop :=
  exists job job',
    __jobs s !! k = Some job /\ job_state job <> RUNNING /\
    __jobs s' !! k = Some job' /\ job_state job' = RUNNING.

(** A pending request to put host [h_id] in power state [p] at [now]. *)
Definition requested (now : time) (h_id p : Z) (reqs : list BatsimRequest) : Prop :=
  exists res, h_id ∈ res /\ SetResourceStateBatsimRequest now res p ∈ reqs.

(** The host is on its way: switching on, with its request pending. *)
Definition on_the_way (now : time) (h_id : Z) (p : PowerState)
    (s : SimulatorHandler) : Prop :=
  current_time s = now /\
  exists host,
    mirrored_host s h_id = Some host /\ host_state host = SWITCHING_ON /\
    requested now h_id (ps_id p) (__batsim_requests s).

(** The host sleeps and can be switched on, or is on its way. *)
Definition waking (now : time) (h_id : Z) (p : PowerState)
    (s : SimulatorHandler) : Prop :=
  (current_time s = now /\ is_running s = true /\
   exists host,
     mirrored_host s h_id = Some host /\ host_state host = SLEEPING /\
     host_default_pstate host = Some p) \/
  (is_running s = true /\ on_the_way now h_id p s).

(** A small program logic for methods: the outcome [o] satisfies [Q] when
    the method returns, and [E] when it raises or waits for ever. *)
Definition ok {A} (E : SimulatorHandler -> Prop) (Q : A -> SimulatorHandler -> Prop)
    (o : outcome A) : Prop :=
  match o with
  | Returns a s => Q a s
  | Raises _ s => E s
  | Blocks s => E s
  end.

(** The method [c] keeps the predicate [I], whatever its outcome. *)
Definition keeps {A} (I : SimulatorHandler -> Prop) (c : M A) : Prop :=
  forall s, I s -> ok I (fun _ => I) (c s).

(** The simulation runs. *)
Definition running (s : SimulatorHandler) : Prop := is_running s = true.

(** Between two simulations nothing is pending: no request, no callback, no
    time limit. *)
Definition idle_clean (s : SimulatorHandler) : Prop :=
  is_running s = false ->
  __batsim_requests s = [] /\ __callbacks s = ∅ /\ __simulation_time s = None.

(** The public methods of the handler. *)
Inductive method :=
| Start (platform workload verbosity : string) (simulation_time : option time)
| Close
| ProceedTime (time : option time)
| SetCallback (at_ : time) (call : pyobject)
| Allocate (job : string) (hosts_id : list Z)
| KillJob (job : string)
| RejectJob (job : string)
| Power (action : power_action).

Definition invoke (m : method) : M unit :=
  match m with
  | Start platform workload verbosity simulation_time =>
      start platform workload verbosity simulation_time
  | Close => close
  | ProceedTime time => proceed_time time
  | SetCallback at_ call => set_callback at_ call
  | Allocate job hosts_id => allocate job hosts_id
  | KillJob job => kill_job job
  | RejectJob job => reject_job job
  | Power action => perform action
  end.

(** The state in which a call leaves the handler, whatever its outcome. *)
Definition state_after {A} (o : outcome A) : SimulatorHandler :=
  match o with
  | Returns _ s => s
  | Raises _ s => s
  | Blocks s => s
  end.

(** The states that the handler can be in after a sequence of calls on a new
    handler, with any replies of the engine. *)
Inductive reachable : SimulatorHandler -> Prop :=
| reachable_new inbox :
    reachable (set_net_inbox inbox __init__)
| reachable_call s m :
    reachable s -> reachable (state_after (invoke m s)).

(** No platform is mirrored. *)
Definition no_platform (s : SimulatorHandler) : Prop := __platform s = None.

(** A platform is mirrored. *)
Definition has_platform (s : SimulatorHandler) : Prop := is_Some (__platform s).

Definition is_simulation_begins (event : BatsimEvent) : bool :=
  match event with SimulationBeginsBatsimEvent _ _ => true | _ => false end.

Definition already_running_error : exn :=
  RuntimeError "The simulation is already running.".

Definition platform_not_loaded_error : exn :=
  RuntimeError "Could not load platfrom from Batsim.".

(** A time with one decimal place: rounding leaves it as it is. *)
Definition rounded (t : time) : Prop := round1 t = t.

Definition stamped (reqs : list BatsimRequest) : Prop :=
  Forall (fun r => rounded (request_timestamp r)) reqs.

(** What goes out is well formed: the pending requests are coalesced, and
    every request, pending or sent, and every message sent bears a time with
    one decimal. *)
Definition well_batched (s : SimulatorHandler) : Prop :=
  coalesced (__batsim_requests s) /\
  stamped (__batsim_requests s) /\
  Forall (fun m => rounded (msg_now m) /\ stamped (msg_requests m)) (net_sent s).

Definition is_set_resource_state (r : BatsimRequest) : bool :=
  match r with SetResourceStateBatsimRequest _ _ _ => true | _ => false end.

Definition past_callback_error : exn :=
  ValueError "Expected `at` argument to be a number greater than the current simulation time.".

(** ** Vocabulary of the further properties *)

Definition not_running_error : exn := RuntimeError "The simulation is not running.".

Definition not_callable_error : exn :=
  TypeError "Expected `call` argument to be callable ".

(** The public methods that act on a running simulation only: all but
    [start] and [close]. *)
Definition needs_simulation (m : method) : bool :=
  match m with
  | Start _ _ _ _ | Close => false
  | _ => true
  end.

(** The test of the second branch of [proceed_time]: no time limit, the
    submitter has finished, no job is known. *)
Definition nothing_left (s : SimulatorHandler) : bool :=
  negb (truthy (__simulation_time s)) && is_submitter_finished s
  && bool_decide (__jobs s = []).

Definition is_call_me_later (r : BatsimRequest) : bool :=
  match r with CallMeLaterBatsimRequest _ _ => true | _ => false end.

(** The elementary changes of the state of the handler: the assignments and
    the mutations in place that the methods perform, each with what the method
    has checked before it.  The changes of the transport, a message sent or a
    reply received, are those of [step true] only. *)
Inductive step (wire : bool) (s : SimulatorHandler) : SimulatorHandler -> Prop :=
| step_clock t :
    step wire s (set_current_time t s)
| step_terminated :
    step wire s (set_simulator false s)
| step_launched limit :
    is_running s = false ->
    step wire s (start_reset limit s)
| step_limit_dropped :
    step wire s (set_simulation_time None s)
| step_requests_dropped :
    step wire s (set_batsim_requests [] s)
| step_callbacks_dropped :
    step wire s (set_callbacks ∅ s)
| step_dispatched e :
    step wire s (set_dispatched (dispatched s ++ [e]) s)
| step_invoked c arg :
    step wire s (set_invoked (invoked s ++ [(c, arg)]) s)
| step_flag b :
    step wire s (set_wait_callback b s)
| step_sent reqs :
    wire = true ->
    step wire s (set_net_sent (net_sent s ++ [mkBatsimMessage (current_time s) reqs]) s)
| step_received reply rest :
    wire = true ->
    net_inbox s = reply :: rest ->
    step wire s (set_net_inbox rest s)
| step_platform_loaded p :
    step wire s (set_platform (Some p) s)
| step_hosts_changed (f : Platform -> Platform) :
    step wire s (set_platform (f <$> __platform s) s)
| step_submitter_finished :
    step wire s (set_no_more_jobs_to_submit true s)
| step_request_queued r :
    is_call_me_later r = false ->
    is_set_resource_state r = false ->
    request_timestamp r = current_time s ->
    step wire s (set_batsim_requests (__batsim_requests s ++ [r]) s)
| step_timer_queued at_ :
    (current_time s < at_)%Qc ->
    existsb (is_call_me_later_at at_) (__batsim_requests s) = false ->
    step wire s
      (set_batsim_requests
         (__batsim_requests s ++ [CallMeLaterBatsimRequest (current_time s) at_]) s)
| step_pstate_queued h p :
    step wire s
      (set_batsim_requests
         (set_host_pstate_request (current_time s) h p (__batsim_requests s)) s)
| step_job_submitted now job :
    step wire s (set_jobs (__jobs s ++ [Job_submit now job]) s)
| step_job_allocated i job hosts job' :
    Job_allocate hosts job = inr job' ->
    step wire s (set_jobs (<[i := job']> (__jobs s)) s)
| step_job_started i job h alloc now job' :
    job_allocation job = Some (h :: alloc) ->
    Job_start now job = inr job' ->
    step wire s (set_jobs (<[i := job']> (__jobs s)) s)
| step_job_removed i :
    step wire s (set_jobs (delete i (__jobs s)) s)
| step_callback_registered at_ c :
    step wire s
      (set_callbacks
         (<[at_ := default [] (__callbacks s !! at_) ++ [c]]> (__callbacks s)) s)
| step_callbacks_fired t :
    step wire s (set_callbacks (delete t (__callbacks s)) s).

(** What a method can make of a state: a sequence of elementary changes. *)
Definition evolves (wire : bool) : relation SimulatorHandler := rtc (step wire).

Definition waits {A} (o : outcome A) : bool :=
  match o with Blocks _ => true | _ => false end.

(** A method that goes through elementary changes, with the engine ... *)
Definition evolving {A} (c : M A) : Prop :=
  forall s, evolves true s (state_after (c s)).

(** ... and one that does so without the engine: it sends nothing, receives
    nothing, and so never waits. *)
Definition quiet {A} (c : M A) : Prop :=
  forall s, waits (c s) = false /\ evolves false s (state_after (c s)).

(** The public methods that exchange messages with the engine. *)
Definition talks (m : method) : bool :=
  match m with
  | Start _ _ _ _ | ProceedTime _ => true
  | _ => false
  end.

(** The targets of the pending timer requests. *)
Definition call_me_later_target (r : BatsimRequest) : option time :=
  match r with CallMeLaterBatsimRequest _ a => Some a | _ => None end.

Definition timer_targets (reqs : list BatsimRequest) : list time :=
  omap call_me_later_target reqs.

(** No two pending timer requests have the same target, and the target of
    each is later than the instant of the request. *)
Definition timers_distinct (s : SimulatorHandler) : Prop :=
  NoDup (timer_targets (__batsim_requests s)) /\
  Forall (fun r => match r with
                   | CallMeLaterBatsimRequest t a => (t < a)%Qc
                   | _ => True
                   end) (__batsim_requests s).

(** A job that the registry may hold: queued, or allocated with its hosts,
    or running on at least one host since a known time. *)
Definition live (j : Job) : Prop :=
  match job_state j with
  | SUBMITTED => True
  | ALLOCATED => is_Some (job_allocation j)
  | RUNNING =>
      (exists h alloc, job_allocation j = Some (h :: alloc)) /\
      is_Some (job_start_time j)
  | COMPLETED | KILLED | REJECTED => False
  end.

Definition registry_live (s : SimulatorHandler) : Prop := Forall live (__jobs s).

(** No entry of the table of callbacks is empty. *)
Definition callbacks_filled (s : SimulatorHandler) : Prop :=
  forall t registered, __callbacks s !! t = Some registered -> registered <> [].

(** The two parts of [proceed_time] after its check that the simulation
    runs: the choice between a timer and the next event, and the exchanges
    with the engine. *)
Definition arm_timer (time : option time) : M unit :=
  match time with
  | Some t =>
      if truthy time && bool_decide (t ≤ Q2Qc 0)%Qc then
        raise (ValueError "Expected `time` argument to be a number greater than zero.")
      else
        let* s := gets id in
        if negb (truthy time) then modify (set_wait_callback false)
        else if negb (truthy (__simulation_time s)) && is_submitter_finished s
                && bool_decide (__jobs s = []) then
          modify (set_wait_callback false)
        else
          modify (set_wait_callback true) ;;;
          set_callback (float_add t (current_time s)) (Callable unflag)
  | None => modify (set_wait_callback false)
  end.

Definition advance : M unit :=
  __goto_next_batsim_event ;;;
  __start_runnable_jobs ;;;
  let* s := gets id in
  proceed_loop (length (net_inbox s)).

(** The simulation, if it runs under a time limit that counts, has not
    reached the limit. *)
Definition within_limit (s : SimulatorHandler) : Prop :=
  is_running s = true ->
  forall limit,
    __simulation_time s = Some limit -> limit <> Q2Qc 0 ->
    (current_time s < limit)%Qc.

(** A simulation on the platform of the examples, just started with a time
    limit of 100: the engine has opened with the platform and a first job. *)
Module Scenario.

Definition opening : BatsimReply :=
  mkBatsimReply (Q2Qc 0)
    [SimulationBeginsBatsimEvent (Q2Qc 0) Fixtures.four_hosts;
     JobSubmittedBatsimEvent (Q2Qc 0) (Fixtures.job "j" SUBMITTED None)].

Definition begun : SimulatorHandler :=
  state_after
    (invoke (Start "platform.xml" "workload.json" "quiet" (Some (Q2Qc 100)))
       (set_net_inbox [opening] __init__)).

End Scenario.

(** The job that a call takes out of the registry. *)
Definition removed_job (m : method) : option string :=
  match m with
  | KillJob id | RejectJob id => Some id
  | _ => None
  end.

Definition job_not_found_error : exn := LookupError "The job was not found.".

Definition unknown_job_error : exn := SystemError "The job was not found.".

(** A runnable job without hosts, at place [i] of the registry of a running
    simulation. *)
Definition starved (i : nat) (job : Job) (s : SimulatorHandler) : Prop :=
  is_running s = true /\ is_Some (__platform s) /\
  __jobs s !! i = Some job /\ is_runnable job = true /\
  default [] (job_allocation job) = [].

Definition no_resources_error : exn :=
  SystemError "For some reason, the job has no resources to start.".

(** A host on its way to the power state [state], its default one: still
    switching on, or idle in it already. *)
Definition waking_up (state : Z) (host : Host) : Prop :=
  exists p,
    host_default_pstate host = Some p /\ ps_id p = state /\
    ((host_state host = SWITCHING_ON /\ is_Some (host_pstate host)) \/
     (host_state host = IDLE /\ host_pstate host = Some p)).

Definition woken_up (state : Z) (host : Host) : Prop :=
  exists p,
    host_default_pstate host = Some p /\ ps_id p = state /\
    host_state host = IDLE /\ host_pstate host = Some p.

(** Two states that differ at most in the table of callbacks, in the trace
    of invocations and in the flag that [unflag] clears. *)
Definition same_but_callbacks (s s' : SimulatorHandler) : Prop :=
  set_callbacks ∅ (set_invoked [] (set_wait_callback false s)) =
  set_callbacks ∅ (set_invoked [] (set_wait_callback false s')).

(** The simulation does not run. *)
Definition stopped (s : SimulatorHandler) : Prop := is_running s = false.

Definition is_simulation_ends (event : BatsimEvent) : bool :=
  match event with SimulationEndsBatsimEvent _ => true | _ => false end.

(** * Properties *)

(** A closed decidable proposition, settled by evaluating its decision. *)
Ltac by_evaluation := apply (bool_decide_unpack _); vm_compute; exact I.

(** ** Rounding to one decimal place *)

Lemma round_half_even_near (q : Q) :
  (inject_Z (round_half_even q) - (1 # 2) <= q
   <= inject_Z (round_half_even q) + (1 # 2))%Q.
Proof.
  unfold round_half_even.
  pose proof (Qfloor_le q) as Hlo. pose proof (Qlt_floor q) as Hhi.
  rewrite inject_Z_plus in Hhi. change (inject_Z 1) with 1%Q in Hhi.
  destruct (Qcompare_spec (q - inject_Z (Qfloor q)) (1 # 2)) as [He|Hl|Hg].
  - destruct (Z.even (Qfloor q));
      [|rewrite inject_Z_plus; change (inject_Z 1) with 1%Q]; lra.
  - lra.
  - rewrite inject_Z_plus. change (inject_Z 1) with 1%Q. lra.
Qed.

Lemma round1_tenth (x : time) :
  round1 x = Qc_of_tenths (round_half_even (Qcanon.this x * inject_Z 10)).
Proof.
  unfold round1, Qc_of_tenths. apply Qc_is_canon. cbn [Q2Qc Qcanon.this].
  rewrite !Qred_correct. change (inject_Z 10) with (inject_Z (Zpos 10)).
  symmetry. apply Qmake_Qdiv.
Qed.

Lemma round1_near (x : time) :
  (Qabs (Qcanon.this x - Qcanon.this (round1 x)) <= 1 # 20)%Q.
Proof.
  rewrite round1_tenth. unfold Qc_of_tenths. cbn [Q2Qc Qcanon.this].
  rewrite Qred_correct.
  pose proof (round_half_even_near (Qcanon.this x * inject_Z 10)) as [Hlo Hhi].
  set (k := round_half_even (Qcanon.this x * inject_Z 10)) in *.
  assert (Hk : (k # 10 == inject_Z k / inject_Z 10)%Q) by apply Qmake_Qdiv.
  rewrite Hk. change (inject_Z 10) with 10%Q in *.
  clearbody k. unfold Qdiv. change (/ 10)%Q with (1 # 10)%Q.
  apply Qabs_Qle_condition. split; lra.
Qed.

Lemma round_half_even_Z (k : Z) (q : Q) : (q == inject_Z k)%Q -> round_half_even q = k.
Proof.
  intros Hq. unfold round_half_even.
  assert (Hf : Qfloor q = k) by (rewrite Hq; apply Qfloor_Z).
  rewrite Hf.
  assert (Hlt : (q - inject_Z k < 1 # 2)%Q) by (rewrite Hq; lra).
  destruct (Qcompare_spec (q - inject_Z k) (1 # 2)) as [He|_|Hg];
    [rewrite He in Hlt; lra|reflexivity|lra].
Qed.

Lemma round1_rounded (x : time) : rounded (round1 x).
Proof.
  unfold rounded. rewrite (round1_tenth x).
  set (k := round_half_even (Qcanon.this x * inject_Z 10)).
  rewrite round1_tenth. f_equal. apply round_half_even_Z.
  unfold Qc_of_tenths. cbn [Q2Qc Qcanon.this]. rewrite Qred_correct.
  rewrite (Qmake_Qdiv k 10). change (inject_Z (Z.pos 10)) with (inject_Z 10).
  field.
Qed.

(** ** The sum of floats *)

Lemma pow2_pos (z : Z) : (0 < 2 ^ z)%Q.
Proof. apply Qpower_0_lt. reflexivity. Qed.

Lemma pow2_succ (z : Z) : (2 ^ (z + 1) == 2 * 2 ^ z)%Q.
Proof. rewrite Qpower_plus by discriminate. change (2 ^ 1)%Q with 2%Q. ring. Qed.

Lemma pow2_minus (a b : Z) : (2 ^ (a - b) == 2 ^ a / 2 ^ b)%Q.
Proof.
  unfold Z.sub. rewrite Qpower_plus by discriminate. rewrite Qpower_opp. reflexivity.
Qed.

Lemma pow2_Z (z : Z) : 0 <= z -> (2 ^ z == inject_Z (2 ^ z))%Q.
Proof. intros Hz. change 2%Q with (inject_Z 2). symmetry. now apply Zpower_Qpower. Qed.

(** [binade] is the exponent of its argument. *)
Lemma binade_spec (q : Q) :
  (0 < q)%Q -> (2 ^ binade q <= q /\ q < 2 ^ (binade q + 1))%Q.
Proof.
  intros Hq. unfold binade.
  destruct q as [n d]. cbn [Qnum Qden].
  assert (Hn : 0 < n) by (unfold Qlt in Hq; cbn in Hq; lia).
  pose proof (Z.log2_spec n Hn) as [Hnlo Hnhi].
  pose proof (Z.log2_spec (Zpos d) eq_refl) as [Hdlo Hdhi].
  pose proof (Z.log2_nonneg n) as Hln. pose proof (Z.log2_nonneg (Zpos d)) as Hld.
  set (ln := Z.log2 n) in *. set (ld := Z.log2 (Zpos d)) in *.
  assert (Hqn : (n # d == inject_Z n / inject_Z (Zpos d))%Q) by apply Qmake_Qdiv.
  assert (Hd0 : (0 < inject_Z (Zpos d))%Q) by (change 0%Q with (inject_Z 0); rewrite <- Zlt_Qlt; lia).
  assert (Hnlo' : (2 ^ ln <= inject_Z n)%Q) by (rewrite pow2_Z by lia; now rewrite <- Zle_Qle).
  assert (Hnhi' : (inject_Z n < 2 * 2 ^ ln)%Q).
  { rewrite <- pow2_succ. rewrite pow2_Z by lia. rewrite <- Zlt_Qlt. now replace (ln + 1) with (Z.succ ln) by lia. }
  assert (Hdlo' : (2 ^ ld <= inject_Z (Zpos d))%Q) by (rewrite pow2_Z by lia; now rewrite <- Zle_Qle).
  assert (Hdhi' : (inject_Z (Zpos d) < 2 * 2 ^ ld)%Q).
  { rewrite <- pow2_succ. rewrite pow2_Z by lia. rewrite <- Zlt_Qlt. now replace (ld + 1) with (Z.succ ld) by lia. }
  pose proof (pow2_pos ln) as Hpn. pose proof (pow2_pos ld) as Hpd.
  assert (Hup : (n # d < 2 * 2 ^ (ln - ld))%Q).
  { rewrite Hqn, pow2_minus. 
    apply Qlt_shift_div_r; [exact Hd0|].
    assert (E : (2 * (2 ^ ln / 2 ^ ld) * inject_Z (Zpos d) == 2 * 2 ^ ln * (inject_Z (Zpos d) / 2 ^ ld))%Q) by (field; lra).
    rewrite E.
    assert (1 <= inject_Z (Zpos d) / 2 ^ ld)%Q by (apply Qle_shift_div_l; lra).
    nra. }
  assert (Hdown : (2 ^ (ln - ld) <= 2 * (n # d))%Q).
  { rewrite Hqn, pow2_minus.
    apply Qle_shift_div_r; [exact Hpd|].
    assert (E : (2 * (inject_Z n / inject_Z (Zpos d)) * 2 ^ ld == inject_Z n * (2 * 2 ^ ld / inject_Z (Zpos d)))%Q) by (field; lra).
    rewrite E.
    assert (1 <= 2 * 2 ^ ld / inject_Z (Zpos d))%Q by (apply Qle_shift_div_l; lra).
    nra. }
  destruct (Qle_bool (2 ^ (ln - ld)) (n # d)) eqn:Hle.
  - apply Qle_bool_iff in Hle. split; [exact Hle|]. now rewrite pow2_succ.
  - assert (Hlt : (n # d < 2 ^ (ln - ld))%Q).
    { apply Qnot_le_lt. intros H. apply Qle_bool_iff in H. congruence. }
    replace (ln - ld - 1 + 1) with (ln - ld) by lia. split; [|exact Hlt].
    assert (E : (2 ^ (ln - ld) == 2 * 2 ^ (ln - ld - 1))%Q).
    { rewrite <- pow2_succ. now replace (ln - ld - 1 + 1) with (ln - ld) by lia. }
    lra.
Qed.

(** [to_double] gives a double: a significand of 53 bits at the exponent of
    the argument, at most half a unit in the last place away from it; the
    ties go to the even significand, as [round_half_even] sends them. *)
Lemma to_double_near (q : Q) :
  ~ (q == 0)%Q ->
  let ulp := (2 ^ (binade (Qabs q) - 52))%Q in
  exists m : Z,
    (to_double q == inject_Z m * ulp)%Q /\
    2 ^ 52 <= Z.abs m <= 2 ^ 53 /\
    (Qabs (to_double q - q) <= ulp / 2)%Q.
Proof.
  intros Hq ulp. unfold to_double.
  destruct (Qeq_bool q 0) eqn:Hz; [apply Qeq_bool_iff in Hz; contradiction|].
  fold ulp. set (m := round_half_even (q / ulp)). exists m.
  assert (Hulp : (0 < ulp)%Q) by apply pow2_pos.
  assert (Habs : (0 < Qabs q)%Q).
  { destruct (Qlt_le_dec 0 (Qabs q)) as [H|H]; [exact H|].
    exfalso. apply Hq. apply Qabs_Qle_condition in H. lra. }
  destruct (binade_spec (Qabs q) Habs) as [Hlo Hhi].
  assert (Hlo' : (2 ^ 52 * ulp <= Qabs q)%Q).
  { unfold ulp. rewrite <- Qpower_plus by discriminate.
    now replace (52 + (binade (Qabs q) - 52)) with (binade (Qabs q)) by lia. }
  assert (Hhi' : (Qabs q < 2 ^ 53 * ulp)%Q).
  { unfold ulp. rewrite <- Qpower_plus by discriminate.
    now replace (53 + (binade (Qabs q) - 52)) with (binade (Qabs q) + 1) by lia. }
  pose proof (round_half_even_near (q / ulp)) as [Hnlo Hnhi]. fold m in Hnlo, Hnhi.
  assert (Hscale : (q == q / ulp * ulp)%Q) by (field; lra).
  split; [reflexivity|]. split.
  - assert (E52 : (2 ^ 52 == inject_Z (2 ^ 52))%Q) by reflexivity.
    assert (E53 : (2 ^ 53 == inject_Z (2 ^ 53))%Q) by reflexivity.
    rewrite E52 in Hlo'. rewrite E53 in Hhi'.
    assert (Hm : (inject_Z (2 ^ 52) - (1 # 2) <= Qabs (inject_Z m)
                  /\ Qabs (inject_Z m) < inject_Z (2 ^ 53) + (1 # 2))%Q).
    { destruct (Qlt_le_dec q 0) as [Hneg|Hpos].
      - rewrite (Qabs_neg q) in Hlo', Hhi' by lra.
        assert (q / ulp * ulp <= - (inject_Z (2 ^ 52) * ulp))%Q by lra.
        assert (- (inject_Z (2 ^ 53) * ulp) < q / ulp * ulp)%Q by lra.
        assert (q / ulp <= - inject_Z (2 ^ 52))%Q by nra.
        assert (- inject_Z (2 ^ 53) < q / ulp)%Q by nra.
        assert (inject_Z m <= 0)%Q.
        { destruct (Qlt_le_dec 0 (inject_Z m)) as [Hp|Hn]; [|exact Hn].
          change 0%Q with (inject_Z 0) in Hp. rewrite <- Zlt_Qlt in Hp.
          assert (1 <= m) by lia.
          assert (inject_Z 1 <= inject_Z m)%Q by now rewrite <- Zle_Qle.
          change (inject_Z 1) with 1%Q in *.
          change (inject_Z (2 ^ 52)) with 4503599627370496%Q in *. lra. }
        rewrite (Qabs_neg (inject_Z m)) by assumption. split; lra.
      - rewrite (Qabs_pos q) in Hlo', Hhi' by lra.
        assert (inject_Z (2 ^ 52) <= q / ulp)%Q by nra.
        assert (q / ulp < inject_Z (2 ^ 53))%Q by nra.
        assert (0 <= inject_Z m)%Q.
        { change (inject_Z (2 ^ 52)) with 4503599627370496%Q in *.
          destruct (Qlt_le_dec (inject_Z m) 0) as [Hn|Hp]; [|exact Hp].
          change 0%Q with (inject_Z 0) in Hn. rewrite <- Zlt_Qlt in Hn.
          assert (m <= -1) by lia.
          assert (inject_Z m <= inject_Z (-1))%Q by now rewrite <- Zle_Qle.
          change (inject_Z (-1)) with (-1)%Q in *. lra. }
        rewrite (Qabs_pos (inject_Z m)) by assumption. split; lra. }
    change (Qabs (inject_Z m)) with (inject_Z (Z.abs m)) in Hm.
    destruct Hm as [Hm1 Hm2].
    split.
    + destruct (Z_lt_le_dec (Z.abs m) (2 ^ 52)) as [Hlt|Hge]; [|exact Hge].
      assert (Z.abs m <= 2 ^ 52 - 1) by lia.
      assert (inject_Z (Z.abs m) <= inject_Z (2 ^ 52 - 1))%Q by now rewrite <- Zle_Qle.
      change (inject_Z (2 ^ 52 - 1)) with 4503599627370495%Q in *.
      change (inject_Z (2 ^ 52)) with 4503599627370496%Q in *. lra.
    + destruct (Z_lt_le_dec (2 ^ 53) (Z.abs m)) as [Hlt|Hge]; [|exact Hge].
      assert (2 ^ 53 + 1 <= Z.abs m) by lia.
      assert (inject_Z (2 ^ 53 + 1) <= inject_Z (Z.abs m))%Q by now rewrite <- Zle_Qle.
      change (inject_Z (2 ^ 53 + 1)) with 9007199254740993%Q in *.
      change (inject_Z (2 ^ 53)) with 9007199254740992%Q in *. lra.
  - apply Qabs_Qle_condition.
    assert (E : (ulp / 2 == (1 # 2) * ulp)%Q) by (field).
    rewrite E. split; nra.
Qed.

(** The sums of floats, on the tenths of the clock. *)
Example float_add_of_tenths :
  Qred (to_double (1 # 10)) = (3602879701896397 # 36028797018963968)%Q /\
  Qred (to_double (1 # 3)) = (6004799503160661 # 18014398509481984)%Q /\
  float_add (Q2Qc 5) (Q2Qc 10) = Q2Qc 15 /\
  float_add (Qc_of_tenths 5) (Qc_of_tenths 2) = Qc_of_tenths 7 /\
  float_add (Qc_of_tenths 1) (Qc_of_tenths 2)
  = Q2Qc (1351079888211149 # 4503599627370496) /\
  round1 (float_add (Qc_of_tenths 1) (Qc_of_tenths 2)) = Qc_of_tenths 3 /\
  float_add (Q2Qc (1 # 100000000000000000000)) (Q2Qc 10) = Q2Qc 10.
Proof. repeat split; first [by_evaluation|vm_compute; reflexivity]. Qed.

(** ** The monad *)

Lemma bind_Returns {A B} (c : M A) (k : A -> M B) s b s' :
  bind c k s = Returns b s' <->
  exists a s1, c s = Returns a s1 /\ k a s1 = Returns b s'.
Proof.
  unfold bind. split.
  - destruct (c s) as [a s1| |]; intros H; try discriminate. eauto.
  - intros (a & s1 & -> & H). exact H.
Qed.

Lemma bind_gets {A B} (f : SimulatorHandler -> A) (k : A -> M B) s :
  bind (gets f) k s = k (f s) s.
Proof. reflexivity. Qed.

Lemma bind_modify {B} (f : SimulatorHandler -> SimulatorHandler) (k : unit -> M B) s :
  bind (modify f) k s = k tt (f s).
Proof. reflexivity. Qed.

Lemma bind_ret {A B} (a : A) (k : A -> M B) s : bind (ret a) k s = k a s.
Proof. reflexivity. Qed.

Lemma bind_raise {A B} (e : exn) (k : A -> M B) s : bind (raise e) k s = Raises e s.
Proof. reflexivity. Qed.

Lemma bind_assoc {A B C} (c : M A) (k : A -> M B) (k' : B -> M C) s :
  bind (bind c k) k' s = bind c (fun a => bind (k a) k') s.
Proof. unfold bind. destruct (c s); reflexivity. Qed.

Lemma for_each_app {A} (l1 l2 : list A) (body : A -> M unit) s :
  for_each (l1 ++ l2) body s = (for_each l1 body ;;; for_each l2 body) s.
Proof.
  revert s. induction l1 as [|x l1 IH]; intros s; simpl.
  - reflexivity.
  - unfold bind in *. destruct (body x s) as [[] s1| |]; auto.
Qed.

Lemma for_each_Returns_app {A} (l1 l2 : list A) (body : A -> M unit) s s' :
  for_each (l1 ++ l2) body s = Returns tt s' <->
  exists s1, for_each l1 body s = Returns tt s1 /\ for_each l2 body s1 = Returns tt s'.
Proof.
  rewrite for_each_app, bind_Returns. split.
  - intros ([] & s1 & H1 & H2). eauto.
  - intros (s1 & H1 & H2). exists tt, s1. auto.
Qed.

(** A predicate on states that the body of a loop keeps, the loop keeps. *)
Lemma for_each_invariant {A} (I : SimulatorHandler -> Prop) (l : list A)
    (body : A -> M unit) :
  (forall x s s', x ∈ l -> I s -> body x s = Returns tt s' -> I s') ->
  forall s s', I s -> for_each l body s = Returns tt s' -> I s'.
Proof.
  induction l as [|x l IH]; intros Hbody s s' HI H; simpl in H.
  - inversion H; subst; auto.
  - apply bind_Returns in H as ([] & s1 & H1 & H2).
    eapply IH; [| |exact H2].
    + intros y t t' Hy. apply Hbody. now right.
    + eapply Hbody; [left|exact HI|exact H1].
Qed.

(** ** Proceeding in time: arguments that are refused *)

(** C4, as amended.  The argument of [proceed_time] is a duration, added to
    the current time, and the guard compares it with zero: for every negative
    [t], [proceed_time t] on a running simulation raises the value error and
    leaves the handler as it was, so that nothing has been sent and nothing
    received. *)
Theorem proceed_time_negative_refused (s : SimulatorHandler) (t : time) :
  is_running s = true ->
  (t < Q2Qc 0)%Qc ->
  proceed_time (Some t) s = Raises proceed_time_error s.
Proof.
  intros Hrun Hneg.
  unfold proceed_time, bind, require_running. rewrite Hrun.
  unfold truthy.
  rewrite (bool_decide_eq_false_2 (t = Q2Qc 0)).
  2:{ intros ->. exact (Qclt_not_eq _ _ Hneg eq_refl). }
  rewrite (bool_decide_eq_true_2 (t ≤ Q2Qc 0)%Qc).
  2:{ apply Qclt_le_weak, Hneg. }
  reflexivity.
Qed.

Lemma proceed_time_negative_refused_witness :
  proceed_time (Some (Qc_of_tenths (-5))) (Fixtures.running (Q2Qc 10) [] [])
  = Raises proceed_time_error (Fixtures.running (Q2Qc 10) [] []).
Proof.
  apply proceed_time_negative_refused.
  - reflexivity.
  - reflexivity.
Defined.

(** C4, as stated, fails.  At time 10, [proceed_time 5] is not refused,
    although 5 is not later than the current time: a timer is asked for time
    15, the batch is sent, the engine's reply is received, and the call
    returns at time 15. *)
Lemma proceed_time_past_target_accepted :
  let reply := mkBatsimReply (Q2Qc 15) [RequestedCallBatsimEvent (Q2Qc 15)] in
  let s := Fixtures.running (Q2Qc 10) [] [reply] in
  is_running s = true /\
  (Q2Qc 5 ≤ current_time s)%Qc /\
  exists s',
    proceed_time (Some (Q2Qc 5)) s = Returns tt s' /\
    net_sent s' = [mkBatsimMessage (Q2Qc 10)
                     [CallMeLaterBatsimRequest (Q2Qc 10) (Q2Qc 15)]] /\
    net_inbox s' = [] /\
    current_time s' = Q2Qc 15.
Proof.
  cbv zeta. split; [reflexivity|]. split; [by_evaluation|].
  eexists. split; [vm_compute; reflexivity|].
  split; [by_evaluation|].
  split; [reflexivity|].
  by_evaluation.
Qed.

(** ** Proceeding to the next event when the engine has nothing to say *)

(** C5.  The handler has no deadlock detection: on a running simulation,
    [proceed_time] without a time flushes the pending batch and waits for the
    engine.  When no reply comes the call never returns: in particular it does
    not raise. *)
Theorem proceed_time_next_event_blocks (s : SimulatorHandler) :
  is_running s = true ->
  net_inbox s = [] ->
  proceed_time None s =
  Blocks (set_batsim_requests []
            (set_net_sent
               (net_sent s ++ [mkBatsimMessage (current_time s) (__batsim_requests s)])
               (set_wait_callback false s))).
Proof.
  intros Hrun Hin.
  unfold proceed_time, bind, require_running. rewrite Hrun. simpl.
  unfold __goto_next_batsim_event, __send_requests, __handle_batsim_events,
    network_send, network_recv, bind, gets, modify. simpl.
  rewrite Hin. reflexivity.
Qed.

(** The situation of the claim: no job, no timer, no pending request, no time
    limit, nothing to come from the engine. *)
Lemma proceed_time_next_event_blocks_witness :
  proceed_time None (Fixtures.running (Q2Qc 0) [] []) =
  Blocks (set_batsim_requests []
            (set_net_sent
               (net_sent (Fixtures.running (Q2Qc 0) [] [])
                  ++ [mkBatsimMessage (current_time (Fixtures.running (Q2Qc 0) [] []))
                        (__batsim_requests (Fixtures.running (Q2Qc 0) [] []))])
               (set_wait_callback false (Fixtures.running (Q2Qc 0) [] [])))).
Proof.
  apply proceed_time_next_event_blocks; reflexivity.
Defined.

(** ** Callbacks and timers *)

Lemma call_all_Returns (registered : list callback) (s : SimulatorHandler) :
  exists s',
    for_each registered
      (fun callback => let* now := gets current_time in call callback now) s
    = Returns tt s' /\
    invoked s' = invoked s ++ map (fun c => (c, current_time s)) registered /\
    same_but_invocations s s'.
Proof.
  revert s. induction registered as [|c l IH]; intros s; simpl.
  - exists s. rewrite app_nil_r. repeat split.
  - unfold bind at 1. unfold bind at 1. unfold gets at 1. unfold call at 1.
    unfold bind at 1. unfold modify at 1.
    set (s1 := set_invoked (invoked s ++ [(c, current_time s)]) s).
    assert (Hstep : exists s2,
      match c with
      | unflag => modify (set_wait_callback false)
      | UserCallback _ => ret tt
      end s1 = Returns tt s2 /\ invoked s2 = invoked s1 /\
      current_time s2 = current_time s /\ same_but_invocations s s2).
    { destruct c; eexists; (split; [reflexivity|]); repeat split. }
    destruct Hstep as (s2 & -> & Hinv & Hnow & Hsame).
    destruct (IH s2) as (s' & Hrun & Hinv' & Hsame').
    exists s'. split; [exact Hrun|]. split.
    + rewrite Hinv', Hinv, Hnow. subst s1. simpl. now rewrite <- app_assoc.
    + unfold same_but_invocations in *. congruence.
Qed.

Lemma requested_call_fires (s : SimulatorHandler) (registered : list callback) :
  __callbacks s !! current_time s = Some registered ->
  exists s',
    __on_batsim_requested_call s = Returns tt s' /\
    invoked s' = invoked s ++ map (fun c => (c, current_time s)) registered /\
    __callbacks s' = delete (current_time s) (__callbacks s) /\
    current_time s' = current_time s.
Proof.
  intros Hreg. unfold __on_batsim_requested_call.
  rewrite bind_gets. unfold id at 1 2. rewrite Hreg.
  destruct (call_all_Returns registered s) as (s1 & Hrun & Hinv & Hsame).
  unfold bind at 1. rewrite Hrun.
  assert (Hcb : __callbacks s1 = __callbacks s).
  { unfold same_but_invocations in Hsame.
    apply (f_equal __callbacks) in Hsame. simpl in Hsame. congruence. }
  assert (Hnow : current_time s1 = current_time s).
  { unfold same_but_invocations in Hsame.
    apply (f_equal __current_time) in Hsame. simpl in Hsame.
    unfold current_time. congruence. }
  rewrite bind_gets. unfold id at 1 2 3 4. rewrite Hnow, Hcb, Hreg.
  eexists. split; [reflexivity|]. simpl. auto.
Qed.

Lemma requested_call_nothing (s : SimulatorHandler) :
  __callbacks s !! current_time s = None ->
  __on_batsim_requested_call s = Returns tt s.
Proof.
  intros Hreg. unfold __on_batsim_requested_call.
  rewrite bind_gets. unfold id. now rewrite Hreg.
Qed.

Lemma set_callback_registers (s : SimulatorHandler) (at_ : time) (c : callback) :
  is_running s = true ->
  (current_time s < at_)%Qc ->
  exists s',
    set_callback at_ (Callable c) s = Returns tt s' /\
    __callbacks s' = <[at_ := default [] (__callbacks s !! at_) ++ [c]]> (__callbacks s) /\
    invoked s' = invoked s /\
    __current_time s' = __current_time s /\
    exists now, CallMeLaterBatsimRequest now at_ ∈ __batsim_requests s'.
Proof.
  intros Hrun Hlt.
  unfold set_callback, require_running, bind, gets. rewrite Hrun.
  rewrite bool_decide_eq_false_2 by (apply Qclt_not_le, Hlt).
  unfold modify at 1.
  unfold __set_batsim_call_me_later, bind, gets. simpl.
  rewrite bool_decide_eq_false_2 by (apply Qclt_not_le, Hlt).
  destruct (existsb _ _) eqn:Hex; cbn [negb];
    eexists; (split; [reflexivity|]); simpl; repeat split.
  - apply existsb_exists in Hex as (r & Hin & Hr).
    destruct r; try discriminate. simpl in Hr. apply bool_decide_eq_true in Hr.
    subst. eexists. apply list_elem_of_In. exact Hin.
  - eexists. apply list_elem_of_In, in_or_app. right. left. reflexivity.
Qed.

(** What the timer-fired event does.  The clock of the handler has one
    decimal: when the event with timestamp [ts] is delivered, the time [t]
    that counts is [ts] rounded to one decimal place.  Every callback
    registered for exactly [t] is invoked once, in the order of registration,
    with [t] as argument; the entry of [t] is removed and the other entries
    stay, and no other callback is invoked.  Registration puts a callback at
    the end of the entry of its time and touches no other entry. *)
Lemma timer_fires_entry_of_clock :
  (forall (s : SimulatorHandler) (ts : time) (registered : list callback),
     let t := round1 ts in
     __callbacks s !! t = Some registered ->
     exists s',
       deliver (RequestedCallBatsimEvent ts) s = Returns tt s' /\
       invoked s' = invoked s ++ map (fun c => (c, t)) registered /\
       __callbacks s' !! t = None /\
       (forall t', t' <> t -> __callbacks s' !! t' = __callbacks s !! t')) /\
  (forall (s : SimulatorHandler) (ts : time),
     __callbacks s !! round1 ts = None ->
     exists s',
       deliver (RequestedCallBatsimEvent ts) s = Returns tt s' /\
       invoked s' = invoked s /\ __callbacks s' = __callbacks s) /\
  (forall (s : SimulatorHandler) (at_ : time) (c : callback),
     is_running s = true ->
     (current_time s < at_)%Qc ->
     exists s',
       set_callback at_ (Callable c) s = Returns tt s' /\
       __callbacks s' !! at_ = Some (default [] (__callbacks s !! at_) ++ [c]) /\
       (forall t', t' <> at_ -> __callbacks s' !! t' = __callbacks s !! t') /\
       invoked s' = invoked s /\
       exists now, CallMeLaterBatsimRequest now at_ ∈ __batsim_requests s').
Proof.
  split; [|split].
  - intros s ts registered t Hreg.
    unfold deliver, bind, modify. simpl.
    set (s0 := set_current_time ts s).
    destruct (requested_call_fires s0 registered) as (s' & Hrun & Hinv & Hcb & _).
    { exact Hreg. }
    exists s'. split; [exact Hrun|]. split; [exact Hinv|].
    rewrite Hcb. split.
    + apply lookup_delete_eq.
    + intros t' Hne. apply lookup_delete_ne.
      intros Heq. apply Hne. rewrite <- Heq. reflexivity.
  - intros s ts Hnone.
    unfold deliver, bind, modify. simpl.
    rewrite requested_call_nothing by exact Hnone.
    eexists. split; [reflexivity|]. auto.
  - intros s at_ c Hrun Hlt.
    destruct (set_callback_registers s at_ c Hrun Hlt)
      as (s' & Hset & Hcb & Hinv & _ & Hreq).
    exists s'. split; [exact Hset|]. rewrite Hcb. split; [|split; [|split]].
    + apply lookup_insert_eq.
    + intros t' Hne. apply lookup_insert_ne. congruence.
    + exact Hinv.
    + exact Hreq.
Qed.

Example timer_fires_entry_of_clock_example :
  let s := set_callbacks {[ Qc_of_tenths 5 := [UserCallback 1; UserCallback 2] ]}
             (Fixtures.running (Q2Qc 0) [] []) in
  let ts := Qc_of_hundredths 52 in
  exists s',
    deliver (RequestedCallBatsimEvent ts) s = Returns tt s' /\
    invoked s' = invoked s
                 ++ map (fun c => (c, round1 ts)) [UserCallback 1; UserCallback 2] /\
    __callbacks s' !! round1 ts = None /\
    (forall t', t' <> round1 ts -> __callbacks s' !! t' = __callbacks s !! t').
Proof.
  cbv zeta.
  apply (proj1 timer_fires_entry_of_clock).
  by_evaluation.
Qed.

(** A timer-fired event leaves alone the entry of a time that is not a
    number of tenths, and invokes nothing with such a time. *)
Lemma timer_spares_entry_between_tenths (s : SimulatorHandler) (at_ ts : time) :
  round1 at_ <> at_ ->
  exists s',
    deliver (RequestedCallBatsimEvent ts) s = Returns tt s' /\
    __callbacks s' !! at_ = __callbacks s !! at_ /\
    exists calls,
      invoked s' = invoked s ++ calls /\
      Forall (fun call : callback * time => call.2 <> at_) calls.
Proof.
  intros Hraw.
  assert (Hne : at_ <> round1 ts).
  { intros ->. apply Hraw. apply round1_rounded. }
  destruct (__callbacks s !! round1 ts) as [registered|] eqn:Hreg.
  - destruct (proj1 timer_fires_entry_of_clock s ts registered Hreg)
      as (s' & Hrun & Hinv & _ & Hother).
    exists s'. split; [exact Hrun|]. split; [now apply Hother|].
    eexists. split; [exact Hinv|].
    apply Forall_forall. intros call Hin.
    apply list_elem_of_fmap in Hin as (c & -> & _). cbn. congruence.
  - destruct (proj1 (proj2 timer_fires_entry_of_clock) s ts Hreg)
      as (s' & Hrun & Hinv & Hcb).
    exists s'. split; [exact Hrun|]. split; [now rewrite Hcb|].
    exists []. rewrite app_nil_r. split; [exact Hinv|constructor].
Qed.

(** C6.  The claim fails for the times that are not a number of tenths.
    [set_callback] accepts such a time when it is later than the clock: the
    callback is put in the table under the time as it is given, and the
    engine is asked for a timer at that time.  The table is searched under
    the clock, which has one decimal.  So, whatever timer-fired events come
    from the engine afterwards, the one for the time of the callback among
    them, the handler takes them all, the entry of the callback stays as it
    is, and no invocation that these events make carries the time of the
    callback: the callback is not called at the time defined, at which the
    timer fires. *)
Theorem callback_between_tenths_never_fires (s : SimulatorHandler) (at_ : time)
    (c : callback) :
  is_running s = true ->
  (current_time s < at_)%Qc ->
  round1 at_ <> at_ ->
  exists s1,
    set_callback at_ (Callable c) s = Returns tt s1 /\
    __callbacks s1 !! at_ = Some (default [] (__callbacks s !! at_) ++ [c]) /\
    (exists now, CallMeLaterBatsimRequest now at_ ∈ __batsim_requests s1) /\
    forall fired : list time,
    exists s2,
      for_each (RequestedCallBatsimEvent <$> fired) deliver s1 = Returns tt s2 /\
      __callbacks s2 !! at_ = Some (default [] (__callbacks s !! at_) ++ [c]) /\
      exists calls,
        invoked s2 = invoked s1 ++ calls /\
        Forall (fun call : callback * time => call.2 <> at_) calls.
Proof.
  intros Hrun Hlt Hraw.
  destruct (proj2 (proj2 timer_fires_entry_of_clock) s at_ c Hrun Hlt)
    as (s1 & Hset & Hentry & _ & _ & Hreq).
  exists s1. split; [exact Hset|]. split; [exact Hentry|]. split; [exact Hreq|].
  intros fired. rewrite <- Hentry. clear Hset Hentry Hreq Hrun Hlt.
  revert s1. induction fired as [|ts fired IH]; intros s1.
  - exists s1. split; [reflexivity|]. split; [reflexivity|].
    exists []. rewrite app_nil_r. split; [reflexivity|constructor].
  - destruct (timer_spares_entry_between_tenths s1 at_ ts Hraw)
      as (s2 & Hrun & Hcb & calls & Hinv & Hcalls).
    destruct (IH s2) as (s3 & Hrest & Hcb' & calls' & Hinv' & Hcalls').
    exists s3. split; [|split].
    + cbn [fmap list_fmap for_each]. unfold bind. now rewrite Hrun.
    + congruence.
    + exists (calls ++ calls'). split.
      * now rewrite Hinv', Hinv, <- app_assoc.
      * now apply Forall_app.
Qed.

Lemma callback_between_tenths_never_fires_witness :
  let s := Fixtures.running (Q2Qc 0) [] [] in
  let at_ := Qc_of_hundredths 25 in
  exists s1,
    set_callback at_ (Callable (UserCallback 1)) s = Returns tt s1 /\
    __callbacks s1 !! at_
    = Some (default [] (__callbacks s !! at_) ++ [UserCallback 1]) /\
    (exists now, CallMeLaterBatsimRequest now at_ ∈ __batsim_requests s1) /\
    forall fired : list time,
    exists s2,
      for_each (RequestedCallBatsimEvent <$> fired) deliver s1 = Returns tt s2 /\
      __callbacks s2 !! at_
      = Some (default [] (__callbacks s !! at_) ++ [UserCallback 1]) /\
      exists calls,
        invoked s2 = invoked s1 ++ calls /\
        Forall (fun call : callback * time => call.2 <> at_) calls.
Proof.
  cbv zeta. apply callback_between_tenths_never_fires.
  - reflexivity.
  - by_evaluation.
  - by_evaluation.
Defined.

(** The failing case, step by step.  A callback is registered for time 0.25
    and the engine is asked for a timer at 0.25.  When the timer fires at
    0.25 the callback is not invoked, and its entry stays: the table is
    searched at 0.2. *)
Example timer_misses_callback_between_tenths :
  let s0 := Fixtures.running (Q2Qc 0) [] [] in
  let t := Qc_of_hundredths 25 in
  exists s1 s2,
    set_callback t (Callable (UserCallback 1)) s0 = Returns tt s1 /\
    __callbacks s1 !! t = Some [UserCallback 1] /\
    __batsim_requests s1 = [CallMeLaterBatsimRequest (Q2Qc 0) t] /\
    deliver (RequestedCallBatsimEvent t) s1 = Returns tt s2 /\
    __current_time s2 = t /\
    current_time s2 = Qc_of_tenths 2 /\
    invoked s2 = [] /\
    __callbacks s2 !! t = Some [UserCallback 1].
Proof.
  cbv zeta. eexists. eexists.
  split; [vm_compute; reflexivity|].
  split; [by_evaluation|].
  split; [by_evaluation|].
  split; [vm_compute; reflexivity|].
  split; [by_evaluation|].
  split; [by_evaluation|].
  split; [reflexivity|].
  by_evaluation.
Qed.

(** ** Illegal transitions *)

Lemma guarded_loop {A} (l : list A) (body : A -> M unit) (s : SimulatorHandler) p :
  is_running s = true ->
  __platform s = Some p ->
  (require_running ;;; require_platform ;;; for_each l body) s = for_each l body s.
Proof.
  intros Hrun Hp. unfold bind, require_running, require_platform.
  now rewrite Hrun, Hp.
Qed.

Lemma guarded_loop_Returns {A} (l : list A) (body : A -> M unit) s s' :
  (require_running ;;; require_platform ;;; for_each l body) s = Returns tt s' ->
  is_running s = true /\ (exists p, __platform s = Some p) /\
  for_each l body s = Returns tt s'.
Proof.
  unfold bind, require_running, require_platform.
  destruct (is_running s); [|discriminate].
  destruct (__platform s) as [p|]; [|discriminate].
  intros H. split; [reflexivity|]. split; [eauto|exact H].
Qed.

Lemma switch_off_host_refused s h_id p host e :
  __platform s = Some p -> p !! h_id = Some host -> Host_switch_off host = inl e ->
  switch_off_host h_id s = Raises e s.
Proof.
  intros Hp Hh He. unfold switch_off_host, bind, platform_get, Platform_get.
  rewrite Hp, Hh. simpl. now rewrite He.
Qed.

Lemma switch_on_host_refused s h_id p host e :
  __platform s = Some p -> p !! h_id = Some host -> Host_switch_on host = inl e ->
  switch_on_host h_id s = Raises e s.
Proof.
  intros Hp Hh He. unfold switch_on_host, bind, platform_get, Platform_get.
  rewrite Hp, Hh. simpl. now rewrite He.
Qed.

Lemma loop_stops_at_refusal {A} (body : A -> M unit) pre x post s s1 s2 e :
  for_each pre body s = Returns tt s1 ->
  body x s1 = Raises e s2 ->
  for_each (pre ++ x :: post) body s = Raises e s2.
Proof.
  intros Hpre Hx. rewrite for_each_app. unfold bind at 1. rewrite Hpre.
  simpl. unfold bind. now rewrite Hx.
Qed.

Lemma Host_switch_off_not_idle host :
  is_idle host = false -> exists msg, Host_switch_off host = inl (RuntimeError msg).
Proof.
  intros H. unfold Host_switch_off. rewrite H.
  destruct (host_sleep_pstate host); eauto.
Qed.

Lemma Host_switch_on_not_sleeping host :
  is_sleeping host = false -> exists msg, Host_switch_on host = inl (RuntimeError msg).
Proof.
  intros H. unfold Host_switch_on. rewrite H.
  destruct (host_default_pstate host); eauto.
Qed.

(** C7, as amended.  An illegal transition is surfaced at once, and the
    refused step itself changes nothing: rejecting a job that is not queued
    leaves the handler as it was; [switch_off] and [switch_on] go through
    their hosts in order, and when a host is refused the error comes out in
    the state reached after the hosts before it, the refused host and the
    hosts after it being untouched.  When the first host is the one refused,
    the handler is left as it was. *)
Theorem illegal_transition_stops_at_once :
  (forall s id i job,
     is_running s = true ->
     find_job id s = Some (i, job) ->
     is_submitted job = false ->
     reject_job id s
     = Raises (RuntimeError "Only jobs in the queue can be rejected.") s) /\
  (forall s pre h_id post s1 p host,
     switch_off pre s = Returns tt s1 ->
     __platform s1 = Some p -> p !! h_id = Some host ->
     is_idle host = false ->
     exists msg, switch_off (pre ++ h_id :: post) s = Raises (RuntimeError msg) s1) /\
  (forall s pre h_id post s1 p host,
     switch_on pre s = Returns tt s1 ->
     __platform s1 = Some p -> p !! h_id = Some host ->
     is_sleeping host = false ->
     exists msg, switch_on (pre ++ h_id :: post) s = Raises (RuntimeError msg) s1) /\
  (forall s h_id post p host,
     is_running s = true ->
     __platform s = Some p -> p !! h_id = Some host ->
     (is_idle host = false ->
      exists msg, switch_off (h_id :: post) s = Raises (RuntimeError msg) s) /\
     (is_sleeping host = false ->
      exists msg, switch_on (h_id :: post) s = Raises (RuntimeError msg) s)).
Proof.
  repeat split.
  - intros s id i job Hrun Hfind Hq.
    unfold reject_job, bind, require_running, gets. rewrite Hrun.
    unfold Datatypes.id. rewrite Hfind, Hq. reflexivity.
  - intros s pre h_id post s1 p host Hpre Hp Hh Hidle.
    destruct (Host_switch_off_not_idle host Hidle) as (msg & He).
    exists msg. unfold switch_off in *.
    apply guarded_loop_Returns in Hpre as (Hrun & (p0 & Hp0) & Hpre).
    rewrite (guarded_loop _ _ _ p0 Hrun Hp0).
    eapply loop_stops_at_refusal; [exact Hpre|].
    eapply switch_off_host_refused; eauto.
  - intros s pre h_id post s1 p host Hpre Hp Hh Hsl.
    destruct (Host_switch_on_not_sleeping host Hsl) as (msg & He).
    exists msg. unfold switch_on in *.
    apply guarded_loop_Returns in Hpre as (Hrun & (p0 & Hp0) & Hpre).
    rewrite (guarded_loop _ _ _ p0 Hrun Hp0).
    eapply loop_stops_at_refusal; [exact Hpre|].
    eapply switch_on_host_refused; eauto.
  - intros Hidle.
    destruct (Host_switch_off_not_idle host Hidle) as (msg & He).
    exists msg. unfold switch_off.
    rewrite (guarded_loop _ _ _ p) by assumption.
    apply (loop_stops_at_refusal _ [] h_id post s s s (RuntimeError msg)); [reflexivity|].
    eapply switch_off_host_refused; eauto.
  - intros Hsl.
    destruct (Host_switch_on_not_sleeping host Hsl) as (msg & He).
    exists msg. unfold switch_on.
    rewrite (guarded_loop _ _ _ p) by assumption.
    apply (loop_stops_at_refusal _ [] h_id post s s s (RuntimeError msg)); [reflexivity|].
    eapply switch_on_host_refused; eauto.
Qed.

Lemma illegal_transition_stops_at_once_witness :
  let s := Fixtures.running (Q2Qc 0)
             [Fixtures.job "j" RUNNING (Some [1])] [] in
  reject_job "j" s
  = Raises (RuntimeError "Only jobs in the queue can be rejected.") s.
Proof.
  cbv zeta.
  apply (proj1 illegal_transition_stops_at_once _ "j" 0%nat
           (Fixtures.job "j" RUNNING (Some [1]))); reflexivity.
Defined.

(** C7, as stated, fails for a sequence of hosts.  Host 0 is idle and host 1
    computes: [switch_off [0; 1]] raises for host 1, after the request that
    sends host 0 to its sleep power state has been queued. *)
Lemma switch_off_sequence_is_not_atomic :
  let s := Fixtures.running (Q2Qc 0) [] [] in
  exists s1,
    switch_off [0; 1] s
    = Raises (RuntimeError "A host must be idle to switch off.") s1 /\
    __batsim_requests s = [] /\
    __batsim_requests s1
    = [SetResourceStateBatsimRequest (current_time s) {[0]} 1].
Proof.
  cbv zeta. eexists.
  split; [vm_compute; reflexivity|].
  split; [reflexivity|].
  by_evaluation.
Qed.

(** ** Coalescing of power-state requests *)

Lemma same_properties_inv now p r :
  same_properties now p r = true ->
  exists res, r = SetResourceStateBatsimRequest now res p.
Proof.
  unfold same_properties. destruct r; simpl;
    repeat case_bool_decide; simpl; try discriminate.
  subst. eauto.
Qed.

Lemma same_properties_add_resource now p h r :
  same_properties now p (add_resource h r) = same_properties now p r.
Proof. destruct r; reflexivity. Qed.

Lemma same_properties_new now p now' p' res :
  same_properties now' p' (SetResourceStateBatsimRequest now res p)
  = bool_decide (now = now') && bool_decide (p = p').
Proof.
  unfold same_properties. simpl. repeat case_bool_decide; reflexivity.
Qed.

Lemma set_host_pstate_request_nil now h p :
  set_host_pstate_request now h p [] = [SetResourceStateBatsimRequest now {[h]} p].
Proof. reflexivity. Qed.

Lemma set_host_pstate_request_cons now h p r reqs :
  set_host_pstate_request now h p (r :: reqs) =
  if same_properties now p r then add_resource h r :: reqs
  else r :: set_host_pstate_request now h p reqs.
Proof.
  unfold set_host_pstate_request, get_old_request. simpl.
  destruct (same_properties now p r) eqn:E.
  - rewrite decide_True by done. reflexivity.
  - rewrite decide_False by (intros []).
    destruct (list_find _ reqs) as [[i r']|]; reflexivity.
Qed.

(** What one call does to the requests of each instant and destination. *)
Lemma pending_for_set_host_pstate_request now h p now' p' reqs :
  pending_for now' p' (set_host_pstate_request now h p reqs) =
  if bool_decide (now = now') && bool_decide (p = p') then
    match pending_for now p reqs with
    | [] => [SetResourceStateBatsimRequest now {[h]} p]
    | r :: rest => add_resource h r :: rest
    end
  else pending_for now' p' reqs.
Proof.
  unfold pending_for.
  induction reqs as [|r reqs IH].
  - rewrite set_host_pstate_request_nil. simpl.
    rewrite same_properties_new. now destruct (_ && _).
  - rewrite set_host_pstate_request_cons.
    destruct (bool_decide (now = now') && bool_decide (p = p')) eqn:D.
    + apply andb_true_iff in D as [D1 D2].
      apply bool_decide_eq_true in D1, D2. subst now' p'.
      destruct (same_properties now p r) eqn:E; simpl.
      * now rewrite same_properties_add_resource, E.
      * now rewrite E, IH.
    + destruct (same_properties now p r) eqn:E; simpl.
      * rewrite same_properties_add_resource.
        destruct (same_properties_inv _ _ _ E) as (res & ->).
        now rewrite same_properties_new, D.
      * now rewrite IH.
Qed.

Lemma resources_of_add_resource now p h r :
  same_properties now p r = true ->
  resources_of (add_resource h r) = resources_of r ∪ {[h]}.
Proof. intros E. destruct (same_properties_inv _ _ _ E) as (res & ->). reflexivity. Qed.

Lemma pending_for_all now p reqs :
  Forall (fun r => same_properties now p r = true) (pending_for now p reqs).
Proof.
  unfold pending_for. apply List.Forall_forall. intros r Hr.
  apply List.filter_In in Hr. tauto.
Qed.

Lemma coalesced_set_host_pstate_request now h p reqs :
  coalesced reqs -> coalesced (set_host_pstate_request now h p reqs).
Proof.
  intros Hc now' p'. rewrite pending_for_set_host_pstate_request.
  destruct (_ && _); [|apply Hc].
  specialize (Hc now p). destruct (pending_for now p reqs); simpl in *; lia.
Qed.

Lemma hosts_pending_set_host_pstate_request now h p now' p' reqs :
  hosts_pending now' p' (set_host_pstate_request now h p reqs) =
  if bool_decide (now = now') && bool_decide (p = p')
  then hosts_pending now p reqs ∪ {[h]}
  else hosts_pending now' p' reqs.
Proof.
  unfold hosts_pending. rewrite pending_for_set_host_pstate_request.
  destruct (_ && _); [|reflexivity].
  pose proof (pending_for_all now p reqs) as Hall.
  destruct (pending_for now p reqs) as [|r rest]; simpl.
  - set_solver.
  - inversion Hall as [|? ? Hr _]; subst.
    rewrite (resources_of_add_resource now p) by exact Hr. set_solver.
Qed.

Lemma pending_for_grows_once now h p now' p' reqs :
  (length (pending_for now' p' reqs)
   <= length (pending_for now' p' (set_host_pstate_request now h p reqs)))%nat.
Proof.
  rewrite pending_for_set_host_pstate_request.
  destruct (_ && _) eqn:D; [|lia].
  apply andb_true_iff in D as [D1 D2].
  apply bool_decide_eq_true in D1, D2. subst.
  destruct (pending_for now' p' reqs); simpl; lia.
Qed.

Lemma pending_for_nonempty now h p reqs :
  (1 <= length (pending_for now p (set_host_pstate_request now h p reqs)))%nat.
Proof.
  rewrite pending_for_set_host_pstate_request.
  rewrite !bool_decide_eq_true_2 by reflexivity. simpl.
  destruct (pending_for now p reqs); simpl; lia.
Qed.

Lemma pending_for_grows now targets p reqs :
  (length (pending_for now p reqs)
   <= length (pending_for now p (set_host_pstate_requests now targets reqs)))%nat.
Proof.
  revert reqs. unfold set_host_pstate_requests.
  induction targets as [|[h q] targets IH]; intros reqs; simpl; [lia|].
  etransitivity; [|apply IH].
  apply pending_for_grows_once.
Qed.

(** What a sequence of calls at one instant does. *)
Lemma set_host_pstate_requests_spec now targets reqs :
  coalesced reqs ->
  coalesced (set_host_pstate_requests now targets reqs) /\
  (forall p,
     hosts_pending now p (set_host_pstate_requests now targets reqs)
     = hosts_pending now p reqs ∪ list_to_set (targeted p targets)) /\
  (forall p,
     targeted p targets <> [] ->
     length (pending_for now p (set_host_pstate_requests now targets reqs)) = 1%nat).
Proof.
  revert reqs.
  induction targets as [|[h q] targets IH]; intros reqs Hc.
  - split; [exact Hc|]. split; [intros p; set_solver|]. intros p H. now destruct H.
  - specialize (IH (set_host_pstate_request now h q reqs)
                   (coalesced_set_host_pstate_request now h q reqs Hc)).
    destruct IH as (IHc & IHh & IHl).
    change (set_host_pstate_requests now ((h, q) :: targets) reqs)
      with (set_host_pstate_requests now targets (set_host_pstate_request now h q reqs)).
    split; [exact IHc|]. split.
    + intros p. rewrite IHh, hosts_pending_set_host_pstate_request.
      unfold targeted. simpl.
      rewrite bool_decide_eq_true_2 by reflexivity. simpl.
      case_bool_decide; subst; simpl; set_solver.
    + intros p Hp.
      destruct (decide (q = p)) as [->|Hne].
      * apply Nat.le_antisymm; [apply IHc|].
        etransitivity; [|apply pending_for_grows].
        apply pending_for_nonempty.
      * apply IHl. unfold targeted in *. simpl in Hp.
        now rewrite bool_decide_eq_false_2 in Hp by exact Hne.
Qed.

Lemma catalogs_agree_refl pf : catalogs_agree pf pf.
Proof. intros h. split; reflexivity. Qed.

Lemma catalogs_agree_trans pf1 pf2 pf3 :
  catalogs_agree pf1 pf2 -> catalogs_agree pf2 pf3 -> catalogs_agree pf1 pf3.
Proof.
  intros H12 H23 h. destruct (H12 h), (H23 h). split; congruence.
Qed.

Lemma catalogs_agree_insert pf h host host' :
  pf !! h = Some host ->
  host_default_pstate host' = host_default_pstate host ->
  host_sleep_pstate host' = host_sleep_pstate host ->
  catalogs_agree pf (<[h := host']> pf).
Proof.
  intros Hh Hd Hs k. destruct (decide (h = k)) as [->|Hne].
  - rewrite lookup_insert_eq, Hh. simpl. split; congruence.
  - rewrite lookup_insert_ne by exact Hne. split; reflexivity.
Qed.

Lemma omap_pointwise {A B} (f g : A -> option B) (l : list A) :
  (forall x, f x = g x) -> omap f l = omap g l.
Proof.
  intros Hfg. induction l as [|x l IH]; [reflexivity|].
  cbn. now rewrite Hfg, IH.
Qed.

Lemma destinations_agree pf pf' a :
  catalogs_agree pf pf' -> destinations pf' a = destinations pf a.
Proof.
  intros Hag. destruct a as [hs|hs|h p]; simpl; [| |reflexivity].
  - apply omap_pointwise. intros h. destruct (Hag h) as [Hd _].
    destruct (pf' !! h) as [x'|], (pf !! h) as [x|]; simpl in *;
      try discriminate; [|reflexivity].
    injection Hd as ->. reflexivity.
  - apply omap_pointwise. intros h. destruct (Hag h) as [_ Hs].
    destruct (pf' !! h) as [x'|], (pf !! h) as [x|]; simpl in *;
      try discriminate; [|reflexivity].
    injection Hs as ->. reflexivity.
Qed.

Lemma set_host_pstate_requests_app now t1 t2 reqs :
  set_host_pstate_requests now (t1 ++ t2) reqs
  = set_host_pstate_requests now t2 (set_host_pstate_requests now t1 reqs).
Proof. apply foldl_app. Qed.

Lemma queues_power_requests_for_each {A} (f : A -> Platform -> list (Z * Z))
    (body : A -> M unit) (l : list A) :
  (forall x, queues_power_requests (f x) (body x)) ->
  (forall x pf pf', catalogs_agree pf pf' -> f x pf' = f x pf) ->
  queues_power_requests (fun pf => concat (map (fun x => f x pf) l)) (for_each l body).
Proof.
  intros Hbody Hstable.
  induction l as [|x l IH]; intros s s' pf Hpf Hrun; simpl in *.
  - inversion Hrun; subst. exists pf. split; [exact Hpf|].
    split; [apply catalogs_agree_refl|]. split; reflexivity.
  - apply bind_Returns in Hrun as ([] & s1 & H1 & H2).
    destruct (Hbody x s s1 pf Hpf H1) as (pf1 & Hpf1 & Hag1 & Ht1 & Hr1).
    destruct (IH s1 s' pf1 Hpf1 H2) as (pf' & Hpf' & Hag' & Ht' & Hr').
    exists pf'. split; [exact Hpf'|].
    split; [eapply catalogs_agree_trans; eassumption|].
    split; [congruence|].
    rewrite set_host_pstate_requests_app, Hr', Hr1.
    unfold current_time. rewrite Ht1. f_equal.
    f_equal. clear -Hstable Hag1. induction l as [|y l IHl]; simpl; [reflexivity|].
    now rewrite IHl, (Hstable y pf pf1 Hag1).
Qed.

Lemma switch_on_host_queues h :
  queues_power_requests (fun pf => destinations pf (SwitchOn [h])) (switch_on_host h).
Proof.
  intros s s' pf Hpf Hrun. unfold switch_on_host, platform_get, Platform_get in Hrun.
  unfold bind in Hrun. rewrite Hpf in Hrun. simpl.
  destruct (pf !! h) as [host|] eqn:Hh; [|discriminate]. simpl in Hrun.
  unfold Host_switch_on in Hrun.
  destruct (host_default_pstate host) as [p|] eqn:Hd; [|discriminate].
  destruct (is_sleeping host); [|discriminate]. simpl in Hrun.
  unfold Host_get_default_pstate in Hrun. simpl in Hrun. rewrite Hd in Hrun.
  simpl in Hrun. inversion Hrun; subst; clear Hrun. simpl. rewrite Hpf, Hd. simpl.
  eexists. split; [reflexivity|].
  split; [eapply catalogs_agree_insert; [exact Hh|reflexivity|reflexivity]|].
  split; reflexivity.
Qed.

Lemma switch_off_host_queues h :
  queues_power_requests (fun pf => destinations pf (SwitchOff [h])) (switch_off_host h).
Proof.
  intros s s' pf Hpf Hrun. unfold switch_off_host, platform_get, Platform_get in Hrun.
  unfold bind in Hrun. rewrite Hpf in Hrun. simpl.
  destruct (pf !! h) as [host|] eqn:Hh; [|discriminate]. simpl in Hrun.
  unfold Host_switch_off in Hrun.
  destruct (host_sleep_pstate host) as [p|] eqn:Hd; [|discriminate].
  destruct (is_idle host); [|discriminate]. simpl in Hrun.
  unfold Host_get_sleep_pstate in Hrun. simpl in Hrun. rewrite Hd in Hrun.
  simpl in Hrun. inversion Hrun; subst; clear Hrun. simpl. rewrite Hpf, Hd. simpl.
  eexists. split; [reflexivity|].
  split; [eapply catalogs_agree_insert; [exact Hh|reflexivity|reflexivity]|].
  split; reflexivity.
Qed.

Lemma destinations_switch_on pf hs :
  destinations pf (SwitchOn hs)
  = concat (map (fun h => destinations pf (SwitchOn [h])) hs).
Proof.
  induction hs as [|h hs IH]; [reflexivity|].
  cbn in *. rewrite <- IH. now destruct (_ ≫= _).
Qed.

Lemma destinations_switch_off pf hs :
  destinations pf (SwitchOff hs)
  = concat (map (fun h => destinations pf (SwitchOff [h])) hs).
Proof.
  induction hs as [|h hs IH]; [reflexivity|].
  cbn in *. rewrite <- IH. now destruct (_ ≫= _).
Qed.

Lemma Host_set_computation_pstate_inv pstate_id host host' :
  Host_set_computation_pstate pstate_id host = inr host' ->
  exists q, ps_id q = pstate_id /\ host' = set_host_pstate q host.
Proof.
  unfold Host_set_computation_pstate.
  destruct (is_idle host || is_computing host); [|discriminate].
  destruct (List.find _ _) as [q|] eqn:Hfind; [|discriminate].
  destruct (bool_decide (ps_type q = COMPUTATION)); [|discriminate].
  intros [= <-]. exists q. split; [|reflexivity].
  apply List.find_some in Hfind as [_ Hq]. now apply bool_decide_eq_true in Hq.
Qed.

Lemma perform_queues (a : power_action) :
  queues_power_requests (fun pf => destinations pf a) (perform a).
Proof.
  destruct a as [hs|hs|h p]; cbn [perform].
  - intros s s' pf Hpf Hrun. unfold switch_on in Hrun.
    apply guarded_loop_Returns in Hrun as (_ & _ & Hrun).
    rewrite destinations_switch_on.
    refine (queues_power_requests_for_each
              (fun h pf => destinations pf (SwitchOn [h])) _ hs _ _ s s' pf Hpf Hrun).
    + apply switch_on_host_queues.
    + intros h pf1 pf2 Hag. now apply destinations_agree.
  - intros s s' pf Hpf Hrun. unfold switch_off in Hrun.
    apply guarded_loop_Returns in Hrun as (_ & _ & Hrun).
    rewrite destinations_switch_off.
    refine (queues_power_requests_for_each
              (fun h pf => destinations pf (SwitchOff [h])) _ hs _ _ s s' pf Hpf Hrun).
    + apply switch_off_host_queues.
    + intros h pf1 pf2 Hag. now apply destinations_agree.
  - intros s s' pf Hpf Hrun.
    unfold switch_power_state, bind, require_running, require_platform,
      platform_get, Platform_get in Hrun.
    destruct (is_running s); [|discriminate].
    rewrite Hpf in Hrun. cbv beta iota in Hrun. rewrite Hpf in Hrun.
    destruct (pf !! h) as [host|] eqn:Hh; simpl in Hrun; [|discriminate].
    destruct (Host_set_computation_pstate p host) as [e|host'] eqn:Hset;
      simpl in Hrun; [discriminate|].
    destruct (Host_set_computation_pstate_inv _ _ _ Hset) as (q & Hq & ->).
    simpl in Hrun. inversion Hrun; subst; clear Hrun. simpl. rewrite Hpf. simpl.
    eexists. split; [reflexivity|].
    split; [eapply catalogs_agree_insert; [exact Hh|reflexivity|reflexivity]|].
    split; reflexivity.
Qed.

Lemma actions_queue (actions : list power_action) :
  queues_power_requests
    (fun pf => concat (map (destinations pf) actions)) (for_each actions perform).
Proof.
  apply (queues_power_requests_for_each (fun a pf => destinations pf a)).
  - apply perform_queues.
  - intros a pf pf' Hag. now apply destinations_agree.
Qed.

(** C3.  Power actions issued at one instant, from pending requests that hold
    at most one request for each instant and destination (as after a flush):
    for every power state [p] that some action sends a host to, the pending
    requests hold exactly one set-resource-state request of that instant for
    [p], and its hosts are those already pending for [p] together with all
    the hosts that the actions send to [p]. *)
Theorem power_requests_are_coalesced
    (s s' : SimulatorHandler) (pf : Platform) (actions : list power_action) (p : Z) :
  __platform s = Some pf ->
  coalesced (__batsim_requests s) ->
  for_each actions perform s = Returns tt s' ->
  let now := current_time s in
  let hosts := targeted p (concat (map (destinations pf) actions)) in
  hosts <> [] ->
  current_time s' = now /\
  coalesced (__batsim_requests s') /\
  exists res,
    pending_for now p (__batsim_requests s')
    = [SetResourceStateBatsimRequest now res p] /\
    res = hosts_pending now p (__batsim_requests s) ∪ list_to_set hosts.
Proof.
  intros Hpf Hc Hrun now hosts Hne.
  destruct (actions_queue actions s s' pf Hpf Hrun) as (pf' & _ & _ & Ht & Hr).
  destruct (set_host_pstate_requests_spec now
              (concat (map (destinations pf) actions)) (__batsim_requests s) Hc)
    as (Hc' & Hh & Hl).
  fold now in Hr. rewrite <- Hr in Hc', Hh, Hl.
  split; [unfold now, current_time; now rewrite Ht|].
  split; [exact Hc'|].
  specialize (Hl p Hne). specialize (Hh p).
  pose proof (pending_for_all now p (__batsim_requests s')) as Hall.
  unfold hosts_pending in Hh at 1.
  destruct (pending_for now p (__batsim_requests s')) as [|r [|r' rest]];
    try discriminate.
  inversion Hall as [|? ? Hr1 _]; subst.
  destruct (same_properties_inv _ _ _ Hr1) as (res & ->).
  exists res. split; [reflexivity|].
  unfold hosts. rewrite <- Hh. simpl. set_solver.
Qed.

Lemma power_requests_are_coalesced_witness :
  let s := Fixtures.running (Q2Qc 0) [] [] in
  let actions := [SwitchOff [0]; SwitchPowerState 1 2; SwitchOff [3]] in
  exists s',
    for_each actions perform s = Returns tt s' /\
    current_time s' = current_time s /\
    coalesced (__batsim_requests s') /\
    exists res,
      pending_for (current_time s) 1 (__batsim_requests s')
      = [SetResourceStateBatsimRequest (current_time s) res 1] /\
      res = hosts_pending (current_time s) 1 (__batsim_requests s)
            ∪ list_to_set
                (targeted 1 (concat (map (destinations Fixtures.four_hosts) actions))).
Proof.
  cbv zeta. eexists. split; [vm_compute; reflexivity|].
  eapply (power_requests_are_coalesced _ _ Fixtures.four_hosts).
  - reflexivity.
  - intros now p. simpl. lia.
  - vm_compute. reflexivity.
  - discriminate.
Defined.

(** ** The mirrored power state follows the engine *)

Lemma follows_settled state host host' :
  follows state host host' ->
  host_state host' <> SWITCHING_OFF /\ host_state host' <> SWITCHING_ON.
Proof.
  intros [sleep Hst _|default Hst _|pstate reported [Hst|Hst] _ _ _ _|[Hst|[[Hst|Hst] _]]];
    cbn; rewrite ?Hst; split; discriminate.
Qed.

(** A host that has followed a report is left as it is by a second report of
    the same power state. *)
Lemma follows_once state host host' host'' :
  follows state host host' ->
  ps_id <$> host_pstate host' = Some state ->
  follows state host' host'' ->
  host'' = host'.
Proof.
  intros Hfirst Hid Hsecond.
  destruct (follows_settled _ _ _ Hfirst) as [Hoff Hon].
  destruct Hsecond as [sleep Hst _|default Hst _|pstate reported _ Hp Hne _ _|_];
    [contradiction|contradiction| |reflexivity].
  rewrite Hp in Hid. cbn in Hid. congruence.
Qed.

Lemma apply_reported_state_follows state pstate host host' :
  host_pstate host = Some pstate ->
  apply_reported_state state pstate host = inr host' ->
  follows state host host'.
Proof.
  intros Hp. unfold apply_reported_state.
  unfold is_switching_off at 1. case_bool_decide as Hoff.
  { unfold Host_set_off. destruct (host_sleep_pstate host) as [sleep|] eqn:Hs;
      [|discriminate].
    unfold is_switching_off. rewrite bool_decide_eq_true_2 by exact Hoff.
    intros [= <-]. now apply follows_off. }
  unfold is_switching_on at 1. case_bool_decide as Hon.
  { unfold Host_set_on. destruct (host_default_pstate host) as [default|] eqn:Hd;
      [|discriminate].
    unfold is_switching_on. rewrite bool_decide_eq_true_2 by exact Hon.
    intros [= <-]. now apply follows_on. }
  unfold is_idle at 1, is_computing at 1.
  destruct (host_state host) eqn:Hst; try congruence;
    repeat (case_bool_decide; try congruence); cbn [orb andb negb].
  all: try (intros [= <-]; apply follows_same; rewrite Hp; cbn; intuition congruence).
  all: unfold Host_set_computation_pstate, is_idle, is_computing; rewrite Hst;
    repeat (case_bool_decide; try congruence); cbn [orb];
    destruct (List.find _ _) as [reported|] eqn:Hfind; [|discriminate];
    case_bool_decide as Htype; [|discriminate];
    intros [= <-]; eapply follows_change; eauto.
Qed.

Lemma follows_apply state pstate host host' :
  host_pstate host = Some pstate ->
  follows state host host' ->
  apply_reported_state state pstate host = inr host'.
Proof.
  intros Hp Hfollows. unfold apply_reported_state.
  destruct Hfollows as [sleep Hst Hs|default Hst Hd|pstate0 reported Hst Hp0 Hne Hfind Htype|Hst].
  - unfold is_switching_off at 1. rewrite bool_decide_eq_true_2 by exact Hst.
    unfold Host_set_off, is_switching_off. rewrite Hs.
    now rewrite bool_decide_eq_true_2 by exact Hst.
  - unfold is_switching_off at 1, is_switching_on at 1.
    rewrite bool_decide_eq_false_2 by congruence.
    rewrite bool_decide_eq_true_2 by exact Hst.
    unfold Host_set_on, is_switching_on. rewrite Hd.
    now rewrite bool_decide_eq_true_2 by exact Hst.
  - assert (pstate0 = pstate) as -> by congruence.
    assert (Hbusy : is_idle host || is_computing host = true).
    { unfold is_idle, is_computing.
      destruct Hst as [Hst|Hst]; rewrite Hst; reflexivity. }
    unfold is_switching_off at 1, is_switching_on at 1.
    rewrite !bool_decide_eq_false_2 by (destruct Hst; congruence).
    rewrite Hbusy. rewrite ?(bool_decide_eq_false_2 (ps_id pstate = state)) by exact Hne.
    cbn [andb negb]. unfold Host_set_computation_pstate. rewrite Hbusy, Hfind.
    now rewrite bool_decide_eq_true_2 by exact Htype.
  - unfold is_switching_off at 1, is_switching_on at 1, is_idle at 1, is_computing at 1.
    destruct Hst as [Hst|[Hst Hid]].
    + rewrite Hst. reflexivity.
    + rewrite Hp in Hid. cbn in Hid. injection Hid as Hid.
      rewrite !bool_decide_eq_false_2 by (destruct Hst; congruence).
      rewrite (bool_decide_eq_true_2 (ps_id pstate = state)) by exact Hid.
      cbn [negb]. now rewrite andb_false_r.
Qed.

(** Where no rule applies to the host, the transition of the host is the one
    that refuses, with an error of its own. *)
Lemma apply_reported_state_refused state pstate host :
  host_pstate host = Some pstate ->
  (forall host', ~ follows state host host') ->
  exists e, apply_reported_state state pstate host = inl e /\
            forall msg, e <> SystemError msg.
Proof.
  intros Hp Hnone.
  destruct (apply_reported_state state pstate host) as [e|host'] eqn:Happly.
  2:{ exfalso. eapply Hnone, apply_reported_state_follows; eassumption. }
  exists e. split; [reflexivity|]. revert Happly. unfold apply_reported_state.
  unfold is_switching_off at 1. case_bool_decide as Hoff.
  { unfold Host_set_off, is_switching_off.
    rewrite bool_decide_eq_true_2 by exact Hoff.
    destruct (host_sleep_pstate host); intros [= <-]. discriminate. }
  unfold is_switching_on at 1. case_bool_decide as Hon.
  { unfold Host_set_on, is_switching_on.
    rewrite bool_decide_eq_true_2 by exact Hon.
    destruct (host_default_pstate host); intros [= <-]. discriminate. }
  destruct (_ && _); [|discriminate].
  unfold Host_set_computation_pstate.
  destruct (_ || _); [|intros [= <-]; discriminate].
  destruct (List.find _ _); [|intros [= <-]; discriminate].
  case_bool_decide; intros [= <-]. discriminate.
Qed.

Lemma host_state_changed_Returns state h_id s s' :
  host_state_changed state h_id s = Returns tt s' ->
  exists pf host host',
    __platform s = Some pf /\ pf !! h_id = Some host /\
    follows state host host' /\
    s' = set_platform (Some (<[h_id := host']> pf)) s /\
    ps_id <$> host_pstate host' = Some state.
Proof.
  unfold host_state_changed, bind, platform_get, Platform_get.
  destruct (__platform s) as [pf|] eqn:Hpf; [|discriminate].
  destruct (pf !! h_id) as [host|] eqn:Hh; [|discriminate]. cbn [lift ret].
  destruct (host_pstate host) as [pstate|] eqn:Hp; [|discriminate].
  destruct (apply_reported_state state pstate host) as [e|host'] eqn:Happly;
    [discriminate|].
  cbn [lift ret put_host modify].
  destruct (host_pstate host') as [pstate'|] eqn:Hp'; [|discriminate].
  case_bool_decide as Hid; [|discriminate]. cbn [negb ret].
  intros [= <-]. exists pf, host, host'.
  split; [reflexivity|]. split; [exact Hh|].
  split; [eapply apply_reported_state_follows; eassumption|].
  split; [now rewrite Hpf|]. rewrite Hp'. cbn. now rewrite Hid.
Qed.

Lemma follows_pstate state host host' :
  is_Some (host_pstate host) -> follows state host host' ->
  is_Some (host_pstate host').
Proof. intros Hp [| | |]; cbn; eauto. Qed.

Lemma host_state_changed_mismatch state h_id s pf host host' :
  __platform s = Some pf ->
  pf !! h_id = Some host ->
  is_Some (host_pstate host) ->
  follows state host host' ->
  ps_id <$> host_pstate host' <> Some state ->
  host_state_changed state h_id s
  = Raises desync_error (set_platform (Some (<[h_id := host']> pf)) s).
Proof.
  intros Hpf Hh Hsome Hfollows Hne.
  destruct (follows_pstate _ _ _ Hsome Hfollows) as [pstate' Hp'].
  destruct Hsome as [pstate Hp].
  unfold host_state_changed, bind, platform_get, Platform_get.
  rewrite Hpf, Hh. cbn [lift ret].
  rewrite Hp, (follows_apply _ _ _ _ Hp Hfollows). cbn [lift ret put_host modify].
  rewrite Hp'. rewrite bool_decide_eq_false_2.
  - cbn. now rewrite Hpf.
  - intros Hid. apply Hne. rewrite Hp'. cbn. now rewrite Hid.
Qed.

Lemma host_state_changed_refused state h_id s pf host :
  __platform s = Some pf ->
  pf !! h_id = Some host ->
  is_Some (host_pstate host) ->
  (forall host', ~ follows state host host') ->
  exists e, host_state_changed state h_id s = Raises e s /\
            forall msg, e <> SystemError msg.
Proof.
  intros Hpf Hh [pstate Hp] Hnone.
  destruct (apply_reported_state_refused state pstate host Hp Hnone)
    as (e & Happly & He).
  exists e. split; [|exact He].
  unfold host_state_changed, bind, platform_get, Platform_get.
  rewrite Hpf, Hh. cbn [lift ret]. rewrite Hp, Happly. reflexivity.
Qed.

Lemma host_state_changed_loop state resources s s1 pf :
  __platform s = Some pf ->
  for_each resources (host_state_changed state) s = Returns tt s1 ->
  exists pf1,
    s1 = set_platform (Some pf1) s /\
    (forall h_id, h_id ∈ resources ->
       exists host host',
         pf !! h_id = Some host /\ pf1 !! h_id = Some host' /\
         follows state host host' /\
         ps_id <$> host_pstate host' = Some state) /\
    (forall h_id, h_id ∉ resources -> pf1 !! h_id = pf !! h_id).
Proof.
  revert s pf. induction resources as [|h resources IH]; intros s pf Hpf Hrun;
    simpl in Hrun.
  - inversion Hrun; subst. exists pf. split; [|split].
    + destruct s1; cbn in *; now subst.
    + intros k Hk. inversion Hk.
    + reflexivity.
  - apply bind_Returns in Hrun as ([] & s0 & H1 & H2).
    destruct (host_state_changed_Returns _ _ _ _ H1)
      as (pf' & host & host' & Hpf' & Hh & Hfollows & -> & Hid).
    assert (pf' = pf) as -> by congruence.
    destruct (IH (set_platform (Some (<[h := host']> pf)) s) (<[h := host']> pf)
                eq_refl H2) as (pf1 & -> & Hin & Hout).
    exists pf1. split; [reflexivity|]. split.
    + intros k Hk. destruct (decide (k = h)) as [->|Hne].
      * exists host, host'. split; [exact Hh|]. split; [|auto].
        destruct (decide (h ∈ resources)) as [Hagain|Hnot].
        -- destruct (Hin h Hagain) as (host1 & host1' & Hh1 & Hh1' & Hf1 & _).
           rewrite lookup_insert_eq in Hh1. injection Hh1 as <-.
           now rewrite (follows_once _ _ _ _ Hfollows Hid Hf1) in Hh1'.
        -- rewrite (Hout h Hnot). apply lookup_insert_eq.
      * apply elem_of_cons in Hk as [->|Hk]; [contradiction|].
        destruct (Hin k Hk) as (host1 & host1' & Hh1 & Hrest).
        rewrite lookup_insert_ne in Hh1 by congruence. eauto.
    + intros k Hk. apply not_elem_of_cons in Hk as [Hne Hk].
      rewrite (Hout k Hk). now rewrite lookup_insert_ne by congruence.
Qed.

Lemma host_state_changed_loop_platform state pre s s1 pf :
  for_each pre (host_state_changed state) s = Returns tt s1 ->
  __platform s1 = Some pf ->
  is_Some (__platform s).
Proof.
  intros Hpre Hpf. destruct pre as [|x pre]; simpl in Hpre.
  - inversion Hpre; subst. eauto.
  - destruct (__platform s) eqn:E; [eauto|].
    unfold bind, host_state_changed, platform_get in Hpre.
    unfold bind in Hpre. now rewrite E in Hpre.
Qed.

(** C2, as amended.  The handler of a resource-state-changed event takes the
    reported hosts in turn.  Each follows the report by the rule of its
    state: a host switching off sleeps in its sleep power state, a host
    switching on is idle in its default power state, an idle or computing
    host with another power state takes the computation power state of its
    catalog that has the reported id, and any other host is left as it is.
    When the handler returns, every reported host has followed its rule and
    is mirrored at the reported id, the other hosts are untouched, and the
    attempt to start jobs has come after.  When the rule leaves a host with
    another id, the system error is raised at that host, and the mirror holds
    what the rule made of the host: nothing puts the id right.  When no rule
    applies, the transition of the host refuses with an error of its own,
    which is not the system error, and the mirror is left as it was. *)
Theorem mirrored_pstate_matches_engine :
  (forall s resources state s',
     __on_batsim_host_state_changed resources state s = Returns tt s' ->
     exists s1,
       for_each resources (host_state_changed state) s = Returns tt s1 /\
       (forall h_id, h_id ∈ resources ->
          mirrored_pstate_id s1 h_id = Some state /\
          exists host host',
            mirrored_host s h_id = Some host /\
            mirrored_host s1 h_id = Some host' /\
            follows state host host') /\
       (forall h_id, h_id ∉ resources ->
          mirrored_host s1 h_id = mirrored_host s h_id) /\
       __start_runnable_jobs s1 = Returns tt s') /\
  (forall s pre h_id post state s1 pf host host',
     for_each pre (host_state_changed state) s = Returns tt s1 ->
     __platform s1 = Some pf ->
     pf !! h_id = Some host ->
     is_Some (host_pstate host) ->
     follows state host host' ->
     ps_id <$> host_pstate host' <> Some state ->
     let s2 := set_platform (Some (<[h_id := host']> pf)) s1 in
     __on_batsim_host_state_changed (pre ++ h_id :: post) state s
     = Raises desync_error s2 /\
     mirrored_host s2 h_id = Some host' /\
     mirrored_pstate_id s2 h_id <> Some state) /\
  (forall s pre h_id post state s1 pf host,
     for_each pre (host_state_changed state) s = Returns tt s1 ->
     __platform s1 = Some pf ->
     pf !! h_id = Some host ->
     is_Some (host_pstate host) ->
     (forall host', ~ follows state host host') ->
     exists e,
       __on_batsim_host_state_changed (pre ++ h_id :: post) state s = Raises e s1 /\
       (forall msg, e <> SystemError msg) /\
       mirrored_host s1 h_id = Some host).
Proof.
  assert (Hopen : forall s pre state s1 pf,
     for_each pre (host_state_changed state) s = Returns tt s1 ->
     __platform s1 = Some pf ->
     forall resources,
       __on_batsim_host_state_changed resources state s
       = (for_each resources (host_state_changed state) ;;; __start_runnable_jobs) s).
  { intros s pre state s1 pf Hpre Hpf resources.
    unfold __on_batsim_host_state_changed, bind at 1, require_platform.
    destruct (host_state_changed_loop_platform _ _ _ _ _ Hpre Hpf) as [pf0 ->].
    reflexivity. }
  split; [|split].
  - intros s resources state s' Hrun.
    unfold __on_batsim_host_state_changed in Hrun.
    apply bind_Returns in Hrun as ([] & s0 & H0 & Hrun).
    apply bind_Returns in Hrun as ([] & s1 & H1 & H2).
    unfold require_platform in H0.
    destruct (__platform s) as [pf|] eqn:Hpf; inversion H0; subst s0.
    exists s1. split; [exact H1|].
    destruct (host_state_changed_loop _ _ _ _ pf Hpf H1) as (pf1 & -> & Hin & Hout).
    unfold mirrored_pstate_id, mirrored_host. cbn. rewrite Hpf. cbn.
    split; [|split; [exact Hout|exact H2]].
    intros h_id Hh. destruct (Hin h_id Hh) as (host & host' & Hhost & Hhost' & Hf & Hid).
    rewrite Hhost'. cbn. split; [exact Hid|]. eauto.
  - intros s pre h_id post state s1 pf host host' Hpre Hpf Hh Hsome Hfollows Hne s2.
    assert (Hhost' : mirrored_host s2 h_id = Some host').
    { unfold mirrored_host, s2. cbn. apply lookup_insert_eq. }
    split; [|split; [exact Hhost'|]].
    + rewrite (Hopen _ _ _ _ _ Hpre Hpf). unfold bind at 1.
      rewrite (loop_stops_at_refusal _ pre h_id post s s1 s2 desync_error).
      * reflexivity.
      * exact Hpre.
      * now apply (host_state_changed_mismatch state h_id s1 pf host host').
    + unfold mirrored_pstate_id. unfold mirrored_host in Hhost'.
      destruct (__platform s2) as [pf2|]; [|discriminate]. cbn in *.
      rewrite Hhost'. exact Hne.
  - intros s pre h_id post state s1 pf host Hpre Hpf Hh Hsome Hnone.
    destruct (host_state_changed_refused state h_id s1 pf host Hpf Hh Hsome Hnone)
      as (e & Hraise & He).
    exists e. split; [|split; [exact He|]].
    + rewrite (Hopen _ _ _ _ _ Hpre Hpf). unfold bind at 1.
      now rewrite (loop_stops_at_refusal _ pre h_id post s s1 s1 e).
    + unfold mirrored_host. rewrite Hpf. exact Hh.
Qed.

Lemma mirrored_pstate_matches_engine_witness :
  let s := Fixtures.running (Q2Qc 0) [] [] in
  (exists s' s1,
     switch_off [0; 3] s = Returns tt s1 /\
     __on_batsim_host_state_changed [0; 3] 1 s1 = Returns tt s' /\
     exists s2,
       for_each [0; 3] (host_state_changed 1) s1 = Returns tt s2 /\
       (forall h_id, h_id ∈ [0; 3] ->
          mirrored_pstate_id s2 h_id = Some 1 /\
          exists host host',
            mirrored_host s1 h_id = Some host /\
            mirrored_host s2 h_id = Some host' /\
            follows 1 host host') /\
       (forall h_id, h_id ∉ [0; 3] ->
          mirrored_host s2 h_id = mirrored_host s1 h_id) /\
       __start_runnable_jobs s2 = Returns tt s') /\
  (let asleep := Fixtures.host SLEEPING Fixtures.p_sleep in
   let s2 := set_platform (Some (<[2 := asleep]> Fixtures.four_hosts)) s in
   __on_batsim_host_state_changed [2] 0 s = Raises desync_error s2 /\
   mirrored_host s2 2 = Some asleep /\
   mirrored_pstate_id s2 2 <> Some 0) /\
  (exists e,
     __on_batsim_host_state_changed [0] 7 s = Raises e s /\
     (forall msg, e <> SystemError msg) /\
     mirrored_host s 0 = Some (Fixtures.host IDLE Fixtures.p_on)).
Proof.
  cbv zeta. split; [|split].
  - eexists. eexists.
    split; [vm_compute; reflexivity|].
    split; [vm_compute; reflexivity|].
    apply (proj1 mirrored_pstate_matches_engine).
    vm_compute. reflexivity.
  - apply (proj1 (proj2 mirrored_pstate_matches_engine)
             (Fixtures.running (Q2Qc 0) [] []) [] 2 [] 0
             (Fixtures.running (Q2Qc 0) [] []) Fixtures.four_hosts
             (Fixtures.host SLEEPING Fixtures.p_sleep)
             (Fixtures.host SLEEPING Fixtures.p_sleep)).
    + reflexivity.
    + reflexivity.
    + reflexivity.
    + eexists. reflexivity.
    + apply follows_same. now left.
    + discriminate.
  - apply (proj2 (proj2 mirrored_pstate_matches_engine)
             (Fixtures.running (Q2Qc 0) [] []) [] 0 [] 7
             (Fixtures.running (Q2Qc 0) [] []) Fixtures.four_hosts
             (Fixtures.host IDLE Fixtures.p_on)).
    + reflexivity.
    + reflexivity.
    + reflexivity.
    + eexists. reflexivity.
    + intros host' Hfollows.
      inversion Hfollows; try discriminate.
      match goal with
      | H : _ \/ _ |- _ => destruct H as [H|[_ H]]; discriminate H
      end.
Defined.

(** C2, as stated, fails.  Host 0 is idle in power state 0.  The engine
    reports for it a power state that its catalog does not have, or its sleep
    power state: the change of power state is refused by the host, and the
    handler ends with the error of the host, a lookup error or a runtime
    error.  The mirror and the report disagree, and no system error is
    raised. *)
Lemma refused_report_is_no_system_error :
  let s := Fixtures.running (Q2Qc 0) [] [] in
  mirrored_pstate_id s 0 = Some 0 /\
  __on_batsim_host_state_changed [0] 7 s
  = Raises (LookupError "The power state could not be found.") s /\
  __on_batsim_host_state_changed [0] 1 s
  = Raises (RuntimeError "The power state is not a computation one.") s.
Proof. cbv zeta. repeat split; by_evaluation. Qed.

(** A report that the mirror cannot follow: host 2 sleeps, in power state 1,
    and the engine reports power state 0 for it. *)
Example desync_is_raised :
  let s := Fixtures.running (Q2Qc 0) [] [] in
  __on_batsim_host_state_changed [2] 0 s = Raises desync_error s.
Proof. cbv zeta. by_evaluation. Qed.


(** ** Starting the runnable jobs *)

Lemma switch_on_single s s' h_id :
  switch_on [h_id] s = Returns tt s' ->
  exists pf host p,
    __platform s = Some pf /\ pf !! h_id = Some host /\
    host_state host = SLEEPING /\ host_default_pstate host = Some p /\
    s' = switched_on h_id host p pf s.
Proof.
  intros Hrun. unfold switch_on in Hrun.
  apply guarded_loop_Returns in Hrun as (_ & (pf & Hpf) & Hrun).
  simpl in Hrun. apply bind_Returns in Hrun as ([] & s1 & Hrun & Hret).
  inversion Hret; subst s1; clear Hret.
  unfold switch_on_host, bind, platform_get, Platform_get in Hrun.
  rewrite Hpf in Hrun.
  destruct (pf !! h_id) as [host|] eqn:Hh; [|discriminate]. cbn [lift ret] in Hrun.
  unfold Host_switch_on in Hrun.
  destruct (host_default_pstate host) as [p|] eqn:Hd; [|discriminate].
  unfold is_sleeping in Hrun. case_bool_decide as Hsl; [|discriminate].
  cbn [lift ret put_host modify] in Hrun.
  unfold Host_get_default_pstate in Hrun. cbn in Hrun. rewrite Hd in Hrun.
  cbn in Hrun. rewrite Hpf in Hrun. inversion Hrun; subst; clear Hrun.
  exists pf, host, p. repeat split; assumption.
Qed.

Lemma switch_on_single_sleeping s pf h_id host p :
  is_running s = true ->
  __platform s = Some pf -> pf !! h_id = Some host ->
  host_state host = SLEEPING -> host_default_pstate host = Some p ->
  switch_on [h_id] s = Returns tt (switched_on h_id host p pf s).
Proof.
  intros Hrun Hpf Hh Hsl Hd. unfold switch_on.
  rewrite (guarded_loop _ _ _ pf Hrun Hpf). simpl.
  unfold switch_on_host, bind, platform_get, Platform_get.
  rewrite Hpf, Hh. cbn [lift ret]. unfold Host_switch_on, is_sleeping.
  rewrite Hd, bool_decide_eq_true_2 by exact Hsl.
  cbn [lift ret put_host modify]. unfold Host_get_default_pstate. cbn.
  rewrite Hd. cbn. rewrite Hpf. reflexivity.
Qed.

(** A predicate that [switch_on] of one host keeps, the inner loop keeps. *)
Lemma check_allocation_invariant (I : SimulatorHandler -> Prop) :
  (forall h_id s s', I s -> switch_on [h_id] s = Returns tt s' -> I s') ->
  forall alloc b s b' s',
    I s -> check_allocation alloc b s = Returns b' s' -> I s'.
Proof.
  intros Hon. induction alloc as [|h_id alloc IH]; intros b s b' s' HI Hrun;
    simpl in Hrun.
  - inversion Hrun; subst; exact HI.
  - apply bind_Returns in Hrun as (host & s1 & Hget & Hrun).
    apply bind_Returns in Hrun as ([] & s2 & Hwhen & Hrun).
    assert (s1 = s) as ->.
    { unfold platform_get in Hget. destruct (__platform s) as [pf|]; [|discriminate].
      unfold Platform_get in Hget. destruct (pf !! h_id); now inversion Hget. }
    eapply IH; [|exact Hrun].
    unfold when in Hwhen. destruct (is_sleeping host).
    + eapply Hon; eassumption.
    + inversion Hwhen; subst; exact HI.
Qed.

(** When the inner loop answers that the job is ready, it has found every
    host idle, and has changed nothing. *)
Lemma check_allocation_ready alloc b s s' :
  check_allocation alloc b s = Returns true s' ->
  b = true /\ s' = s /\ all_idle s alloc.
Proof.
  revert b s. induction alloc as [|h_id alloc IH]; intros b s Hrun; simpl in Hrun.
  - inversion Hrun; subst. repeat split. intros h Hh. inversion Hh.
  - apply bind_Returns in Hrun as (host & s1 & Hget & Hrun).
    apply bind_Returns in Hrun as ([] & s2 & Hwhen & Hrun).
    assert (s1 = s /\ mirrored_host s h_id = Some host) as [-> Hhost].
    { unfold platform_get, mirrored_host in *.
      destruct (__platform s) as [pf|]; [|discriminate].
      unfold Platform_get in Hget. cbn. destruct (pf !! h_id); now inversion Hget. }
    apply IH in Hrun as (Hb & -> & Hidle).
    destruct (is_idle host) eqn:Hi; [|discriminate]. simpl in Hb. subst b.
    assert (is_sleeping host = false) as Hsl.
    { unfold is_idle, is_sleeping in *. apply bool_decide_eq_true in Hi.
      apply bool_decide_eq_false. congruence. }
    rewrite Hsl in Hwhen. inversion Hwhen; subst.
    repeat split. intros k Hk. apply elem_of_cons in Hk as [->|Hk]; eauto.
Qed.

(** A host that is not idle keeps the job from being ready. *)
Lemma check_allocation_not_idle alloc b s b' s' h_id host :
  check_allocation alloc b s = Returns b' s' ->
  h_id ∈ alloc -> mirrored_host s h_id = Some host -> is_idle host = false ->
  b' = false.
Proof.
  intros Hrun Hin Hhost Hidle. destruct b'; [|reflexivity].
  apply check_allocation_ready in Hrun as (_ & _ & Hall).
  destruct (Hall h_id Hin) as (host' & Hhost' & Hidle'). congruence.
Qed.

(** The cases of one turn of the outer loop. *)
Lemma start_if_ready_cases i s s' :
  start_if_ready i s = Returns tt s' ->
  (__jobs s !! i = None /\ s' = s) \/
  exists job alloc,
    __jobs s !! i = Some job /\ job_allocation job = Some alloc /\ alloc <> [] /\
    ((check_allocation alloc true s = Returns false s') \/
     (check_allocation alloc true s = Returns true s /\ all_idle s alloc /\
      is_runnable job = true /\ s' = started i job alloc s)).
Proof.
  unfold start_if_ready. rewrite bind_gets. unfold id.
  destruct (__jobs s !! i) as [job|] eqn:Hjob.
  2:{ intros H; inversion H; auto. }
  destruct (job_allocation job) as [[|h alloc]|] eqn:Halloc; try discriminate.
  intros Hrun. right. exists job, (h :: alloc).
  split; [reflexivity|]. split; [exact Halloc|]. split; [discriminate|].
  apply bind_Returns in Hrun as (b & s1 & Hcheck & Hrun).
  destruct b.
  - right. destruct (check_allocation_ready _ _ _ _ Hcheck) as (_ & -> & Hall).
    split; [exact Hcheck|]. split; [exact Hall|].
    rewrite bind_gets in Hrun. unfold start_job in Hrun.
    unfold Job_start in Hrun. destruct (is_runnable job); [|discriminate].
    split; [reflexivity|].
    cbn in Hrun. rewrite Halloc in Hrun. cbn in Hrun.
    inversion Hrun; subst s'. unfold started. cbn. now rewrite Halloc.
  - left. inversion Hrun; subst s'. exact Hcheck.
Qed.

Lemma is_execute_set_host_pstate_request now h p reqs :
  List.filter is_execute (set_host_pstate_request now h p reqs)
  = List.filter is_execute reqs.
Proof.
  induction reqs as [|r reqs IH].
  - reflexivity.
  - rewrite set_host_pstate_request_cons.
    destruct (same_properties now p r) eqn:E; simpl.
    + destruct (same_properties_inv _ _ _ E) as (res & ->). reflexivity.
    + now rewrite IH.
Qed.

Lemma switch_on_same_jobs s0 h_id s s' :
  same_jobs s0 s -> switch_on [h_id] s = Returns tt s' -> same_jobs s0 s'.
Proof.
  intros [Hj Hr] Hrun.
  apply switch_on_single in Hrun as (pf & host & p & _ & _ & _ & _ & ->).
  split; [exact Hj|]. cbn. now rewrite is_execute_set_host_pstate_request.
Qed.

(** One turn of the outer loop either leaves the jobs and the execute
    requests as they are, or starts the job of the turn, all the hosts of
    which are idle at that moment. *)
Lemma start_if_ready_step i s s' :
  start_if_ready i s = Returns tt s' ->
  same_jobs s s' \/
  exists job alloc,
    __jobs s !! i = Some job /\ job_allocation job = Some alloc /\
    is_runnable job = true /\ all_idle s alloc /\ s' = started i job alloc s.
Proof.
  intros Hrun. apply start_if_ready_cases in Hrun as [[_ ->]|Hrun].
  - left. split; reflexivity.
  - destruct Hrun as (job & alloc & Hjob & Halloc & _ & [Hno|(_ & Hall & Hr & ->)]).
    + left.
      refine (check_allocation_invariant (same_jobs s) _ alloc true s false s' _ Hno).
      * intros h t t'. apply switch_on_same_jobs.
      * split; reflexivity.
    + right. exists job, alloc. auto.
Qed.

Lemma starts_in_turn i k s s' :
  start_if_ready i s = Returns tt s' ->
  starts k s s' ->
  k = i /\
  exists job alloc,
    __jobs s !! i = Some job /\ job_allocation job = Some alloc /\
    is_runnable job = true /\ all_idle s alloc /\ s' = started i job alloc s.
Proof.
  intros Hrun (job & job' & Hk & Hnot & Hk' & Hrunning).
  apply start_if_ready_step in Hrun as [[Hj _]|Hrun].
  - rewrite Hj in Hk'. congruence.
  - destruct Hrun as (job0 & alloc & Hjob & Halloc & Hr & Hall & ->).
    destruct (decide (k = i)) as [->|Hne].
    + split; [reflexivity|]. exists job0, alloc. auto.
    + cbn in Hk'. rewrite list_lookup_insert_ne in Hk' by congruence. congruence.
Qed.

Lemma not_started_yet i k s s' job :
  start_if_ready i s = Returns tt s' ->
  __jobs s !! k = Some job -> job_state job <> RUNNING ->
  starts k s s' \/ __jobs s' !! k = Some job.
Proof.
  intros Hrun Hk Hnot.
  apply start_if_ready_step in Hrun as [[Hj _]|Hrun].
  - right. now rewrite Hj.
  - destruct Hrun as (job0 & alloc & Hjob & Halloc & Hr & Hall & ->).
    destruct (decide (k = i)) as [->|Hne].
    + left. exists job. eexists. split; [exact Hk|]. split; [exact Hnot|].
      cbn. rewrite list_lookup_insert_eq by (now apply lookup_lt_Some in Hk).
      split; reflexivity.
    + right. cbn. now rewrite list_lookup_insert_ne by congruence.
Qed.

(** A start during the loop happens in the turn of the job. *)
Lemma starts_in_loop (l : list nat) k s s' :
  for_each l start_if_ready s = Returns tt s' ->
  starts k s s' ->
  exists pre post s1 s2,
    l = pre ++ k :: post /\
    for_each pre start_if_ready s = Returns tt s1 /\
    start_if_ready k s1 = Returns tt s2 /\
    for_each post start_if_ready s2 = Returns tt s' /\
    starts k s1 s2.
Proof.
  revert s. induction l as [|i l IH]; intros s Hrun Hst; simpl in Hrun.
  - inversion Hrun; subst. destruct Hst as (job & job' & Hk & Hnot & Hk' & Hr).
    congruence.
  - apply bind_Returns in Hrun as ([] & s1 & H1 & H2).
    destruct Hst as (job & job' & Hk & Hnot & Hk' & Hr).
    destruct (not_started_yet i k s s1 job H1 Hk Hnot) as [Hst1|Hsame].
    + destruct (starts_in_turn i k s s1 H1 Hst1) as [-> _].
      exists [], l, s, s1. repeat split; auto.
    + destruct (IH s1 H2) as (pre & post & t1 & t2 & -> & Hpre & Hk1 & Hpost & Hst2).
      { exists job, job'. auto. }
      exists (i :: pre), post, t1, t2. repeat split; auto.
      simpl. unfold bind. now rewrite H1.
Qed.

Lemma start_runnable_jobs_loop s s' :
  is_running s = true ->
  __start_runnable_jobs s = Returns tt s' ->
  for_each (runnable_jobs s) start_if_ready s = Returns tt s'.
Proof.
  intros Hrun H. unfold __start_runnable_jobs in H. rewrite bind_gets in H.
  unfold id in H. rewrite Hrun in H. cbn [negb] in H.
  apply bind_Returns in H as ([] & s0 & H0 & H).
  unfold require_platform in H0. destruct (__platform s); now inversion H0; subst.
Qed.

(** C1.  In an attempt to start the runnable jobs, a job is started in its
    own turn of the loop, and in the state of that moment every host of its
    allocation is idle, all at once: the check has changed nothing.  A turn
    that finds a host of the allocation not idle (sleeping, switching or
    computing) leaves the job as it was and queues no execute request.
    [allocate], the handlers of a state change of hosts and of the completion
    of a job, and every turn of the loop of [proceed_time] start jobs through
    this attempt only. *)
Theorem start_requires_idle_hosts :
  (forall s s' k,
     __start_runnable_jobs s = Returns tt s' ->
     starts k s s' ->
     exists pre post s1 job alloc,
       runnable_jobs s = pre ++ k :: post /\
       for_each pre start_if_ready s = Returns tt s1 /\
       __jobs s1 !! k = Some job /\ job_allocation job = Some alloc /\
       all_idle s1 alloc /\
       start_if_ready k s1 = Returns tt (started k job alloc s1) /\
       for_each post start_if_ready (started k job alloc s1) = Returns tt s') /\
  (forall s s' i job alloc h_id host,
     start_if_ready i s = Returns tt s' ->
     __jobs s !! i = Some job -> job_allocation job = Some alloc ->
     h_id ∈ alloc -> mirrored_host s h_id = Some host -> is_idle host = false ->
     __jobs s' = __jobs s /\
     List.filter is_execute (__batsim_requests s')
     = List.filter is_execute (__batsim_requests s)).
Proof.
  split.
  - intros s s' k H Hst.
    destruct (is_running s) eqn:Hrun.
    2:{ unfold __start_runnable_jobs in H. rewrite bind_gets in H.
        unfold id in H. rewrite Hrun in H. inversion H; subst s'.
        destruct Hst as (job & job' & Hk & Hnot & Hk' & Hr). congruence. }
    apply start_runnable_jobs_loop in H; [|exact Hrun].
    destruct (starts_in_loop _ k s s' H Hst)
      as (pre & post & s1 & s2 & Hl & Hpre & Hk & Hpost & Hst1).
    destruct (starts_in_turn k k s1 s2 Hk Hst1)
      as (_ & job & alloc & Hjob & Halloc & _ & Hall & ->).
    exists pre, post, s1, job, alloc. repeat split; auto.
  - intros s s' i job alloc h_id host Hrun Hjob Halloc Hin Hhost Hidle.
    apply start_if_ready_step in Hrun as [Hsame|Hrun]; [exact Hsame|].
    destruct Hrun as (job0 & alloc0 & Hjob0 & Halloc0 & _ & Hall & _).
    assert (alloc0 = alloc) as -> by congruence.
    destruct (Hall h_id Hin) as (host' & Hhost' & Hidle'). congruence.
Qed.

Lemma start_requires_idle_hosts_witness :
  let s := Fixtures.running (Q2Qc 0)
             [Fixtures.job "a" ALLOCATED (Some [0; 2]);
              Fixtures.job "b" ALLOCATED (Some [0; 3])] [] in
  exists s',
    __start_runnable_jobs s = Returns tt s' /\
    exists pre post s1 job alloc,
      runnable_jobs s = pre ++ 1%nat :: post /\
      for_each pre start_if_ready s = Returns tt s1 /\
      __jobs s1 !! 1%nat = Some job /\ job_allocation job = Some alloc /\
      all_idle s1 alloc /\
      start_if_ready 1 s1 = Returns tt (started 1 job alloc s1) /\
      for_each post start_if_ready (started 1 job alloc s1) = Returns tt s'.
Proof.
  cbv zeta. eexists. split; [vm_compute; reflexivity|].
  apply (proj1 start_requires_idle_hosts).
  - vm_compute; reflexivity.
  - eexists. eexists. split; [reflexivity|]. split; [discriminate|].
    split; [vm_compute; reflexivity|]. reflexivity.
Defined.

(** ** The attempt to start jobs comes to its end

    On a running simulation with a platform, where every runnable job has an
    allocation of known hosts that have a default power state, the attempt
    raises nothing. *)

Lemma catalogs_agree_alter (f : Host -> Host) pf h :
  (forall host, host_default_pstate (f host) = host_default_pstate host) ->
  (forall host, host_sleep_pstate (f host) = host_sleep_pstate host) ->
  catalogs_agree pf (alter f h pf).
Proof.
  intros Hd Hs k. destruct (decide (h = k)) as [->|Hne].
  - rewrite lookup_alter_eq. destruct (pf !! k); simpl; [|auto].
    now rewrite Hd, Hs.
  - rewrite lookup_alter_ne by exact Hne. auto.
Qed.

Lemma catalogs_agree_started pf alloc :
  catalogs_agree pf (foldr (alter Host_start_computing) pf alloc).
Proof.
  induction alloc as [|h alloc IH]; simpl.
  - apply catalogs_agree_refl.
  - eapply catalogs_agree_trans; [exact IH|].
    apply catalogs_agree_alter; reflexivity.
Qed.

Lemma catalogs_agree_host pf pf' h host p :
  catalogs_agree pf pf' ->
  pf !! h = Some host -> host_default_pstate host = Some p ->
  exists host', pf' !! h = Some host' /\ host_default_pstate host' = Some p.
Proof.
  intros Hag Hh Hd. destruct (Hag h) as [Heq _]. rewrite Hh in Heq. simpl in Heq.
  destruct (pf' !! h) as [host'|]; [|discriminate].
  exists host'. split; [reflexivity|]. simpl in Heq. congruence.
Qed.

Lemma check_allocation_Returns pf alloc b s :
  is_running s = true ->
  (exists pf', __platform s = Some pf' /\ catalogs_agree pf pf') ->
  (forall h, h ∈ alloc ->
     exists host p, pf !! h = Some host /\ host_default_pstate host = Some p) ->
  exists b' s',
    check_allocation alloc b s = Returns b' s' /\
    is_running s' = true /\
    (exists pf', __platform s' = Some pf' /\ catalogs_agree pf pf') /\
    __jobs s' = __jobs s /\ __current_time s' = __current_time s.
Proof.
  revert b s. induction alloc as [|h alloc IH]; intros b s Hrun (pf' & Hpf' & Hag) Hall.
  - exists b, s. simpl. eauto 10.
  - destruct (Hall h) as (host & p & Hh & Hd); [set_solver|].
    destruct (catalogs_agree_host pf pf' h host p Hag Hh Hd) as (host' & Hh' & Hd').
    simpl. unfold bind at 1. unfold platform_get, Platform_get.
    rewrite Hpf', Hh'. cbn [lift ret].
    destruct (is_sleeping host') eqn:Hsl.
    + unfold is_sleeping in Hsl. apply bool_decide_eq_true in Hsl.
      unfold bind at 1. cbn [when].
      rewrite (switch_on_single_sleeping s pf' h host' p Hrun Hpf' Hh' Hsl Hd').
      destruct (IH (if negb (is_idle host') then false else b)
                   (switched_on h host' p pf' s)) as (b' & s' & Hc & Hr & Hp & Hj & Ht).
      * exact Hrun.
      * eexists. split; [reflexivity|].
        eapply catalogs_agree_trans; [exact Hag|].
        eapply catalogs_agree_insert; [exact Hh'|reflexivity|reflexivity].
      * intros k Hk. apply Hall. set_solver.
      * exists b', s'. split; [exact Hc|]. auto.
    + unfold bind at 1. cbn [when ret].
      destruct (IH (if negb (is_idle host') then false else b) s)
        as (b' & s' & Hc & Hr & Hp & Hj & Ht).
      * exact Hrun.
      * eauto.
      * intros k Hk. apply Hall. set_solver.
      * exists b', s'. split; [exact Hc|]. auto.
Qed.

Lemma start_if_ready_Returns pf i job alloc s :
  is_running s = true ->
  (exists pf', __platform s = Some pf' /\ catalogs_agree pf pf') ->
  __jobs s !! i = Some job -> is_runnable job = true ->
  job_allocation job = Some alloc -> alloc <> [] ->
  (forall h, h ∈ alloc ->
     exists host p, pf !! h = Some host /\ host_default_pstate host = Some p) ->
  exists s',
    start_if_ready i s = Returns tt s' /\
    is_running s' = true /\
    (exists pf', __platform s' = Some pf' /\ catalogs_agree pf pf') /\
    (forall k, k <> i -> __jobs s' !! k = __jobs s !! k).
Proof.
  intros Hrun Hp Hjob Hr Halloc Hne Hall.
  unfold start_if_ready. rewrite bind_gets. unfold id. rewrite Hjob, Halloc.
  destruct alloc as [|h alloc]; [contradiction|].
  destruct (check_allocation_Returns pf (h :: alloc) true s Hrun Hp Hall)
    as (b' & s1 & Hc & Hr1 & (pf1 & Hpf1 & Hag1) & Hj1 & Ht1).
  unfold bind at 1. rewrite Hc. destruct b'.
  - rewrite bind_gets. unfold start_job, Job_start. rewrite Hr.
    cbn. rewrite Halloc. cbn. eexists. split; [reflexivity|]. cbn.
    split; [exact Hr1|]. split.
    + rewrite Hpf1. cbn. eexists. split; [reflexivity|].
      eapply catalogs_agree_trans; [exact Hag1|].
      apply (catalogs_agree_started pf1 (h :: alloc)).
    + intros k Hk. rewrite list_lookup_insert_ne by congruence. now rewrite Hj1.
  - exists s1. split; [reflexivity|]. split; [exact Hr1|]. split; [eauto|].
    intros k _. now rewrite Hj1.
Qed.

Lemma runnable_jobs_NoDup s : NoDup (runnable_jobs s).
Proof.
  unfold runnable_jobs. apply NoDup_ListNoDup, List.NoDup_filter, List.seq_NoDup.
Qed.

Lemma runnable_jobs_spec s i :
  i ∈ runnable_jobs s ->
  exists job, __jobs s !! i = Some job /\ is_runnable job = true.
Proof.
  unfold runnable_jobs. intros Hin.
  apply list_elem_of_In, List.filter_In in Hin as [_ Hi].
  destruct (__jobs s !! i) as [job|]; [eauto|discriminate].
Qed.

Lemma start_runnable_jobs_Returns s pf :
  is_running s = true ->
  __platform s = Some pf ->
  (forall i job,
     __jobs s !! i = Some job -> is_runnable job = true ->
     exists alloc,
       job_allocation job = Some alloc /\ alloc <> [] /\
       forall h, h ∈ alloc ->
         exists host p, pf !! h = Some host /\ host_default_pstate host = Some p) ->
  exists s', __start_runnable_jobs s = Returns tt s'.
Proof.
  intros Hrun Hpf Hwf.
  unfold __start_runnable_jobs. rewrite bind_gets. unfold id. rewrite Hrun.
  cbn [negb]. unfold bind at 1. unfold require_platform. rewrite Hpf.
  assert (Hloop : forall l t,
    NoDup l ->
    is_running t = true ->
    (exists pf', __platform t = Some pf' /\ catalogs_agree pf pf') ->
    (forall i, i ∈ l ->
       exists job, __jobs s !! i = Some job /\ is_runnable job = true /\
                   __jobs t !! i = Some job) ->
    exists t', for_each l start_if_ready t = Returns tt t').
  { induction l as [|i l IH]; intros t Hnd Hr Hp Hjobs; simpl.
    - eauto.
    - apply NoDup_cons in Hnd as [Hni Hnd].
      destruct (Hjobs i) as (job & Hjs & Hrj & Hjt); [set_solver|].
      destruct (Hwf i job Hjs Hrj) as (alloc & Halloc & Hne & Hall).
      destruct (start_if_ready_Returns pf i job alloc t Hr Hp Hjt Hrj Halloc Hne Hall)
        as (t1 & Hstep & Hr1 & Hp1 & Hother).
      unfold bind. rewrite Hstep. apply IH; auto.
      intros k Hk. destruct (Hjobs k) as (jobk & Hks & Hkr & Hkt); [set_solver|].
      exists jobk. split; [exact Hks|]. split; [exact Hkr|].
      rewrite Hother; [exact Hkt|]. intros ->. contradiction. }
  apply Hloop.
  - apply runnable_jobs_NoDup.
  - exact Hrun.
  - exists pf. split; [exact Hpf|apply catalogs_agree_refl].
  - intros i Hi. destruct (runnable_jobs_spec s i Hi) as (job & Hj & Hr). eauto.
Qed.

(** ** Sleeping hosts of runnable jobs are switched on *)

Lemma requested_app now h_id p reqs l :
  requested now h_id p reqs -> requested now h_id p (reqs ++ l).
Proof. intros (res & Hin & Hr). exists res. split; [exact Hin|]. set_solver. Qed.

Lemma requested_now now h_id p reqs :
  requested now h_id p (set_host_pstate_request now h_id p reqs).
Proof.
  induction reqs as [|r reqs IH].
  - exists {[h_id]}. split; [set_solver|]. rewrite set_host_pstate_request_nil. set_solver.
  - rewrite set_host_pstate_request_cons.
    destruct (same_properties now p r) eqn:E.
    + destruct (same_properties_inv _ _ _ E) as (res & ->).
      exists (res ∪ {[h_id]}). split; [set_solver|]. simpl. set_solver.
    + destruct IH as (res & Hin & Hr). exists res. split; [exact Hin|]. set_solver.
Qed.

Lemma requested_kept now h_id p now' h' p' reqs :
  requested now h_id p reqs ->
  requested now h_id p (set_host_pstate_request now' h' p' reqs).
Proof.
  intros (res & Hin & Hr).
  induction reqs as [|r reqs IH]; [inversion Hr|].
  rewrite set_host_pstate_request_cons.
  apply elem_of_cons in Hr as [<-|Hr].
  - destruct (same_properties now' p' _) eqn:E.
    + exists (res ∪ {[h']}). split; [set_solver|]. simpl. set_solver.
    + exists res. split; [exact Hin|]. set_solver.
  - destruct (same_properties now' p' r) eqn:E.
    + exists res. split; [exact Hin|]. set_solver.
    + destruct (IH Hr) as (res' & Hin' & Hr'). exists res'. split; [exact Hin'|].
      set_solver.
Qed.

Lemma lookup_foldr_alter_notin (f : Host -> Host) (alloc : list Z) (pf : Platform) h_id :
  h_id ∉ alloc -> foldr (alter f) pf alloc !! h_id = pf !! h_id.
Proof.
  induction alloc as [|k alloc IH]; intros Hnot; simpl; [reflexivity|].
  rewrite lookup_alter_ne by set_solver. apply IH. set_solver.
Qed.

Section Waking.

Variables (now : time) (h_id : Z) (p : PowerState).

Lemma waking_not_idle s host :
  waking now h_id p s -> mirrored_host s h_id = Some host -> is_idle host = false.
Proof.
  unfold is_idle.
  intros [(_ & _ & host' & Hh & Hst & _)|(_ & _ & host' & Hh & Hst & _)] Hhost;
    apply bool_decide_eq_false; congruence.
Qed.

Lemma switch_on_on_the_way k s s' :
  on_the_way now h_id p s -> switch_on [k] s = Returns tt s' ->
  on_the_way now h_id p s'.
Proof.
  intros (Hnow & host & Hh & Hst & Hreq) Hrun.
  apply switch_on_single in Hrun as (pf & hostk & pk & Hpf & Hk & Hsl & Hd & ->).
  split; [exact Hnow|].
  unfold mirrored_host in *. rewrite Hpf in Hh. cbn in *.
  destruct (decide (k = h_id)) as [->|Hne]; [congruence|].
  exists host. rewrite lookup_insert_ne by exact Hne.
  split; [exact Hh|]. split; [exact Hst|]. now apply requested_kept.
Qed.

Lemma switch_on_waking k s s' :
  waking now h_id p s -> switch_on [k] s = Returns tt s' -> waking now h_id p s'.
Proof.
  intros [(Hnow & Hrun & host & Hh & Hst & Hd)|[Hrun Hway]] Hon.
  - apply switch_on_single in Hon as (pf & hostk & pk & Hpf & Hk & Hsl & Hdk & ->).
    unfold mirrored_host in Hh. rewrite Hpf in Hh. cbn in Hh.
    destruct (decide (k = h_id)) as [->|Hne].
    + right. split; [exact Hrun|]. split; [exact Hnow|].
      assert (hostk = host) as -> by congruence.
      assert (pk = p) as -> by congruence.
      exists (set_host_state SWITCHING_ON host). unfold mirrored_host. cbn.
      rewrite lookup_insert_eq. split; [reflexivity|]. split; [reflexivity|].
      unfold current_time in Hnow. rewrite <- Hnow. apply requested_now.
    + left. split; [exact Hnow|]. split; [exact Hrun|]. exists host.
      unfold mirrored_host. cbn. rewrite lookup_insert_ne by exact Hne. auto.
  - right. split.
    + apply switch_on_single in Hon as (pf & hostk & pk & _ & _ & _ & _ & ->).
      exact Hrun.
    + eapply switch_on_on_the_way; eassumption.
Qed.

Lemma started_on_the_way i job alloc s :
  on_the_way now h_id p s -> all_idle s alloc ->
  on_the_way now h_id p (started i job alloc s).
Proof.
  intros (Hnow & host & Hh & Hst & Hreq) Hall.
  split; [exact Hnow|]. exists host.
  assert (Hnot : h_id ∉ alloc).
  { intros Hin. destruct (Hall h_id Hin) as (host' & Hh' & Hidle).
    unfold is_idle in Hidle. apply bool_decide_eq_true in Hidle. congruence. }
  unfold mirrored_host in *. cbn.
  destruct (__platform s) as [pf|]; [|discriminate]. cbn in *.
  rewrite lookup_foldr_alter_notin by exact Hnot.
  split; [exact Hh|]. split; [exact Hst|]. now apply requested_app.
Qed.

Lemma started_waking i job alloc s :
  waking now h_id p s -> all_idle s alloc ->
  waking now h_id p (started i job alloc s).
Proof.
  intros Hw Hall.
  assert (Hnot : h_id ∉ alloc).
  { intros Hin. destruct (Hall h_id Hin) as (host' & Hh' & Hidle).
    rewrite (waking_not_idle s host' Hw Hh') in Hidle. discriminate. }
  destruct Hw as [(Hnow & Hrun & host & Hh & Hst & Hd)|[Hrun Hway]].
  - left. split; [exact Hnow|]. split; [exact Hrun|]. exists host.
    unfold mirrored_host in *. cbn.
    destruct (__platform s) as [pf|]; [|discriminate]. cbn in *.
    rewrite lookup_foldr_alter_notin by exact Hnot. auto.
  - right. split; [exact Hrun|]. now apply started_on_the_way.
Qed.

(** The inner loop over an allocation that names the host switches it on. *)
Lemma check_allocation_switches alloc b s b' s' :
  waking now h_id p s -> h_id ∈ alloc ->
  check_allocation alloc b s = Returns b' s' ->
  on_the_way now h_id p s'.
Proof.
  revert b s. induction alloc as [|k alloc IH]; intros b s Hw Hin Hrun;
    [inversion Hin|].
  simpl in Hrun.
  apply bind_Returns in Hrun as (host & s1 & Hget & Hrun).
  apply bind_Returns in Hrun as ([] & s2 & Hwhen & Hrun).
  assert (s1 = s /\ mirrored_host s k = Some host) as [-> Hhost].
  { unfold platform_get, mirrored_host in *.
    destruct (__platform s) as [pf|]; [|discriminate].
    unfold Platform_get in Hget. cbn. destruct (pf !! k); now inversion Hget. }
  assert (Hw2 : waking now h_id p s2).
  { unfold when in Hwhen. destruct (is_sleeping host).
    - eapply switch_on_waking; eassumption.
    - now inversion Hwhen; subst. }
  destruct (decide (k = h_id)) as [->|Hne].
  - assert (Hway : on_the_way now h_id p s2).
    { destruct Hw as [(Hnow & Hr & host0 & Hh0 & Hst0 & Hd0)|[_ Hway]].
      - assert (host0 = host) as -> by congruence.
        unfold when, is_sleeping in Hwhen.
        rewrite bool_decide_eq_true_2 in Hwhen by exact Hst0.
        destruct (switch_on_waking _ _ _
                    (or_introl (conj Hnow (conj Hr (ex_intro _ host (conj Hh0 (conj Hst0 Hd0))))))
                    Hwhen) as [(_ & _ & host2 & Hh2 & Hst2 & _)|[_ Hway]];
          [|exact Hway].
        apply switch_on_single in Hwhen as (pf & hostk & pk & Hpf & Hk & _ & _ & ->).
        unfold mirrored_host in Hh2. cbn in Hh2. rewrite lookup_insert_eq in Hh2.
        injection Hh2 as <-. discriminate.
      - unfold when in Hwhen. destruct (is_sleeping host).
        + eapply switch_on_on_the_way; eassumption.
        + now inversion Hwhen; subst. }
    refine (check_allocation_invariant (on_the_way now h_id p) _ alloc _ s2 b' s'
              Hway Hrun).
    intros k t t'. apply switch_on_on_the_way.
  - eapply IH; [exact Hw2| |exact Hrun]. set_solver.
Qed.

End Waking.

Lemma turn_on_the_way now h_id p k s s' :
  on_the_way now h_id p s -> start_if_ready k s = Returns tt s' ->
  on_the_way now h_id p s'.
Proof.
  intros Hway Hrun. apply start_if_ready_cases in Hrun as [[_ ->]|Hrun]; [exact Hway|].
  destruct Hrun as (job & alloc & _ & _ & _ & [Hno|(_ & Hall & _ & ->)]).
  - refine (check_allocation_invariant (on_the_way now h_id p) _ alloc _ s _ s' Hway Hno).
    intros k' t t'. apply switch_on_on_the_way.
  - now apply started_on_the_way.
Qed.

Lemma loop_on_the_way now h_id p l s s' :
  on_the_way now h_id p s -> for_each l start_if_ready s = Returns tt s' ->
  on_the_way now h_id p s'.
Proof.
  intros Hway Hrun.
  refine (for_each_invariant (on_the_way now h_id p) l start_if_ready _ s s' Hway Hrun).
  intros k t t' _. apply turn_on_the_way.
Qed.

(** One turn, while host [h_id] of the waiting job at place [i] is waking. *)
Lemma turn_while_waking now h_id p i job alloc k s s' :
  job_allocation job = Some alloc -> h_id ∈ alloc ->
  waking now h_id p s -> __jobs s !! i = Some job ->
  start_if_ready k s = Returns tt s' ->
  waking now h_id p s' /\ __jobs s' !! i = Some job /\
  (k = i -> on_the_way now h_id p s').
Proof.
  intros Halloc Hin Hw Hjob Hrun.
  pose proof Hrun as Hcases. apply start_if_ready_cases in Hcases as [[Hnone ->]|Hcases].
  { split; [exact Hw|]. split; [exact Hjob|]. intros ->. congruence. }
  destruct Hcases as (jobk & allock & Hjobk & Hallock & _ & [Hno|(_ & Hall & _ & ->)]).
  - assert (Hboth : waking now h_id p s' /\ __jobs s' = __jobs s).
    { refine (check_allocation_invariant
                (fun t => waking now h_id p t /\ __jobs t = __jobs s) _
                allock true s false s' (conj Hw eq_refl) Hno).
      intros k' t t' [Hwt Hjt] Hon. split.
      - eapply switch_on_waking; eassumption.
      - apply switch_on_single in Hon as (pf & hostk & pk & _ & _ & _ & _ & ->).
        exact Hjt. }
    destruct Hboth as [Hw' Hj']. split; [exact Hw'|]. split; [now rewrite Hj'|].
    intros ->. assert (allock = alloc) as -> by congruence.
    exact (check_allocation_switches now h_id p alloc true s false s' Hw Hin Hno).
  - assert (Hne : k <> i).
    { intros ->. assert (allock = alloc) as -> by congruence.
      destruct (Hall h_id Hin) as (host & Hhost & Hidle).
      rewrite (waking_not_idle now h_id p s host Hw Hhost) in Hidle. discriminate. }
    split; [now apply started_waking|]. split; [|contradiction].
    cbn. now rewrite list_lookup_insert_ne by exact Hne.
Qed.

Lemma loop_while_waking now h_id p i job alloc l s s' :
  job_allocation job = Some alloc -> h_id ∈ alloc ->
  waking now h_id p s -> __jobs s !! i = Some job ->
  for_each l start_if_ready s = Returns tt s' ->
  __jobs s' !! i = Some job /\ (i ∈ l -> on_the_way now h_id p s').
Proof.
  intros Halloc Hin. revert s.
  induction l as [|k l IH]; intros s Hw Hjob Hrun; simpl in Hrun.
  - inversion Hrun; subst. split; [exact Hjob|]. intros H; inversion H.
  - apply bind_Returns in Hrun as ([] & s1 & H1 & H2).
    destruct (turn_while_waking now h_id p i job alloc k s s1 Halloc Hin Hw Hjob H1)
      as (Hw1 & Hjob1 & Hturn).
    destruct (IH s1 Hw1 Hjob1 H2) as [Hjob' Hrest].
    split; [exact Hjob'|]. intros Hi. apply elem_of_cons in Hi as [->|Hi].
    + eapply loop_on_the_way; [apply Hturn; reflexivity|exact H2].
    + now apply Hrest.
Qed.

Lemma runnable_jobs_elem s i job :
  __jobs s !! i = Some job -> is_runnable job = true -> i ∈ runnable_jobs s.
Proof.
  intros Hjob Hr. unfold runnable_jobs. apply list_elem_of_In, List.filter_In.
  split.
  - apply in_seq. apply lookup_lt_Some in Hjob. lia.
  - now rewrite Hjob.
Qed.

(** C9.  An attempt to start the runnable jobs that comes to its end, on a
    running simulation: every host that sleeps and belongs to the allocation
    of a runnable job has been switched on, without any call of the caller.
    A set-resource-state request of the current instant that sends the host
    to its default power state is pending, and the job, which waits for the
    host, has not been started.  The attempt does come to its end when a
    platform is mirrored and every runnable job is allocated known hosts that
    have a default power state. *)
Theorem sleeping_hosts_are_switched_on :
  (forall (s s' : SimulatorHandler) (i : nat) (job : Job) (alloc : list Z)
          (h_id : Z) (host : Host) (p : PowerState),
     is_running s = true ->
     __start_runnable_jobs s = Returns tt s' ->
     __jobs s !! i = Some job -> is_runnable job = true ->
     job_allocation job = Some alloc -> h_id ∈ alloc ->
     mirrored_host s h_id = Some host -> is_sleeping host = true ->
     host_default_pstate host = Some p ->
     requested (current_time s) h_id (ps_id p) (__batsim_requests s') /\
     __jobs s' !! i = Some job) /\
  (forall (s : SimulatorHandler) (pf : Platform),
     is_running s = true ->
     __platform s = Some pf ->
     (forall i job,
        __jobs s !! i = Some job -> is_runnable job = true ->
        exists alloc,
          job_allocation job = Some alloc /\ alloc <> [] /\
          forall h, h ∈ alloc ->
            exists host p, pf !! h = Some host /\ host_default_pstate host = Some p) ->
     exists s', __start_runnable_jobs s = Returns tt s').
Proof.
  split; [|exact start_runnable_jobs_Returns].
  intros s s' i job alloc h_id host p Hrun H Hjob Hr Halloc Hin Hhost Hsl Hd.
  apply start_runnable_jobs_loop in H; [|exact Hrun].
  assert (Hw : waking (current_time s) h_id p s).
  { left. split; [reflexivity|]. split; [exact Hrun|]. exists host.
    unfold is_sleeping in Hsl. apply bool_decide_eq_true in Hsl. auto. }
  destruct (loop_while_waking _ h_id p i job alloc _ s s' Halloc Hin Hw Hjob H)
    as [Hjob' Hway].
  destruct (Hway (runnable_jobs_elem s i job Hjob Hr))
    as (_ & host' & Hh' & Hst' & Hreq).
  split; [exact Hreq|exact Hjob'].
Qed.

Lemma sleeping_hosts_are_switched_on_witness :
  let s := Fixtures.running (Q2Qc 0)
             [Fixtures.job "a" ALLOCATED (Some [0; 2]);
              Fixtures.job "b" ALLOCATED (Some [0; 3])] [] in
  exists s',
    __start_runnable_jobs s = Returns tt s' /\
    requested (current_time s) 2 0 (__batsim_requests s') /\
    __jobs s' !! 0%nat = Some (Fixtures.job "a" ALLOCATED (Some [0; 2])).
Proof.
  cbv zeta. eexists. split; [vm_compute; reflexivity|].
  apply (proj1 sleeping_hosts_are_switched_on _ _ 0%nat
           (Fixtures.job "a" ALLOCATED (Some [0; 2])) [0; 2] 2
           (Fixtures.host SLEEPING Fixtures.p_sleep) Fixtures.p_on).
  - reflexivity.
  - vm_compute; reflexivity.
  - reflexivity.
  - reflexivity.
  - reflexivity.
  - by_evaluation.
  - vm_compute; reflexivity.
  - reflexivity.
  - reflexivity.
Defined.

(** ** Invariants of the handler

    A small program logic for methods: [ok E Q o] says that the outcome [o]
    satisfies [Q] when the method returns, and [E] when it raises or waits
    for ever. *)

Lemma ok_bind {A B} E (Q : B -> SimulatorHandler -> Prop) (c : M A) (k : A -> M B) s :
  ok E (fun a s1 => ok E Q (k a s1)) (c s) -> ok E Q (bind c k s).
Proof. unfold bind. now destruct (c s). Qed.

Lemma ok_weaken {A} (E E' : SimulatorHandler -> Prop)
    (Q Q' : A -> SimulatorHandler -> Prop) (o : outcome A) :
  ok E Q o -> (forall s, E s -> E' s) -> (forall a s, Q a s -> Q' a s) -> ok E' Q' o.
Proof. destruct o; simpl; auto. Qed.

Lemma keeps_bind {A B} I (c : M A) (k : A -> M B) :
  keeps I c -> (forall a, keeps I (k a)) -> keeps I (bind c k).
Proof.
  intros Hc Hk s HI. apply ok_bind.
  eapply ok_weaken; [apply Hc, HI|auto|]. intros a s1 HI1. now apply Hk.
Qed.

Lemma keeps_ret {A} I (a : A) : keeps I (ret a).
Proof. intros s HI. exact HI. Qed.

Lemma keeps_raise {A} I e : keeps I (@raise A e).
Proof. intros s HI. exact HI. Qed.

Lemma keeps_gets {A} I (f : SimulatorHandler -> A) : keeps I (gets f).
Proof. intros s HI. exact HI. Qed.

Lemma keeps_lift {A} I (r : exn + A) : keeps I (lift r).
Proof. destruct r; intros s HI; exact HI. Qed.

Lemma keeps_modify I f : (forall s, I s -> I (f s)) -> keeps I (modify f).
Proof. intros Hf s HI. now apply Hf. Qed.

Lemma keeps_when I (b : bool) c : keeps I c -> keeps I (when b c).
Proof. destruct b; [auto|intros _; apply keeps_ret]. Qed.

Lemma keeps_for_each {A} I (l : list A) (body : A -> M unit) :
  (forall x, keeps I (body x)) -> keeps I (for_each l body).
Proof.
  intros Hbody. induction l as [|x l IH]; simpl.
  - apply keeps_ret.
  - apply keeps_bind; [apply Hbody|intros _; exact IH].
Qed.

(** The rest of a method may look at the state it starts in. *)
Lemma keeps_get_state {B} I (k : SimulatorHandler -> M B) :
  (forall s0, I s0 -> ok I (fun _ => I) (k s0 s0)) -> keeps I (bind (gets id) k).
Proof. intros Hk s HI. rewrite bind_gets. now apply Hk. Qed.

Lemma keeps_stronger {A} (I J : SimulatorHandler -> Prop) (c : M A) s :
  keeps J c -> J s -> (forall t, J t -> I t) -> ok I (fun _ => I) (c s).
Proof. intros Hc HJ HJI. eapply ok_weaken; [apply Hc, HJ|auto|auto]. Qed.

Create HintDb keeps discriminated.
#[local] Hint Resolve keeps_ret keeps_raise keeps_gets keeps_lift keeps_when : keeps.

(** Repeated steps: go under a bind, settle the simple commands. *)
Ltac keeps_step :=
  lazymatch goal with
  | |- keeps _ (bind _ _) => apply keeps_bind; [|intros ?]
  | |- keeps _ (for_each _ _) => apply keeps_for_each; intros ?
  | |- keeps _ (when _ _) => apply keeps_when
  | |- keeps _ (modify _) => apply keeps_modify; intros ? ?
  | |- keeps _ (ret _) => apply keeps_ret
  | |- keeps _ (raise _) => apply keeps_raise
  | |- keeps _ (gets _) => apply keeps_gets
  | |- keeps _ (lift _) => apply keeps_lift
  end.

(** *** While the simulation runs *)

Ltac keeps_running :=
  repeat first
    [ keeps_step
    | match goal with
      | |- keeps _ (match ?x with _ => _ end) => destruct x
      | |- keeps _ (if ?b then _ else _) => destruct b
      | |- keeps _ (let _ := _ in _) => cbv zeta
      | |- running _ => assumption
      end ].

Lemma platform_get_keeps I h_id : keeps I (platform_get h_id).
Proof.
  intros s HI. unfold platform_get, Platform_get.
  destruct (__platform s) as [pf|]; [|exact HI]. now destruct (pf !! h_id).
Qed.

Lemma require_running_keeps I : keeps I require_running.
Proof. intros s HI. unfold require_running. now destruct (is_running s). Qed.

Lemma require_platform_keeps I : keeps I require_platform.
Proof. intros s HI. unfold require_platform. now destruct (__platform s). Qed.

#[local] Hint Resolve platform_get_keeps require_running_keeps
  require_platform_keeps : keeps.

Lemma set_batsim_host_pstate_keeps_running h p :
  keeps running (__set_batsim_host_pstate h p).
Proof. unfold __set_batsim_host_pstate. keeps_running. Qed.

Lemma switch_on_host_keeps_running h : keeps running (switch_on_host h).
Proof.
  unfold switch_on_host.
  apply keeps_bind; [auto with keeps|intros host].
  apply keeps_bind; [auto with keeps|intros host'].
  apply keeps_bind; [unfold put_host; keeps_running|intros _].
  apply keeps_bind; [auto with keeps|intros p].
  apply set_batsim_host_pstate_keeps_running.
Qed.

Lemma switch_off_host_keeps_running h : keeps running (switch_off_host h).
Proof.
  unfold switch_off_host.
  apply keeps_bind; [auto with keeps|intros host].
  apply keeps_bind; [auto with keeps|intros host'].
  apply keeps_bind; [unfold put_host; keeps_running|intros _].
  apply keeps_bind; [auto with keeps|intros p].
  apply set_batsim_host_pstate_keeps_running.
Qed.

Lemma switch_on_keeps_running l : keeps running (switch_on l).
Proof.
  unfold switch_on.
  apply keeps_bind; [auto with keeps|intros _].
  apply keeps_bind; [auto with keeps|intros _].
  apply keeps_for_each, switch_on_host_keeps_running.
Qed.

Lemma switch_off_keeps_running l : keeps running (switch_off l).
Proof.
  unfold switch_off.
  apply keeps_bind; [auto with keeps|intros _].
  apply keeps_bind; [auto with keeps|intros _].
  apply keeps_for_each, switch_off_host_keeps_running.
Qed.

Lemma switch_power_state_keeps_running h p : keeps running (switch_power_state h p).
Proof.
  unfold switch_power_state.
  apply keeps_bind; [auto with keeps|intros _].
  apply keeps_bind; [auto with keeps|intros _].
  apply keeps_bind; [auto with keeps|intros host].
  apply keeps_bind; [auto with keeps|intros host'].
  apply keeps_bind; [unfold put_host; keeps_running|intros _].
  destruct (host_pstate host'); [apply set_batsim_host_pstate_keeps_running|].
  apply keeps_raise.
Qed.

Lemma check_allocation_keeps_running alloc b : keeps running (check_allocation alloc b).
Proof.
  revert b. induction alloc as [|h alloc IH]; intros b; simpl.
  - apply keeps_ret.
  - apply keeps_bind; [auto with keeps|intros host].
    apply keeps_bind; [apply keeps_when, switch_on_keeps_running|intros _].
    apply IH.
Qed.

Lemma start_if_ready_keeps_running i : keeps running (start_if_ready i).
Proof.
  unfold start_if_ready.
  apply keeps_bind; [auto with keeps|intros s0].
  destruct (__jobs s0 !! i) as [job|]; [|apply keeps_ret].
  destruct (job_allocation job) as [[|h alloc]|]; try apply keeps_raise.
  apply keeps_bind; [apply check_allocation_keeps_running|intros [|]];
    [|apply keeps_ret].
  unfold start_job, put_job, append_request. keeps_running.
Qed.

Lemma set_batsim_call_me_later_keeps_running at_ :
  keeps running (__set_batsim_call_me_later at_).
Proof. unfold __set_batsim_call_me_later, append_request. keeps_running. Qed.

Lemma start_runnable_jobs_keeps_running : keeps running __start_runnable_jobs.
Proof.
  unfold __start_runnable_jobs.
  apply keeps_bind; [auto with keeps|intros s0].
  destruct (negb (is_running s0)); [apply keeps_ret|].
  apply keeps_bind; [auto with keeps|intros _].
  apply keeps_for_each, start_if_ready_keeps_running.
Qed.

(** *** While no simulation runs

    Between two simulations nothing is pending: no request, no callback, no
    time limit.  [close] leaves the handler so, and every method that queues
    a request or registers a callback first checks that the simulation
    runs. *)

Lemma running_idle_clean s : running s -> idle_clean s.
Proof. unfold running, idle_clean. congruence. Qed.

(** A block that keeps the simulation running, behind the check that it
    runs. *)
Lemma guard_running {A} (c : M A) :
  keeps running c -> keeps idle_clean (require_running ;;; c).
Proof.
  intros Hc s HI. unfold bind, require_running.
  destruct (is_running s) eqn:Hrun; [|exact HI].
  apply (keeps_stronger idle_clean running c s Hc Hrun running_idle_clean).
Qed.

Lemma from_running {A} (c : M A) s :
  keeps running c -> running s -> ok idle_clean (fun _ => idle_clean) (c s).
Proof. intros Hc Hs. exact (keeps_stronger idle_clean running c s Hc Hs running_idle_clean). Qed.

Lemma start_runnable_jobs_keeps_idle_clean : keeps idle_clean __start_runnable_jobs.
Proof.
  unfold __start_runnable_jobs. apply keeps_get_state. intros s HI.
  destruct (is_running s) eqn:Hrun; cbn [negb]; [|exact HI].
  apply from_running; [|exact Hrun].
  apply keeps_bind; [auto with keeps|intros _].
  apply keeps_for_each, start_if_ready_keeps_running.
Qed.

Lemma close_keeps_idle_clean : keeps idle_clean close.
Proof.
  intros s HI. unfold close. rewrite bind_gets. unfold id.
  destruct (is_running s) eqn:Hrun; cbn [negb]; [|exact HI].
  unfold __close_simulator, network_close, dispatch, bind, gets, modify, ret.
  unfold is_running in Hrun. cbn. rewrite Hrun. cbn. intros _. auto.
Qed.

Lemma network_send_keeps_idle_clean msg : keeps idle_clean (network_send msg).
Proof. apply keeps_modify. intros s HI. exact HI. Qed.

Lemma network_recv_keeps_idle_clean : keeps idle_clean network_recv.
Proof.
  intros s HI. unfold network_recv. destruct (net_inbox s); exact HI.
Qed.

Lemma put_host_keeps_idle_clean h host : keeps idle_clean (put_host h host).
Proof. apply keeps_modify. intros s HI. exact HI. Qed.

Lemma on_simulation_ends_keeps_idle_clean : keeps idle_clean __on_batsim_simulation_ends.
Proof.
  unfold __on_batsim_simulation_ends.
  apply keeps_bind; [auto with keeps|intros s0].
  apply keeps_bind; [apply keeps_when, network_send_keeps_idle_clean|intros _].
  apply close_keeps_idle_clean.
Qed.

Lemma host_state_changed_keeps_idle_clean state h :
  keeps idle_clean (host_state_changed state h).
Proof.
  unfold host_state_changed.
  apply keeps_bind; [auto with keeps|intros host].
  destruct (host_pstate host) as [pstate|]; [|apply keeps_raise].
  apply keeps_bind; [auto with keeps|intros host'].
  apply keeps_bind; [apply put_host_keeps_idle_clean|intros _].
  destruct (host_pstate host'); [|apply keeps_raise].
  destruct (negb _); auto with keeps.
Qed.

Lemma on_host_state_changed_keeps_idle_clean resources state :
  keeps idle_clean (__on_batsim_host_state_changed resources state).
Proof.
  unfold __on_batsim_host_state_changed.
  apply keeps_bind; [auto with keeps|intros _].
  apply keeps_bind; [|intros _; apply start_runnable_jobs_keeps_idle_clean].
  apply keeps_for_each. intros h. apply host_state_changed_keeps_idle_clean.
Qed.

Lemma call_keeps_idle_clean c arg : keeps idle_clean (call c arg).
Proof.
  unfold call. apply keeps_bind.
  - apply keeps_modify. intros s HI. exact HI.
  - intros _. destruct c; [|apply keeps_ret]. apply keeps_modify. intros s HI. exact HI.
Qed.

Lemma on_requested_call_keeps_idle_clean : keeps idle_clean __on_batsim_requested_call.
Proof.
  unfold __on_batsim_requested_call.
  apply keeps_bind; [auto with keeps|intros s0].
  destruct (__callbacks s0 !! current_time s0); [|apply keeps_ret].
  apply keeps_bind.
  - apply keeps_for_each. intros c.
    apply keeps_bind; [auto with keeps|intros now]. apply call_keeps_idle_clean.
  - intros _. apply keeps_get_state. intros s HI.
    destruct (__callbacks s !! current_time s); [|exact HI].
    cbn. intros Hrun. destruct (HI Hrun) as (Hr & Hc & Ht).
    split; [exact Hr|]. split; [|exact Ht]. rewrite Hc. apply delete_empty.
Qed.

Lemma on_job_submitted_keeps_idle_clean job : keeps idle_clean (__on_batsim_job_submitted job).
Proof.
  unfold __on_batsim_job_submitted.
  apply keeps_bind; [auto with keeps|intros now].
  apply keeps_modify. intros s HI. exact HI.
Qed.

Lemma on_job_completed_keeps_idle_clean id final :
  keeps idle_clean (__on_batsim_job_completed id final).
Proof.
  unfold __on_batsim_job_completed.
  apply keeps_bind; [auto with keeps|intros s0].
  destruct (find_job id s0) as [[i job]|]; [|apply keeps_raise].
  apply keeps_bind; [auto with keeps|intros job'].
  apply keeps_bind; [apply keeps_modify; intros s HI; exact HI|intros _].
  apply keeps_bind; [apply keeps_modify; intros s HI; exact HI|intros _].
  apply start_runnable_jobs_keeps_idle_clean.
Qed.

Lemma deliver_keeps_idle_clean event : keeps idle_clean (deliver event).
Proof.
  unfold deliver.
  apply keeps_bind; [apply keeps_modify; intros s HI; exact HI|intros _].
  destruct event; cbn [handle_event].
  - apply keeps_modify. intros s HI. exact HI.
  - apply on_simulation_ends_keeps_idle_clean.
  - apply on_job_completed_keeps_idle_clean.
  - apply on_job_submitted_keeps_idle_clean.
  - apply on_host_state_changed_keeps_idle_clean.
  - apply on_requested_call_keeps_idle_clean.
  - apply keeps_modify. intros s HI. exact HI.
  - apply keeps_ret.
Qed.

Lemma handle_batsim_events_keeps_idle_clean : keeps idle_clean __handle_batsim_events.
Proof.
  unfold __handle_batsim_events.
  apply keeps_bind; [apply network_recv_keeps_idle_clean|intros msg].
  apply keeps_bind; [apply keeps_for_each, deliver_keeps_idle_clean|intros _].
  apply keeps_modify. intros s HI. exact HI.
Qed.

Lemma send_requests_keeps_idle_clean : keeps idle_clean __send_requests.
Proof.
  unfold __send_requests.
  apply keeps_bind; [auto with keeps|intros s0].
  apply keeps_bind; [apply network_send_keeps_idle_clean|intros _].
  apply keeps_modify. intros s HI Hrun. destruct (HI Hrun) as (_ & Hc & Ht).
  cbn. auto.
Qed.

Lemma goto_next_keeps_idle_clean : keeps idle_clean __goto_next_batsim_event.
Proof.
  unfold __goto_next_batsim_event.
  apply keeps_bind; [apply send_requests_keeps_idle_clean|intros _].
  apply keeps_bind; [apply handle_batsim_events_keeps_idle_clean|intros _].
  apply keeps_bind; [auto with keeps|intros s0].
  destruct (__simulation_time s0); [|apply keeps_ret].
  destruct (_ && _); [apply close_keeps_idle_clean|apply keeps_ret].
Qed.

Lemma set_callback_keeps_idle_clean at_ c : keeps idle_clean (set_callback at_ c).
Proof.
  unfold set_callback. apply guard_running.
  apply keeps_bind; [auto with keeps|intros s0].
  destruct (bool_decide _); [apply keeps_raise|].
  destruct c as [c|]; [|apply keeps_raise].
  apply keeps_bind; [apply keeps_modify; intros s HI; exact HI|intros _].
  apply set_batsim_call_me_later_keeps_running.
Qed.

Lemma proceed_loop_keeps_idle_clean turns : keeps idle_clean (proceed_loop turns).
Proof.
  induction turns as [|turns IH]; simpl.
  - apply keeps_bind; [auto with keeps|intros s0].
    destruct (_ && _); [apply goto_next_keeps_idle_clean|apply keeps_ret].
  - apply keeps_bind; [auto with keeps|intros s0].
    destruct (_ && _); [|apply keeps_ret].
    apply keeps_bind; [apply goto_next_keeps_idle_clean|intros _].
    apply keeps_bind; [apply start_runnable_jobs_keeps_idle_clean|intros _].
    exact IH.
Qed.

Lemma proceed_time_keeps_idle_clean time : keeps idle_clean (proceed_time time).
Proof.
  unfold proceed_time.
  apply keeps_bind; [auto with keeps|intros _].
  apply keeps_bind.
  - destruct time as [t|]; [|apply keeps_modify; intros s HI; exact HI].
    destruct (_ && _); [apply keeps_raise|].
    apply keeps_bind; [auto with keeps|intros s0].
    destruct (negb (truthy (Some t))); [apply keeps_modify; intros s HI; exact HI|].
    destruct (_ && _); [apply keeps_modify; intros s HI; exact HI|].
    apply keeps_bind; [apply keeps_modify; intros s HI; exact HI|intros _].
    apply set_callback_keeps_idle_clean.
  - intros _.
    apply keeps_bind; [apply goto_next_keeps_idle_clean|intros _].
    apply keeps_bind; [apply start_runnable_jobs_keeps_idle_clean|intros _].
    apply keeps_bind; [auto with keeps|intros s0].
    apply proceed_loop_keeps_idle_clean.
Qed.

Lemma allocate_keeps_idle_clean id hosts_id : keeps idle_clean (allocate id hosts_id).
Proof.
  unfold allocate. apply guard_running. intros s HI.
  destruct (__platform s); [|exact HI].
  destruct (find_job id s) as [[i job]|]; [|exact HI].
  revert s HI. change (keeps running
    (for_each hosts_id
       (fun h_id => let* host := platform_get h_id in
                    put_host h_id (Host_allocate id host)) ;;;
     let* job' := lift (Job_allocate hosts_id job) in
     put_job i job' ;;; __start_runnable_jobs)).
  apply keeps_bind.
  - apply keeps_for_each. intros h.
    apply keeps_bind; [auto with keeps|intros host].
    apply keeps_modify. intros s HI. exact HI.
  - intros _. apply keeps_bind; [auto with keeps|intros job'].
    apply keeps_bind; [apply keeps_modify; intros s HI; exact HI|intros _].
    apply start_runnable_jobs_keeps_running.
Qed.

Lemma kill_job_keeps_idle_clean id : keeps idle_clean (kill_job id).
Proof.
  unfold kill_job, append_request. apply guard_running. keeps_running.
Qed.

Lemma reject_job_keeps_idle_clean id : keeps idle_clean (reject_job id).
Proof.
  unfold reject_job, append_request. apply guard_running. keeps_running.
Qed.

Lemma switch_on_keeps_idle_clean l : keeps idle_clean (switch_on l).
Proof.
  unfold switch_on. apply guard_running.
  apply keeps_bind; [auto with keeps|intros _].
  apply keeps_for_each, switch_on_host_keeps_running.
Qed.

Lemma switch_off_keeps_idle_clean l : keeps idle_clean (switch_off l).
Proof.
  unfold switch_off. apply guard_running.
  apply keeps_bind; [auto with keeps|intros _].
  apply keeps_for_each, switch_off_host_keeps_running.
Qed.

Lemma switch_power_state_keeps_idle_clean h p :
  keeps idle_clean (switch_power_state h p).
Proof.
  intros s HI.
  apply (keeps_stronger idle_clean idle_clean (switch_power_state h p) s);
    [|exact HI|auto].
  clear s HI. unfold switch_power_state. apply guard_running.
  apply keeps_bind; [auto with keeps|intros _].
  apply keeps_bind; [auto with keeps|intros host].
  apply keeps_bind; [auto with keeps|intros host'].
  apply keeps_bind; [unfold put_host; keeps_running|intros _].
  destruct (host_pstate host'); [apply set_batsim_host_pstate_keeps_running|].
  apply keeps_raise.
Qed.

Lemma start_handshake_keeps_idle_clean : keeps idle_clean start_handshake.
Proof.
  unfold start_handshake, network_bind.
  apply keeps_bind; [auto with keeps|intros _].
  apply keeps_bind; [apply handle_batsim_events_keeps_idle_clean|intros _].
  apply keeps_get_state. intros s HI.
  destruct (__platform s); [|exact HI].
  apply ok_bind.
  assert (Htimer : ok idle_clean (fun _ => idle_clean)
            (match __simulation_time s with
             | Some limit => when (truthy (Some limit)) (__set_batsim_call_me_later limit)
             | None => ret tt
             end s)).
  { destruct (__simulation_time s) as [limit|] eqn:Hlimit; [|exact HI].
    destruct (truthy (Some limit)); [|exact HI].
    apply from_running; [apply set_batsim_call_me_later_keeps_running|].
    unfold running. destruct (is_running s) eqn:Hrun; [reflexivity|].
    destruct (HI Hrun) as (_ & _ & Hnone). congruence. }
  eapply ok_weaken; [exact Htimer|auto|].
  intros [] s1 HI1. cbn. exact HI1.
Qed.

Lemma start_keeps_idle_clean platform workload verbosity limit :
  keeps idle_clean (start platform workload verbosity limit).
Proof.
  unfold start. apply keeps_get_state. intros s HI.
  destruct (is_running s); [exact HI|].
  apply ok_bind. cbn [modify ok].
  apply start_handshake_keeps_idle_clean.
  apply running_idle_clean. reflexivity.
Qed.

Lemma invoke_keeps_idle_clean m : keeps idle_clean (invoke m).
Proof.
  destruct m as [? ? ? ?| | | | | | |[l|l|h p]]; cbn [invoke perform].
  - apply start_keeps_idle_clean.
  - apply close_keeps_idle_clean.
  - apply proceed_time_keeps_idle_clean.
  - apply set_callback_keeps_idle_clean.
  - apply allocate_keeps_idle_clean.
  - apply kill_job_keeps_idle_clean.
  - apply reject_job_keeps_idle_clean.
  - apply switch_on_keeps_idle_clean.
  - apply switch_off_keeps_idle_clean.
  - apply switch_power_state_keeps_idle_clean.
Qed.

Lemma keeps_state_after {A} I (c : M A) s : keeps I c -> I s -> I (state_after (c s)).
Proof. intros Hc HI. specialize (Hc s HI). now destruct (c s). Qed.

Lemma reachable_idle_clean s : reachable s -> idle_clean s.
Proof.
  induction 1 as [inbox|s m _ IH].
  - intros _. repeat split.
  - now apply keeps_state_after; [apply invoke_keeps_idle_clean|].
Qed.

(** *** While no platform is mirrored

    Only the simulation-begins event puts a platform in the mirror. *)

Ltac keeps_no_platform :=
  repeat first
    [ keeps_step
    | match goal with
      | |- keeps _ (match ?x with _ => _ end) => destruct x
      | |- keeps _ (if ?b then _ else _) => destruct b
      | |- keeps _ (let _ := _ in _) => cbv zeta
      | H : no_platform ?s |- no_platform _ =>
          unfold no_platform in *; cbn; rewrite ?H; reflexivity
      end ].

Lemma network_recv_keeps_no_platform : keeps no_platform network_recv.
Proof.
  intros s HI. unfold network_recv. destruct (net_inbox s); exact HI.
Qed.

Lemma switch_on_keeps_no_platform l : keeps no_platform (switch_on l).
Proof.
  unfold switch_on.
  apply keeps_bind; [auto with keeps|intros _].
  apply keeps_bind; [auto with keeps|intros _].
  apply keeps_for_each. intros h.
  unfold switch_on_host, put_host, __set_batsim_host_pstate.
  apply keeps_bind; [auto with keeps|intros host]. keeps_no_platform.
Qed.

Lemma check_allocation_keeps_no_platform alloc b :
  keeps no_platform (check_allocation alloc b).
Proof.
  revert b. induction alloc as [|h alloc IH]; intros b; simpl.
  - apply keeps_ret.
  - apply keeps_bind; [auto with keeps|intros host].
    apply keeps_bind; [apply keeps_when, switch_on_keeps_no_platform|intros _].
    apply IH.
Qed.

Lemma start_runnable_jobs_keeps_no_platform : keeps no_platform __start_runnable_jobs.
Proof.
  unfold __start_runnable_jobs.
  apply keeps_bind; [auto with keeps|intros s0].
  destruct (negb (is_running s0)); [apply keeps_ret|].
  apply keeps_bind; [auto with keeps|intros _].
  apply keeps_for_each. intros i. unfold start_if_ready.
  apply keeps_bind; [auto with keeps|intros s1].
  destruct (__jobs s1 !! i) as [job|]; [|apply keeps_ret].
  destruct (job_allocation job) as [[|h alloc]|]; try apply keeps_raise.
  apply keeps_bind; [apply check_allocation_keeps_no_platform|intros [|]];
    [|apply keeps_ret].
  unfold start_job, put_job, append_request. keeps_no_platform.
Qed.

Lemma close_keeps_no_platform : keeps no_platform close.
Proof.
  unfold close, __close_simulator, network_close, dispatch. keeps_no_platform.
Qed.

Lemma deliver_keeps_no_platform event :
  is_simulation_begins event = false -> keeps no_platform (deliver event).
Proof.
  intros Hev. unfold deliver.
  apply keeps_bind; [keeps_no_platform|intros _].
  destruct event; try discriminate; cbn [handle_event].
  - unfold __on_batsim_simulation_ends, network_send.
    apply keeps_bind; [auto with keeps|intros s0].
    apply keeps_bind; [keeps_no_platform|intros _]. apply close_keeps_no_platform.
  - unfold __on_batsim_job_completed.
    apply keeps_bind; [auto with keeps|intros s0].
    destruct (find_job job s0) as [[i j]|]; [|apply keeps_raise].
    apply keeps_bind; [auto with keeps|intros job'].
    apply keeps_bind; [keeps_no_platform|intros _].
    apply keeps_bind; [keeps_no_platform|intros _].
    apply start_runnable_jobs_keeps_no_platform.
  - unfold __on_batsim_job_submitted. keeps_no_platform.
  - unfold __on_batsim_host_state_changed.
    apply keeps_bind; [auto with keeps|intros _].
    apply keeps_bind; [|intros _; apply start_runnable_jobs_keeps_no_platform].
    apply keeps_for_each. intros h. unfold host_state_changed, put_host.
    apply keeps_bind; [auto with keeps|intros host]. keeps_no_platform.
  - unfold __on_batsim_requested_call, call. keeps_no_platform.
  - unfold __on_batsim_no_more_jobs_to_submit. keeps_no_platform.
  - apply keeps_ret.
Qed.

Lemma handle_batsim_events_without_platform s s' reply rest :
  net_inbox s = reply :: rest ->
  forallb (fun e => negb (is_simulation_begins e)) (reply_events reply) = true ->
  __platform s = None ->
  __handle_batsim_events s = Returns tt s' ->
  __platform s' = None.
Proof.
  intros Hin Hev Hnone Hrun.
  unfold __handle_batsim_events in Hrun.
  apply bind_Returns in Hrun as (msg & s0 & Hrecv & Hrun).
  unfold network_recv in Hrecv. rewrite Hin in Hrecv. inversion Hrecv; subst msg s0.
  apply bind_Returns in Hrun as ([] & s1 & Hloop & Hrun).
  inversion Hrun; subst s'. cbn.
  assert (Hkeeps : keeps no_platform (for_each (reply_events reply) deliver)).
  { clear -Hev. induction (reply_events reply) as [|e l IH]; simpl in *.
    - apply keeps_ret.
    - apply andb_true_iff in Hev as [He Hl].
      apply keeps_bind; [|intros _; now apply IH].
      apply deliver_keeps_no_platform. now destruct (is_simulation_begins e). }
  specialize (Hkeeps (set_net_inbox rest s) Hnone). rewrite Hloop in Hkeeps.
  exact Hkeeps.
Qed.

(** *** While a platform is mirrored

    Nothing takes the platform out of the mirror: not an event of the
    engine, not [close], not [start]. *)

Ltac keeps_platform :=
  repeat first
    [ keeps_step
    | match goal with
      | |- keeps _ (match ?x with _ => _ end) => destruct x
      | |- keeps _ (if ?b then _ else _) => destruct b
      | |- keeps _ (let _ := _ in _) => cbv zeta
      | H : has_platform ?s |- has_platform _ =>
          let pf := fresh "pf" in
          let Hpf := fresh "Hpf" in
          destruct H as [pf Hpf]; unfold has_platform; cbn; rewrite ?Hpf; cbn; eauto
      end ].

Lemma network_recv_keeps_platform : keeps has_platform network_recv.
Proof.
  intros s HI. unfold network_recv. destruct (net_inbox s); exact HI.
Qed.

Lemma switch_on_keeps_platform l : keeps has_platform (switch_on l).
Proof.
  unfold switch_on.
  apply keeps_bind; [auto with keeps|intros _].
  apply keeps_bind; [auto with keeps|intros _].
  apply keeps_for_each. intros h.
  unfold switch_on_host, put_host, __set_batsim_host_pstate.
  apply keeps_bind; [auto with keeps|intros host]. keeps_platform.
Qed.

Lemma check_allocation_keeps_platform alloc b :
  keeps has_platform (check_allocation alloc b).
Proof.
  revert b. induction alloc as [|h alloc IH]; intros b; simpl.
  - apply keeps_ret.
  - apply keeps_bind; [auto with keeps|intros host].
    apply keeps_bind; [apply keeps_when, switch_on_keeps_platform|intros _].
    apply IH.
Qed.

Lemma start_runnable_jobs_keeps_platform : keeps has_platform __start_runnable_jobs.
Proof.
  unfold __start_runnable_jobs.
  apply keeps_bind; [auto with keeps|intros s0].
  destruct (negb (is_running s0)); [apply keeps_ret|].
  apply keeps_bind; [auto with keeps|intros _].
  apply keeps_for_each. intros i. unfold start_if_ready.
  apply keeps_bind; [auto with keeps|intros s1].
  destruct (__jobs s1 !! i) as [job|]; [|apply keeps_ret].
  destruct (job_allocation job) as [[|h alloc]|]; try apply keeps_raise.
  apply keeps_bind; [apply check_allocation_keeps_platform|intros [|]];
    [|apply keeps_ret].
  unfold start_job, put_job, append_request. keeps_platform.
Qed.

Lemma close_keeps_platform : keeps has_platform close.
Proof.
  unfold close, __close_simulator, network_close, dispatch. keeps_platform.
Qed.

Lemma deliver_keeps_platform event : keeps has_platform (deliver event).
Proof.
  unfold deliver.
  apply keeps_bind; [keeps_platform|intros _].
  destruct event; cbn [handle_event].
  - unfold __on_batsim_simulation_begins. keeps_platform.
  - unfold __on_batsim_simulation_ends, network_send.
    apply keeps_bind; [auto with keeps|intros s0].
    apply keeps_bind; [keeps_platform|intros _]. apply close_keeps_platform.
  - unfold __on_batsim_job_completed.
    apply keeps_bind; [auto with keeps|intros s0].
    destruct (find_job job s0) as [[i j]|]; [|apply keeps_raise].
    apply keeps_bind; [auto with keeps|intros job'].
    apply keeps_bind; [keeps_platform|intros _].
    apply keeps_bind; [keeps_platform|intros _].
    apply start_runnable_jobs_keeps_platform.
  - unfold __on_batsim_job_submitted. keeps_platform.
  - unfold __on_batsim_host_state_changed.
    apply keeps_bind; [auto with keeps|intros _].
    apply keeps_bind; [|intros _; apply start_runnable_jobs_keeps_platform].
    apply keeps_for_each. intros h. unfold host_state_changed, put_host.
    apply keeps_bind; [auto with keeps|intros host]. keeps_platform.
  - unfold __on_batsim_requested_call, call. keeps_platform.
  - unfold __on_batsim_no_more_jobs_to_submit. keeps_platform.
  - apply keeps_ret.
Qed.

Lemma handle_batsim_events_with_platform s s' :
  has_platform s ->
  __handle_batsim_events s = Returns tt s' ->
  has_platform s'.
Proof.
  intros Hpf Hrun.
  assert (Hkeeps : keeps has_platform __handle_batsim_events).
  { unfold __handle_batsim_events.
    apply keeps_bind; [apply network_recv_keeps_platform|intros msg].
    apply keeps_bind; [|intros _; keeps_platform].
    apply keeps_for_each. intros event. apply deliver_keeps_platform. }
  specialize (Hkeeps s Hpf). rewrite Hrun in Hkeeps. exact Hkeeps.
Qed.

Lemma set_batsim_call_me_later_future at_ s :
  (current_time s < at_)%Qc ->
  exists s',
    __set_batsim_call_me_later at_ s = Returns tt s' /\
    (exists ts, CallMeLaterBatsimRequest ts at_ ∈ __batsim_requests s') /\
    dispatched s' = dispatched s /\ __platform s' = __platform s.
Proof.
  intros Hlt. unfold __set_batsim_call_me_later. rewrite bind_gets. unfold id.
  rewrite bool_decide_eq_false_2 by (apply Qclt_not_le, Hlt).
  destruct (existsb _ _) eqn:Hex; cbn [negb].
  - exists s. split; [reflexivity|]. split; [|auto].
    apply existsb_exists in Hex as (r & Hin & Hr).
    destruct r; try discriminate. simpl in Hr. apply bool_decide_eq_true in Hr.
    subst. eexists. apply list_elem_of_In. exact Hin.
  - eexists. split; [reflexivity|]. cbn. split; [|auto].
    eexists. apply list_elem_of_In, in_or_app. right. left. reflexivity.
Qed.

(** The timer of the time limit, in [start]: asked for when the limit is not
    zero and is later than the clock, and not otherwise. *)
Lemma limit_timer_Returns s :
  exists s',
    match __simulation_time s with
    | Some limit => when (truthy (Some limit)) (__set_batsim_call_me_later limit)
    | None => ret tt
    end s = Returns tt s' /\
    dispatched s' = dispatched s /\ __platform s' = __platform s /\
    (forall limit,
       __simulation_time s = Some limit -> limit <> Q2Qc 0 ->
       (current_time s < limit)%Qc ->
       exists ts, CallMeLaterBatsimRequest ts limit ∈ __batsim_requests s') /\
    ((forall limit,
        __simulation_time s = Some limit ->
        limit = Q2Qc 0 \/ (limit ≤ current_time s)%Qc) ->
     __batsim_requests s' = __batsim_requests s).
Proof.
  assert (Hnone : exists s',
    ret tt s = Returns tt s' /\
    dispatched s' = dispatched s /\ __platform s' = __platform s /\
    __batsim_requests s' = __batsim_requests s).
  { exists s. repeat split. }
  destruct (__simulation_time s) as [limit|] eqn:Hlimit.
  2:{ destruct Hnone as (s' & Hret & Hd & Hp & Hr).
      exists s'. repeat split; auto. intros limit [=]. }
  destruct (decide (limit = Q2Qc 0)) as [->|Hnz].
  { destruct Hnone as (s' & Hret & Hd & Hp & Hr).
    exists s'. split; [exact Hret|]. repeat split; auto.
    intros limit [= <-] Hne. congruence. }
  unfold truthy. rewrite bool_decide_eq_false_2 by exact Hnz. cbn [negb when].
  destruct (Qclt_le_dec (current_time s) limit) as [Hlt|Hle].
  - destruct (set_batsim_call_me_later_future limit s Hlt)
      as (s' & Htimer & Hreq & Hd & Hp).
    exists s'. split; [exact Htimer|]. repeat split; auto.
    + intros limit' [= <-] _ _. exact Hreq.
    + intros Hnot. destruct (Hnot limit eq_refl) as [->|Hle]; [congruence|].
      exfalso. exact (Qclt_not_le _ _ Hlt Hle).
  - exists s. split.
    + unfold __set_batsim_call_me_later. rewrite bind_gets. unfold id.
      now rewrite bool_decide_eq_true_2 by exact Hle.
    + repeat split; auto.
      intros limit' [= <-] _ Hlt. exfalso. exact (Qclt_not_le _ _ Hlt Hle).
Qed.

(** C8.  [start] on a running simulation raises and changes nothing.
    Otherwise it empties the job registry, puts the clock at zero, lowers the
    submitter-finished flag and records the time limit, and then launches
    the engine; at that moment no request is pending and no callback is
    registered, [close] having cleared them.  The platform of the mirror is
    not among what [start] resets: it is the one that the handler held
    before.  After the first exchange with the engine, [start] raises when
    no platform is mirrored, as when none was mirrored before and the first
    message brings no simulation-begins event.  With a platform in the
    mirror, whatever the time limit, [start] returns and the beginning of the
    simulation is notified; a timer for the time limit is pending when the
    limit is not zero and is later than the current time, and no request is
    added otherwise.  So a handler that held a platform before, from an
    earlier simulation, never raises for want of a platform, whatever the
    first message of the engine brings: the check of [start] looks at the
    platform of the earlier simulation. *)
Theorem start_resets_and_launches :
  (forall s platform workload verbosity limit,
     is_running s = true ->
     start platform workload verbosity limit s = Raises already_running_error s) /\
  (forall s platform workload verbosity limit,
     reachable s ->
     is_running s = false ->
     let s0 := start_reset limit s in
     start platform workload verbosity limit s = start_handshake s0 /\
     is_running s0 = true /\
     __jobs s0 = [] /\ __current_time s0 = Q2Qc 0 /\
     __no_more_jobs_to_submit s0 = false /\ __simulation_time s0 = limit /\
     __batsim_requests s0 = [] /\ __callbacks s0 = ∅ /\
     __platform s0 = __platform s) /\
  (forall s0 s1,
     __handle_batsim_events s0 = Returns tt s1 ->
     __platform s1 = None ->
     start_handshake s0 = Raises platform_not_loaded_error s1) /\
  (forall s0 s1 reply rest,
     net_inbox s0 = reply :: rest ->
     forallb (fun e => negb (is_simulation_begins e)) (reply_events reply) = true ->
     __platform s0 = None ->
     __handle_batsim_events s0 = Returns tt s1 ->
     start_handshake s0 = Raises platform_not_loaded_error s1) /\
  (forall s0 s1,
     __handle_batsim_events s0 = Returns tt s1 ->
     has_platform s1 ->
     exists s2,
       start_handshake s0 = Returns tt s2 /\
       dispatched s2 = dispatched s1 ++ [SIMULATION_BEGINS] /\
       __platform s2 = __platform s1 /\
       (forall limit,
          __simulation_time s1 = Some limit -> limit <> Q2Qc 0 ->
          (current_time s1 < limit)%Qc ->
          exists ts, CallMeLaterBatsimRequest ts limit ∈ __batsim_requests s2) /\
       ((forall limit,
           __simulation_time s1 = Some limit ->
           limit = Q2Qc 0 \/ (limit ≤ current_time s1)%Qc) ->
        __batsim_requests s2 = __batsim_requests s1)) /\
  (forall s0 s1,
     has_platform s0 ->
     __handle_batsim_events s0 = Returns tt s1 ->
     exists s2,
       start_handshake s0 = Returns tt s2 /\
       has_platform s2 /\
       dispatched s2 = dispatched s1 ++ [SIMULATION_BEGINS]).
Proof.
  assert (Hfail : forall s0 s1,
     __handle_batsim_events s0 = Returns tt s1 ->
     __platform s1 = None ->
     start_handshake s0 = Raises platform_not_loaded_error s1).
  { intros s0 s1 Hrun Hnone. unfold start_handshake, network_bind.
    rewrite bind_ret. unfold bind at 1. rewrite Hrun.
    rewrite bind_gets. unfold id. now rewrite Hnone. }
  assert (Hbegins : forall s0 s1,
     __handle_batsim_events s0 = Returns tt s1 ->
     has_platform s1 ->
     exists s2,
       start_handshake s0 = Returns tt s2 /\
       dispatched s2 = dispatched s1 ++ [SIMULATION_BEGINS] /\
       __platform s2 = __platform s1 /\
       (forall limit,
          __simulation_time s1 = Some limit -> limit <> Q2Qc 0 ->
          (current_time s1 < limit)%Qc ->
          exists ts, CallMeLaterBatsimRequest ts limit ∈ __batsim_requests s2) /\
       ((forall limit,
           __simulation_time s1 = Some limit ->
           limit = Q2Qc 0 \/ (limit ≤ current_time s1)%Qc) ->
        __batsim_requests s2 = __batsim_requests s1)).
  { intros s0 s1 Hrun [pf Hpf].
    destruct (limit_timer_Returns s1) as (s2 & Htimer & Hd & Hp & Hasked & Hnot).
    exists (set_dispatched (dispatched s2 ++ [SIMULATION_BEGINS]) s2).
    split.
    - unfold start_handshake, network_bind.
      rewrite bind_ret. unfold bind at 1. rewrite Hrun.
      rewrite bind_gets. unfold id. rewrite Hpf.
      unfold bind. now rewrite Htimer.
    - cbn. rewrite Hd. repeat split; auto. }
  split; [|split; [|split; [|split; [|split]]]].
  - intros s platform workload verbosity limit Hrun.
    unfold start. rewrite bind_gets. unfold id. now rewrite Hrun.
  - intros s platform workload verbosity limit Hreach Hrun s0.
    split.
    { unfold start. rewrite bind_gets. unfold id. now rewrite Hrun. }
    destruct (reachable_idle_clean s Hreach Hrun) as (Hr & Hc & _).
    subst s0. cbn. auto 10.
  - exact Hfail.
  - intros s0 s1 reply rest Hin Hev Hnone Hrun.
    apply Hfail; [exact Hrun|].
    eapply handle_batsim_events_without_platform; eassumption.
  - exact Hbegins.
  - intros s0 s1 Hpf Hrun.
    pose proof (handle_batsim_events_with_platform s0 s1 Hpf Hrun) as Hpf1.
    destruct (Hbegins s0 s1 Hrun Hpf1) as (s2 & Hstart & Hd & Hp & _).
    exists s2. split; [exact Hstart|]. split; [|exact Hd].
    unfold has_platform in *. now rewrite Hp.
Qed.

Lemma start_resets_and_launches_witness :
  let begins := mkBatsimReply (Q2Qc 0)
                  [SimulationBeginsBatsimEvent (Q2Qc 0) Fixtures.four_hosts] in
  let nothing := mkBatsimReply (Q2Qc 0) [] in
  let first := start "platform.xml" "workload.json" "quiet" None
                 (set_net_inbox [begins; nothing] Fixtures.fresh) in
  let s := state_after (close (state_after first)) in
  let s0 := start_reset None s in
  let s1 := state_after (__handle_batsim_events s0) in
  is_running s = false /\
  net_inbox s0 = [nothing] /\
  exists s2,
    start_handshake s0 = Returns tt s2 /\
    has_platform s2 /\
    dispatched s2 = dispatched s1 ++ [SIMULATION_BEGINS].
Proof.
  cbv zeta. split; [reflexivity|]. split; [reflexivity|].
  apply (proj2 (proj2 (proj2 (proj2 (proj2 start_resets_and_launches))))).
  - eexists. reflexivity.
  - vm_compute. reflexivity.
Defined.

(** The restart of the failing case, step by step.  A handler is started,
    the engine sends the platform, and the handler is closed.  At the second
    start the mirror still holds the platform of the first simulation: the
    first message of the engine brings no platform, and [start] returns as
    if one had been loaded. *)
Example restart_keeps_stale_platform :
  let begins := mkBatsimReply (Q2Qc 0)
                  [SimulationBeginsBatsimEvent (Q2Qc 0) Fixtures.four_hosts] in
  let nothing := mkBatsimReply (Q2Qc 0) [] in
  let s := set_net_inbox [begins; nothing] Fixtures.fresh in
  exists s1 s2 s3,
    start "platform.xml" "workload.json" "quiet" None s = Returns tt s1 /\
    close s1 = Returns tt s2 /\
    is_running s2 = false /\
    net_inbox s2 = [nothing] /\
    __platform (start_reset None s2) = Some Fixtures.four_hosts /\
    start "platform.xml" "workload.json" "quiet" None s2 = Returns tt s3 /\
    __platform s3 = Some Fixtures.four_hosts /\
    dispatched s3 = [SIMULATION_BEGINS; SIMULATION_ENDS; SIMULATION_BEGINS].
Proof.
  cbv zeta. eexists. eexists. eexists.
  split; [vm_compute; reflexivity|].
  split; [vm_compute; reflexivity|].
  split; [reflexivity|].
  split; [reflexivity|].
  split; [reflexivity|].
  split; [vm_compute; reflexivity|].
  split; reflexivity.
Qed.

(** On a first start the same message makes [start] fail. *)
Example first_start_without_platform :
  let nothing := mkBatsimReply (Q2Qc 0) [] in
  let s := set_net_inbox [nothing] Fixtures.fresh in
  exists s1,
    start "platform.xml" "workload.json" "quiet" None s
    = Raises platform_not_loaded_error s1.
Proof. cbv zeta. eexists. vm_compute. reflexivity. Qed.

(** [start] notifies the beginning whatever the time limit: none, zero, one
    that the clock has reached, one to come. *)
Example start_notifies_whatever_the_limit :
  let begins := mkBatsimReply (Q2Qc 3)
                  [SimulationBeginsBatsimEvent (Q2Qc 3) Fixtures.four_hosts] in
  let started limit :=
    state_after (start "platform.xml" "workload.json" "quiet" limit
                   (set_net_inbox [begins] Fixtures.fresh)) in
  (dispatched (started None), __batsim_requests (started None))
  = ([SIMULATION_BEGINS], []) /\
  (dispatched (started (Some (Q2Qc 0))), __batsim_requests (started (Some (Q2Qc 0))))
  = ([SIMULATION_BEGINS], []) /\
  (dispatched (started (Some (Q2Qc 2))), __batsim_requests (started (Some (Q2Qc 2))))
  = ([SIMULATION_BEGINS], []) /\
  (dispatched (started (Some (Q2Qc 9))), __batsim_requests (started (Some (Q2Qc 9))))
  = ([SIMULATION_BEGINS], [CallMeLaterBatsimRequest (Q2Qc 3) (Q2Qc 9)]).
Proof. cbv zeta. repeat split; by_evaluation. Qed.

(** ** The clock has one decimal *)

Lemma current_time_rounded s : rounded (current_time s).
Proof. apply round1_rounded. Qed.

Lemma well_batched_frame s s' :
  __batsim_requests s' = __batsim_requests s ->
  net_sent s' = net_sent s ->
  well_batched s -> well_batched s'.
Proof. unfold well_batched. intros -> ->. auto. Qed.

Lemma pending_for_app_other now p reqs r :
  is_set_resource_state r = false ->
  pending_for now p (reqs ++ [r]) = pending_for now p reqs.
Proof.
  intros Hr. unfold pending_for. rewrite List.filter_app. simpl.
  assert (same_properties now p r = false) as ->.
  { unfold same_properties. destruct r; try discriminate;
      now destruct (negb _). }
  apply app_nil_r.
Qed.

Lemma well_batched_append s r :
  is_set_resource_state r = false ->
  rounded (request_timestamp r) ->
  well_batched s ->
  well_batched (set_batsim_requests (__batsim_requests s ++ [r]) s).
Proof.
  intros Hr Ht (Hc & Hs & Hm). split; [|split]; cbn.
  - intros now p. rewrite pending_for_app_other by exact Hr. apply Hc.
  - apply Forall_app. split; [exact Hs|]. now constructor.
  - exact Hm.
Qed.

Lemma stamped_set_host_pstate_request now h p reqs :
  rounded now -> stamped reqs -> stamped (set_host_pstate_request now h p reqs).
Proof.
  intros Hnow. induction reqs as [|r reqs IH]; intros Hs.
  - rewrite set_host_pstate_request_nil. now repeat constructor.
  - rewrite set_host_pstate_request_cons.
    inversion Hs as [|? ? Hr Hrest]; subst.
    destruct (same_properties now p r).
    + constructor; [|exact Hrest]. now destruct r.
    + constructor; [exact Hr|]. now apply IH.
Qed.

Lemma well_batched_set_host_pstate s h p :
  well_batched s ->
  well_batched
    (set_batsim_requests
       (set_host_pstate_request (current_time s) h p (__batsim_requests s)) s).
Proof.
  intros (Hc & Hs & Hm). split; [|split]; cbn.
  - now apply coalesced_set_host_pstate_request.
  - apply stamped_set_host_pstate_request; [apply current_time_rounded|exact Hs].
  - exact Hm.
Qed.

Lemma well_batched_clear s :
  well_batched s -> well_batched (set_batsim_requests [] s).
Proof.
  intros (Hc & Hs & Hm). split; [|split]; cbn.
  - intros now p. simpl. lia.
  - constructor.
  - exact Hm.
Qed.

Lemma well_batched_send s reqs :
  stamped reqs -> well_batched s ->
  well_batched (set_net_sent (net_sent s ++ [mkBatsimMessage (current_time s) reqs]) s).
Proof.
  intros Hr (Hc & Hs & Hm). split; [exact Hc|]. split; [exact Hs|]. cbn.
  apply Forall_app. split; [exact Hm|]. constructor; [|constructor].
  split; [apply current_time_rounded|exact Hr].
Qed.

(** Commands that touch neither the pending requests nor the transport. *)
Ltac well_batched_frame :=
  match goal with
  | H : well_batched ?s |- well_batched _ =>
      apply (well_batched_frame s); [reflexivity|reflexivity|exact H]
  end.

Ltac keeps_well_batched :=
  repeat first
    [ keeps_step
    | match goal with
      | |- keeps _ (match ?x with _ => _ end) => destruct x
      | |- keeps _ (if ?b then _ else _) => destruct b
      | |- keeps _ (let _ := _ in _) => cbv zeta
      end
    | well_batched_frame ].

Lemma set_batsim_host_pstate_keeps_well_batched h p :
  keeps well_batched (__set_batsim_host_pstate h p).
Proof. apply keeps_modify. intros s. apply well_batched_set_host_pstate. Qed.

Lemma switch_on_host_keeps_well_batched h : keeps well_batched (switch_on_host h).
Proof.
  unfold switch_on_host, put_host.
  apply keeps_bind; [auto with keeps|intros host].
  apply keeps_bind; [auto with keeps|intros host'].
  apply keeps_bind; [keeps_well_batched|intros _].
  apply keeps_bind; [auto with keeps|intros p].
  apply set_batsim_host_pstate_keeps_well_batched.
Qed.

Lemma switch_off_host_keeps_well_batched h : keeps well_batched (switch_off_host h).
Proof.
  unfold switch_off_host, put_host.
  apply keeps_bind; [auto with keeps|intros host].
  apply keeps_bind; [auto with keeps|intros host'].
  apply keeps_bind; [keeps_well_batched|intros _].
  apply keeps_bind; [auto with keeps|intros p].
  apply set_batsim_host_pstate_keeps_well_batched.
Qed.

Lemma switch_on_keeps_well_batched l : keeps well_batched (switch_on l).
Proof.
  unfold switch_on.
  apply keeps_bind; [auto with keeps|intros _].
  apply keeps_bind; [auto with keeps|intros _].
  apply keeps_for_each, switch_on_host_keeps_well_batched.
Qed.

Lemma switch_off_keeps_well_batched l : keeps well_batched (switch_off l).
Proof.
  unfold switch_off.
  apply keeps_bind; [auto with keeps|intros _].
  apply keeps_bind; [auto with keeps|intros _].
  apply keeps_for_each, switch_off_host_keeps_well_batched.
Qed.

Lemma switch_power_state_keeps_well_batched h p :
  keeps well_batched (switch_power_state h p).
Proof.
  unfold switch_power_state, put_host.
  apply keeps_bind; [auto with keeps|intros _].
  apply keeps_bind; [auto with keeps|intros _].
  apply keeps_bind; [auto with keeps|intros host].
  apply keeps_bind; [auto with keeps|intros host'].
  apply keeps_bind; [keeps_well_batched|intros _].
  destruct (host_pstate host'); [apply set_batsim_host_pstate_keeps_well_batched|].
  apply keeps_raise.
Qed.

Lemma check_allocation_keeps_well_batched alloc b :
  keeps well_batched (check_allocation alloc b).
Proof.
  revert b. induction alloc as [|h alloc IH]; intros b; simpl.
  - apply keeps_ret.
  - apply keeps_bind; [auto with keeps|intros host].
    apply keeps_bind; [apply keeps_when, switch_on_keeps_well_batched|intros _].
    apply IH.
Qed.

(** A request that is not a set-resource-state one, stamped with the clock. *)
Lemma stamp_keeps_well_batched (f : time -> BatsimRequest) :
  (forall now, is_set_resource_state (f now) = false) ->
  (forall now, request_timestamp (f now) = now) ->
  keeps well_batched (let* now := gets current_time in append_request (f now)).
Proof.
  intros Hf Ht s HI. rewrite bind_gets. cbn.
  apply well_batched_append; [apply Hf| |exact HI].
  rewrite Ht. apply current_time_rounded.
Qed.

Lemma start_if_ready_keeps_well_batched i : keeps well_batched (start_if_ready i).
Proof.
  unfold start_if_ready.
  apply keeps_bind; [auto with keeps|intros s0].
  destruct (__jobs s0 !! i) as [job|]; [|apply keeps_ret].
  destruct (job_allocation job) as [[|h alloc]|]; try apply keeps_raise.
  apply keeps_bind; [apply check_allocation_keeps_well_batched|intros [|]];
    [|apply keeps_ret].
  apply keeps_bind; [auto with keeps|intros now].
  apply keeps_bind; [unfold start_job, put_job; keeps_well_batched|intros _].
  apply (stamp_keeps_well_batched
           (fun now => ExecuteJobBatsimRequest now (job_id job) (h :: alloc)));
    reflexivity.
Qed.

Lemma start_runnable_jobs_keeps_well_batched : keeps well_batched __start_runnable_jobs.
Proof.
  unfold __start_runnable_jobs.
  apply keeps_bind; [auto with keeps|intros s0].
  destruct (negb (is_running s0)); [apply keeps_ret|].
  apply keeps_bind; [auto with keeps|intros _].
  apply keeps_for_each, start_if_ready_keeps_well_batched.
Qed.

Lemma set_batsim_call_me_later_keeps_well_batched at_ :
  keeps well_batched (__set_batsim_call_me_later at_).
Proof.
  unfold __set_batsim_call_me_later. apply keeps_get_state. intros s HI.
  destruct (bool_decide _); [exact HI|]. cbv zeta.
  destruct (negb _); [|exact HI]. cbn.
  apply well_batched_append; [reflexivity|apply current_time_rounded|exact HI].
Qed.

Lemma close_keeps_well_batched : keeps well_batched close.
Proof.
  unfold close, __close_simulator, network_close, dispatch.
  apply keeps_bind; [auto with keeps|intros s0].
  destruct (negb (is_running s0)); [apply keeps_ret|].
  apply keeps_bind; [keeps_well_batched|intros _].
  apply keeps_bind; [keeps_well_batched|intros _].
  apply keeps_bind; [keeps_well_batched|intros _].
  apply keeps_bind; [apply keeps_modify; intros s; apply well_batched_clear|intros _].
  keeps_well_batched.
Qed.

Lemma send_requests_keeps_well_batched : keeps well_batched __send_requests.
Proof.
  unfold __send_requests. apply keeps_get_state. intros s HI.
  cbn. apply well_batched_clear. apply well_batched_send; [|exact HI].
  apply HI.
Qed.

Lemma deliver_keeps_well_batched event : keeps well_batched (deliver event).
Proof.
  unfold deliver.
  apply keeps_bind; [keeps_well_batched|intros _].
  destruct event; cbn [handle_event].
  - unfold __on_batsim_simulation_begins. keeps_well_batched.
  - unfold __on_batsim_simulation_ends. apply keeps_get_state. intros s HI.
    apply ok_bind.
    assert (Hack : ok well_batched (fun _ => well_batched)
              (when (__simulator s)
                 (network_send (mkBatsimMessage (current_time s) [])) s)).
    { destruct (__simulator s); [|exact HI]. cbn.
      apply well_batched_send; [constructor|exact HI]. }
    eapply ok_weaken; [exact Hack|auto|]. intros [] s1 HI1.
    now apply close_keeps_well_batched.
  - unfold __on_batsim_job_completed.
    apply keeps_bind; [auto with keeps|intros s0].
    destruct (find_job job s0) as [[i j]|]; [|apply keeps_raise].
    apply keeps_bind; [auto with keeps|intros job'].
    apply keeps_bind; [keeps_well_batched|intros _].
    apply keeps_bind; [keeps_well_batched|intros _].
    apply start_runnable_jobs_keeps_well_batched.
  - unfold __on_batsim_job_submitted. keeps_well_batched.
  - unfold __on_batsim_host_state_changed.
    apply keeps_bind; [auto with keeps|intros _].
    apply keeps_bind; [|intros _; apply start_runnable_jobs_keeps_well_batched].
    apply keeps_for_each. intros h. unfold host_state_changed, put_host.
    apply keeps_bind; [auto with keeps|intros host]. keeps_well_batched.
  - unfold __on_batsim_requested_call, call. keeps_well_batched.
  - unfold __on_batsim_no_more_jobs_to_submit. keeps_well_batched.
  - apply keeps_ret.
Qed.

Lemma goto_next_keeps_well_batched : keeps well_batched __goto_next_batsim_event.
Proof.
  unfold __goto_next_batsim_event.
  apply keeps_bind; [apply send_requests_keeps_well_batched|intros _].
  apply keeps_bind.
  - unfold __handle_batsim_events.
    apply keeps_bind.
    + intros s HI. unfold network_recv. destruct (net_inbox s); [exact HI|].
      cbn. well_batched_frame.
    + intros msg.
      apply keeps_bind; [apply keeps_for_each, deliver_keeps_well_batched|intros _].
      keeps_well_batched.
  - intros _. apply keeps_bind; [auto with keeps|intros s0].
    destruct (__simulation_time s0); [|apply keeps_ret].
    destruct (_ && _); [apply close_keeps_well_batched|apply keeps_ret].
Qed.

Lemma handle_batsim_events_keeps_well_batched : keeps well_batched __handle_batsim_events.
Proof.
  unfold __handle_batsim_events.
  apply keeps_bind.
  - intros s HI. unfold network_recv. destruct (net_inbox s); [exact HI|].
    cbn. well_batched_frame.
  - intros msg.
    apply keeps_bind; [apply keeps_for_each, deliver_keeps_well_batched|intros _].
    keeps_well_batched.
Qed.

Lemma set_callback_keeps_well_batched at_ c : keeps well_batched (set_callback at_ c).
Proof.
  unfold set_callback.
  apply keeps_bind; [auto with keeps|intros _].
  apply keeps_bind; [auto with keeps|intros s0].
  destruct (bool_decide _); [apply keeps_raise|].
  destruct c as [c|]; [|apply keeps_raise].
  apply keeps_bind; [keeps_well_batched|intros _].
  apply set_batsim_call_me_later_keeps_well_batched.
Qed.

Lemma proceed_loop_keeps_well_batched turns : keeps well_batched (proceed_loop turns).
Proof.
  induction turns as [|turns IH]; simpl.
  - apply keeps_bind; [auto with keeps|intros s0].
    destruct (_ && _); [apply goto_next_keeps_well_batched|apply keeps_ret].
  - apply keeps_bind; [auto with keeps|intros s0].
    destruct (_ && _); [|apply keeps_ret].
    apply keeps_bind; [apply goto_next_keeps_well_batched|intros _].
    apply keeps_bind; [apply start_runnable_jobs_keeps_well_batched|intros _].
    exact IH.
Qed.

Lemma proceed_time_keeps_well_batched time : keeps well_batched (proceed_time time).
Proof.
  unfold proceed_time.
  apply keeps_bind; [auto with keeps|intros _].
  apply keeps_bind.
  - destruct time as [t|]; [|keeps_well_batched].
    destruct (_ && _); [apply keeps_raise|].
    apply keeps_bind; [auto with keeps|intros s0].
    destruct (negb (truthy (Some t))); [keeps_well_batched|].
    destruct (_ && _); [keeps_well_batched|].
    apply keeps_bind; [keeps_well_batched|intros _].
    apply set_callback_keeps_well_batched.
  - intros _.
    apply keeps_bind; [apply goto_next_keeps_well_batched|intros _].
    apply keeps_bind; [apply start_runnable_jobs_keeps_well_batched|intros _].
    apply keeps_bind; [auto with keeps|intros s0].
    apply proceed_loop_keeps_well_batched.
Qed.

Lemma allocate_keeps_well_batched id hosts_id : keeps well_batched (allocate id hosts_id).
Proof.
  unfold allocate.
  apply keeps_bind; [auto with keeps|intros _]. intros s HI.
  destruct (__platform s); [|exact HI].
  destruct (find_job id s) as [[i job]|]; [|exact HI].
  revert s HI. change (keeps well_batched
    (for_each hosts_id
       (fun h_id => let* host := platform_get h_id in
                    put_host h_id (Host_allocate id host)) ;;;
     let* job' := lift (Job_allocate hosts_id job) in
     put_job i job' ;;; __start_runnable_jobs)).
  apply keeps_bind.
  - apply keeps_for_each. intros h. unfold put_host. keeps_well_batched.
    apply platform_get_keeps.
  - intros _. apply keeps_bind; [auto with keeps|intros job'].
    apply keeps_bind; [unfold put_job; keeps_well_batched|intros _].
    apply start_runnable_jobs_keeps_well_batched.
Qed.

Lemma kill_job_keeps_well_batched id : keeps well_batched (kill_job id).
Proof.
  unfold kill_job.
  apply keeps_bind; [auto with keeps|intros _].
  apply keeps_bind; [auto with keeps|intros s0].
  destruct (find_job id s0) as [[i job]|]; [|apply keeps_raise].
  apply keeps_bind; [keeps_well_batched|intros _].
  apply (stamp_keeps_well_batched (fun now => KillJobBatsimRequest now id));
    reflexivity.
Qed.

Lemma reject_job_keeps_well_batched id : keeps well_batched (reject_job id).
Proof.
  unfold reject_job.
  apply keeps_bind; [auto with keeps|intros _].
  apply keeps_bind; [auto with keeps|intros s0].
  destruct (find_job id s0) as [[i job]|]; [|apply keeps_raise].
  destruct (negb _); [apply keeps_raise|].
  apply keeps_bind; [keeps_well_batched|intros _].
  apply (stamp_keeps_well_batched (fun now => RejectJobBatsimRequest now id));
    reflexivity.
Qed.

Lemma start_keeps_well_batched platform workload verbosity limit :
  keeps well_batched (start platform workload verbosity limit).
Proof.
  unfold start, start_handshake, network_bind, dispatch.
  apply keeps_bind; [auto with keeps|intros s0].
  destruct (is_running s0); [apply keeps_raise|].
  apply keeps_bind; [unfold start_reset; keeps_well_batched|intros _].
  apply keeps_bind; [auto with keeps|intros _].
  apply keeps_bind; [apply handle_batsim_events_keeps_well_batched|intros _].
  apply keeps_bind; [auto with keeps|intros s1].
  destruct (__platform s1); [|apply keeps_raise].
  apply keeps_bind; [|intros _; keeps_well_batched].
  destruct (__simulation_time s1); [|apply keeps_ret].
  apply keeps_when, set_batsim_call_me_later_keeps_well_batched.
Qed.

Lemma invoke_keeps_well_batched m : keeps well_batched (invoke m).
Proof.
  destruct m as [? ? ? ?| | | | | | |[l|l|h p]]; cbn [invoke perform].
  - apply start_keeps_well_batched.
  - apply close_keeps_well_batched.
  - apply proceed_time_keeps_well_batched.
  - apply set_callback_keeps_well_batched.
  - apply allocate_keeps_well_batched.
  - apply kill_job_keeps_well_batched.
  - apply reject_job_keeps_well_batched.
  - apply switch_on_keeps_well_batched.
  - apply switch_off_keeps_well_batched.
  - apply switch_power_state_keeps_well_batched.
Qed.

Lemma reachable_well_batched s : reachable s -> well_batched s.
Proof.
  induction 1 as [inbox|s m _ IH].
  - split; [|split]; cbn; [intros now p; simpl; lia|constructor|constructor].
  - now apply keeps_state_after; [apply invoke_keeps_well_batched|].
Qed.

Lemma kill_job_request s s' id :
  kill_job id s = Returns tt s' ->
  __batsim_requests s'
  = __batsim_requests s ++ [KillJobBatsimRequest (round1 (__current_time s)) id].
Proof.
  unfold kill_job, bind, require_running, gets, Datatypes.id.
  destruct (is_running s); [|discriminate].
  destruct (find_job id s) as [[i job]|]; [|discriminate].
  cbn. intros [= <-]. reflexivity.
Qed.

Lemma reject_job_request s s' id :
  reject_job id s = Returns tt s' ->
  __batsim_requests s'
  = __batsim_requests s ++ [RejectJobBatsimRequest (round1 (__current_time s)) id].
Proof.
  unfold reject_job, bind, require_running, gets, Datatypes.id.
  destruct (is_running s); [|discriminate].
  destruct (find_job id s) as [[i job]|]; [|discriminate].
  destruct (negb (is_submitted job)); [discriminate|].
  cbn. intros [= <-]. reflexivity.
Qed.

Lemma started_stamps i job alloc s :
  __jobs s !! i = Some job ->
  let now := round1 (__current_time s) in
  (exists job', __jobs (started i job alloc s) !! i = Some job' /\
                job_start_time job' = Some now) /\
  __batsim_requests (started i job alloc s)
  = __batsim_requests s ++ [ExecuteJobBatsimRequest now (job_id job) alloc].
Proof.
  intros Hjob now. split; [|reflexivity].
  eexists. cbn. rewrite list_lookup_insert_eq by (now apply lookup_lt_Some in Hjob).
  split; reflexivity.
Qed.

(** C10.  The current time of the handler is its internal time rounded to
    one decimal place: a number of tenths, at most one twentieth away from the
    internal time.  This rounded time, not the timestamp that the engine gave,
    is the one that every request and every message carries, the one recorded
    as the start time of a job, the one that [set_callback] compares the
    target of a callback with, and the one under which the callbacks of a
    timer event are looked up. *)
Theorem clock_is_rounded_to_one_decimal :
  (forall s,
     exists k : Z,
       current_time s = Qc_of_tenths k /\
       (Qabs (Qcanon.this (__current_time s) - Qcanon.this (current_time s))
        <= 1 # 20)%Q) /\
  (forall s,
     reachable s ->
     stamped (__batsim_requests s) /\
     Forall (fun m => rounded (msg_now m) /\ stamped (msg_requests m)) (net_sent s)) /\
  (forall s s' id,
     kill_job id s = Returns tt s' ->
     __batsim_requests s'
     = __batsim_requests s ++ [KillJobBatsimRequest (round1 (__current_time s)) id]) /\
  (forall s s' id,
     reject_job id s = Returns tt s' ->
     __batsim_requests s'
     = __batsim_requests s ++ [RejectJobBatsimRequest (round1 (__current_time s)) id]) /\
  (forall s h_id pstate_id,
     exists s',
       __set_batsim_host_pstate h_id pstate_id s = Returns tt s' /\
       __batsim_requests s'
       = set_host_pstate_request (round1 (__current_time s)) h_id pstate_id
           (__batsim_requests s)) /\
  (forall s at_,
     (round1 (__current_time s) < at_)%Qc ->
     existsb (is_call_me_later_at at_) (__batsim_requests s) = false ->
     exists s',
       __set_batsim_call_me_later at_ s = Returns tt s' /\
       __batsim_requests s'
       = __batsim_requests s
         ++ [CallMeLaterBatsimRequest (round1 (__current_time s)) at_]) /\
  (forall s,
     exists s',
       __send_requests s = Returns tt s' /\
       net_sent s'
       = net_sent s
         ++ [mkBatsimMessage (round1 (__current_time s)) (__batsim_requests s)]) /\
  (forall s s' i,
     start_if_ready i s = Returns tt s' ->
     starts i s s' ->
     exists job job' alloc,
       __jobs s !! i = Some job /\ __jobs s' !! i = Some job' /\
       job_start_time job' = Some (round1 (__current_time s)) /\
       __batsim_requests s'
       = __batsim_requests s
         ++ [ExecuteJobBatsimRequest (round1 (__current_time s)) (job_id job) alloc]) /\
  (forall s at_ call,
     is_running s = true ->
     (at_ ≤ round1 (__current_time s))%Qc ->
     set_callback at_ call s = Raises past_callback_error s) /\
  (forall s at_ c,
     is_running s = true ->
     (round1 (__current_time s) < at_)%Qc ->
     exists s', set_callback at_ (Callable c) s = Returns tt s') /\
  (forall s ts registered,
     __callbacks s !! round1 ts = Some registered ->
     exists s',
       deliver (RequestedCallBatsimEvent ts) s = Returns tt s' /\
       invoked s' = invoked s ++ map (fun c => (c, round1 ts)) registered).
Proof.
  repeat apply conj.
  - intros s. exists (round_half_even (Qcanon.this (__current_time s) * inject_Z 10)).
    split; [apply round1_tenth|apply round1_near].
  - intros s Hreach. destruct (reachable_well_batched s Hreach) as (_ & Hs & Hm).
    auto.
  - exact kill_job_request.
  - exact reject_job_request.
  - intros s h_id pstate_id. eexists. split; reflexivity.
  - intros s at_ Hlt Hnone. unfold __set_batsim_call_me_later.
    rewrite bind_gets. unfold id.
    rewrite bool_decide_eq_false_2 by (apply Qclt_not_le, Hlt).
    rewrite Hnone. eexists. split; reflexivity.
  - intros s. eexists. split; reflexivity.
  - intros s s' i Hrun Hst.
    destruct (starts_in_turn i i s s' Hrun Hst)
      as (_ & job & alloc & Hjob & _ & _ & _ & ->).
    destruct (started_stamps i job alloc s Hjob) as ((job' & Hjob' & Hstart) & Hreq).
    exists job, job', alloc. auto.
  - intros s at_ call Hrun Hle.
    unfold set_callback, bind, require_running, gets. rewrite Hrun.
    unfold id. now rewrite bool_decide_eq_true_2 by exact Hle.
  - intros s at_ c Hrun Hlt.
    destruct (set_callback_registers s at_ c Hrun Hlt) as (s' & Hset & _).
    eauto.
  - intros s ts registered Hreg.
    unfold deliver, bind, modify. cbn [handle_event].
    destruct (requested_call_fires (set_current_time ts s) registered Hreg)
      as (s' & Hrun & Hinv & _).
    exists s'. split; [exact Hrun|exact Hinv].
Qed.

Lemma clock_is_rounded_to_one_decimal_witness :
  let s := Fixtures.running (Qc_of_hundredths 25) [Fixtures.job "j" RUNNING (Some [1])] [] in
  exists s',
    kill_job "j" s = Returns tt s' /\
    __batsim_requests s'
    = __batsim_requests s ++ [KillJobBatsimRequest (round1 (__current_time s)) "j"].
Proof.
  cbv zeta. eexists. split; [vm_compute; reflexivity|].
  apply (proj1 (proj2 (proj2 clock_is_rounded_to_one_decimal))).
  vm_compute. reflexivity.
Defined.

(** At the internal time 0.25 the request is stamped 0.2. *)
Example kill_job_at_a_quarter :
  let s := Fixtures.running (Qc_of_hundredths 25) [Fixtures.job "j" RUNNING (Some [1])] [] in
  exists s',
    kill_job "j" s = Returns tt s' /\
    __batsim_requests s' = [KillJobBatsimRequest (Qc_of_tenths 2) "j"].
Proof.
  cbv zeta. eexists. split; [vm_compute; reflexivity|]. by_evaluation.
Qed.

(** ** The loop of [proceed_time] has turns enough

    Only the receive takes a reply of the engine, one in every turn of the
    loop: the replies to come bound the turns, and a greater bound changes
    nothing. *)

Ltac keeps_inbox :=
  repeat first
    [ keeps_step
    | match goal with
      | |- keeps _ (platform_get _) => apply platform_get_keeps
      | |- keeps _ require_running => apply require_running_keeps
      | |- keeps _ require_platform => apply require_platform_keeps
      | |- keeps _ (match ?x with _ => _ end) => destruct x
      | |- keeps _ (if ?b then _ else _) => destruct b
      | |- keeps _ (let _ := _ in _) => cbv zeta
      | H : net_inbox ?s = ?l |- net_inbox _ = ?l => exact H
      end ].

Lemma check_allocation_keeps_inbox l alloc b :
  keeps (fun s => net_inbox s = l) (check_allocation alloc b).
Proof.
  revert b. induction alloc as [|h alloc IH]; intros b; simpl.
  - apply keeps_ret.
  - apply keeps_bind; [apply platform_get_keeps|intros host].
    apply keeps_bind; [|intros _; apply IH].
    unfold switch_on, switch_on_host, put_host, __set_batsim_host_pstate.
    keeps_inbox.
Qed.

Lemma start_runnable_jobs_keeps_inbox l :
  keeps (fun s => net_inbox s = l) __start_runnable_jobs.
Proof.
  unfold __start_runnable_jobs.
  apply keeps_bind; [apply keeps_gets|intros s0].
  destruct (negb (is_running s0)); [apply keeps_ret|].
  apply keeps_bind; [apply require_platform_keeps|intros _].
  apply keeps_for_each. intros i. unfold start_if_ready.
  apply keeps_bind; [apply keeps_gets|intros s1].
  destruct (__jobs s1 !! i) as [job|]; [|apply keeps_ret].
  destruct (job_allocation job) as [[|h alloc]|]; try apply keeps_raise.
  apply keeps_bind; [apply check_allocation_keeps_inbox|intros [|]];
    [|apply keeps_ret].
  unfold start_job, put_job, append_request. keeps_inbox.
Qed.

Lemma close_keeps_inbox l : keeps (fun s => net_inbox s = l) close.
Proof. unfold close, __close_simulator, network_close, dispatch. keeps_inbox. Qed.

Lemma deliver_keeps_inbox l event : keeps (fun s => net_inbox s = l) (deliver event).
Proof.
  unfold deliver.
  apply keeps_bind; [keeps_inbox|intros _].
  destruct event; cbn [handle_event].
  - unfold __on_batsim_simulation_begins. keeps_inbox.
  - unfold __on_batsim_simulation_ends, network_send.
    apply keeps_bind; [apply keeps_gets|intros s0].
    apply keeps_bind; [keeps_inbox|intros _]. apply close_keeps_inbox.
  - unfold __on_batsim_job_completed.
    apply keeps_bind; [apply keeps_gets|intros s0].
    destruct (find_job job s0) as [[i j]|]; [|apply keeps_raise].
    apply keeps_bind; [apply keeps_lift|intros job'].
    apply keeps_bind; [keeps_inbox|intros _].
    apply keeps_bind; [keeps_inbox|intros _].
    apply start_runnable_jobs_keeps_inbox.
  - unfold __on_batsim_job_submitted. keeps_inbox.
  - unfold __on_batsim_host_state_changed.
    apply keeps_bind; [apply require_platform_keeps|intros _].
    apply keeps_bind; [|intros _; apply start_runnable_jobs_keeps_inbox].
    apply keeps_for_each. intros h. unfold host_state_changed, put_host.
    keeps_inbox.
  - unfold __on_batsim_requested_call, call. keeps_inbox.
  - unfold __on_batsim_no_more_jobs_to_submit. keeps_inbox.
  - apply keeps_ret.
Qed.

(** What [__goto_next_batsim_event] does with the replies to come: it waits
    for ever when there is none, and takes the first one otherwise. *)
Lemma goto_next_blocks s :
  net_inbox s = [] -> exists s1, __goto_next_batsim_event s = Blocks s1.
Proof.
  intros Hin. unfold __goto_next_batsim_event, __send_requests,
    __handle_batsim_events, network_send, network_recv, bind, gets, modify.
  cbn. rewrite Hin. eauto.
Qed.

Lemma goto_next_takes_one s s' :
  __goto_next_batsim_event s = Returns tt s' ->
  exists reply, net_inbox s = reply :: net_inbox s'.
Proof.
  unfold __goto_next_batsim_event. intros H.
  apply bind_Returns in H as ([] & s1 & Hsend & H).
  apply bind_Returns in H as ([] & s2 & Hhandle & H).
  assert (Hin1 : net_inbox s1 = net_inbox s).
  { unfold __send_requests, network_send, bind, gets, modify in Hsend.
    inversion Hsend; subst. reflexivity. }
  unfold __handle_batsim_events in Hhandle.
  apply bind_Returns in Hhandle as (msg & s3 & Hrecv & Hhandle).
  unfold network_recv in Hrecv.
  destruct (net_inbox s1) as [|reply rest] eqn:Hin; [discriminate|].
  inversion Hrecv; subst msg s3; clear Hrecv.
  apply bind_Returns in Hhandle as ([] & s4 & Hloop & Hset).
  assert (Hin4 : net_inbox s4 = rest).
  { pose proof (keeps_for_each (fun t => net_inbox t = rest) (reply_events reply)
                  deliver (deliver_keeps_inbox rest)
                  (set_net_inbox rest s1) eq_refl) as Hk.
    rewrite Hloop in Hk. exact Hk. }
  assert (Hin2 : net_inbox s2 = rest).
  { unfold modify in Hset. injection Hset as <-. exact Hin4. }
  exists reply. rewrite <- Hin1. f_equal.
  rewrite bind_gets in H. unfold id in H.
  assert (Hret : forall t, ret tt s2 = Returns tt t -> rest = net_inbox t).
  { intros t Ht. unfold ret in Ht. injection Ht as <-. now symmetry. }
  destruct (__simulation_time s2); [|now apply Hret].
  destruct (_ && _); [|now apply Hret].
  pose proof (close_keeps_inbox rest s2 Hin2) as Hk. rewrite H in Hk.
  now symmetry.
Qed.

Lemma proceed_loop_turns_enough n s :
  (length (net_inbox s) <= n)%nat -> proceed_loop (S n) s = proceed_loop n s.
Proof.
  revert s. induction n as [|n IH]; intros s Hlen.
  - assert (Hin : net_inbox s = []) by (destruct (net_inbox s); [reflexivity|simpl in Hlen; lia]).
    destruct (goto_next_blocks s Hin) as (s1 & Hblock).
    cbn [proceed_loop]. rewrite !bind_gets. unfold id.
    destruct (_ && _); [|reflexivity].
    unfold bind. now rewrite Hblock.
  - change (proceed_loop (S (S n)) s) with
      ((let* s0 := gets id in
        if is_running s0 && __wait_callback s0
        then __goto_next_batsim_event ;;; __start_runnable_jobs ;;; proceed_loop (S n)
        else ret tt) s).
    change (proceed_loop (S n) s) with
      ((let* s0 := gets id in
        if is_running s0 && __wait_callback s0
        then __goto_next_batsim_event ;;; __start_runnable_jobs ;;; proceed_loop n
        else ret tt) s).
    rewrite !bind_gets. unfold id.
    destruct (_ && _); [|reflexivity].
    unfold bind at 1 3.
    destruct (__goto_next_batsim_event s) as [[] s1| |] eqn:Hgoto; try reflexivity.
    destruct (goto_next_takes_one s s1 Hgoto) as (reply & Hin).
    unfold bind.
    destruct (__start_runnable_jobs s1) as [[] s2| |] eqn:Hstart; try reflexivity.
    apply IH.
    pose proof (start_runnable_jobs_keeps_inbox (net_inbox s1) s1 eq_refl) as Hk.
    rewrite Hstart in Hk. cbn in Hk. rewrite Hk.
    rewrite Hin in Hlen. simpl in Hlen. lia.
Qed.

(** With turns enough, the number of turns does not matter. *)
Lemma proceed_loop_any_turns n m s :
  (length (net_inbox s) <= n)%nat -> (n <= m)%nat ->
  proceed_loop m s = proceed_loop n s.
Proof.
  intros Hlen Hnm. induction Hnm as [|m Hnm IH]; [reflexivity|].
  rewrite proceed_loop_turns_enough by lia. exact IH.
Qed.

(** * Further properties of the handler *)

Lemma bind_same {A B} (c1 c2 : M A) (k : A -> M B) s :
  c1 s = c2 s -> bind c1 k s = bind c2 k s.
Proof. unfold bind. now intros ->. Qed.

Lemma require_running_bind {A} (k : unit -> M A) s :
  bind require_running k s
  = if is_running s then k tt s else Raises not_running_error s.
Proof. unfold bind, require_running. now destruct (is_running s). Qed.

Lemma bind_Returns_eq {A B} (c : M A) (k : A -> M B) s a s1 :
  c s = Returns a s1 -> bind c k s = k a s1.
Proof. unfold bind. now intros ->. Qed.

(** ** A handler that does not run *)

(** X1.  Every public method but [start] and [close] first checks that the
    simulation runs: on a handler that does not run it raises the runtime
    error and leaves the handler as it was, whatever its arguments are.  The
    check comes before the checks of the arguments. *)
Theorem stopped_handler_refuses (m : method) (s : SimulatorHandler) :
  needs_simulation m = true ->
  is_running s = false ->
  invoke m s = Raises not_running_error s.
Proof.
  intros Hm Hrun.
  destruct m as [? ? ? ?| |time|at_ call|job hosts_id|job|job|[l|l|h p]];
    try discriminate Hm; cbn [invoke perform];
    unfold proceed_time, set_callback, allocate, kill_job, reject_job,
      switch_on, switch_off, switch_power_state;
    unfold bind at 1; unfold require_running; now rewrite Hrun.
Qed.

Lemma stopped_handler_refuses_witness :
  invoke (SetCallback (Q2Qc (-1)) NotCallable) Fixtures.fresh
  = Raises not_running_error Fixtures.fresh.
Proof. apply stopped_handler_refuses; reflexivity. Defined.

(** ** Closing *)

(** [close] returns, with the simulation stopped; the transport, the clock
    and the trace of invocations are left as they were. *)
Lemma close_Returns s :
  exists s',
    close s = Returns tt s' /\
    is_running s' = false /\
    net_inbox s' = net_inbox s /\
    __current_time s' = __current_time s /\
    invoked s' = invoked s.
Proof.
  unfold close, __close_simulator, network_close, dispatch.
  rewrite bind_gets. unfold id, is_running.
  destruct (__simulator s) eqn:Hrun; cbn [negb].
  - rewrite bind_assoc, bind_gets. unfold id. rewrite Hrun.
    eexists. split; [reflexivity|]. cbn. repeat split.
  - exists s. repeat split; exact Hrun.
Qed.

Lemma close_stops s s' : close s = Returns tt s' -> is_running s' = false.
Proof.
  intros Hclose. destruct (close_Returns s) as (s1 & H1 & Hstop & _).
  congruence.
Qed.

(** X2.  [close] never fails and never waits.  It leaves a handler that does
    not run, on which a second [close] does nothing; the end of the simulation
    is signalled once if the simulation ran and not at all otherwise; nothing
    is sent to the engine, and the mirrored jobs, the mirrored platform and
    the clock stay. *)
Theorem close_is_idempotent (s : SimulatorHandler) :
  exists s',
    close s = Returns tt s' /\
    is_running s' = false /\
    close s' = Returns tt s' /\
    dispatched s' = dispatched s ++ (if is_running s then [SIMULATION_ENDS] else []) /\
    net_sent s' = net_sent s /\ net_inbox s' = net_inbox s /\
    __jobs s' = __jobs s /\ __platform s' = __platform s /\
    __current_time s' = __current_time s.
Proof.
  unfold close, __close_simulator, network_close, dispatch.
  rewrite bind_gets. unfold id, is_running.
  destruct (__simulator s) eqn:Hrun; cbn [negb].
  - rewrite bind_assoc, bind_gets. unfold id. rewrite Hrun.
    eexists. split; [reflexivity|]. cbn. repeat split.
  - exists s. rewrite bind_gets. unfold id. rewrite Hrun. cbn [negb].
    rewrite app_nil_r. repeat split; exact Hrun.
Qed.

(** ** Proceeding without a timer *)

(** X3.  [proceed_time] sets a timer only for a time that counts and when
    something can still happen.  A time of zero is no time: the call goes to
    the next event, as it does without a time.  So does the call with a
    positive time when there is no time limit, the submitter has finished and
    no job is known. *)
Theorem proceed_time_without_timer (s : SimulatorHandler) (t : time) :
  t = Q2Qc 0 \/ ((Q2Qc 0 < t)%Qc /\ nothing_left s = true) ->
  proceed_time (Some t) s = proceed_time None s.
Proof.
  intros H. unfold proceed_time. rewrite !require_running_bind.
  destruct (is_running s); [|reflexivity].
  apply bind_same.
  destruct H as [->|[Hpos Hleft]].
  - reflexivity.
  - unfold truthy.
    rewrite (bool_decide_eq_false_2 (t = Q2Qc 0)).
    2:{ intros ->. exact (Qclt_not_eq _ _ Hpos eq_refl). }
    rewrite (bool_decide_eq_false_2 (t ≤ Q2Qc 0)%Qc) by (apply Qclt_not_le, Hpos).
    cbn [negb andb]. rewrite bind_gets. unfold id.
    unfold nothing_left, truthy in Hleft. now rewrite Hleft.
Qed.

Lemma proceed_time_without_timer_witness :
  proceed_time (Some (Q2Qc 5))
    (set_no_more_jobs_to_submit true (Fixtures.running (Q2Qc 0) [] []))
  = proceed_time None
      (set_no_more_jobs_to_submit true (Fixtures.running (Q2Qc 0) [] [])).
Proof.
  apply proceed_time_without_timer. right. split; reflexivity.
Defined.

(** ** Registering a callback *)

(** X4.  [set_callback] registers the callback or leaves the handler as it
    was.  It returns exactly when the simulation runs, the time is later than
    the current time and the object can be called.  When it raises, nothing
    has been registered and nothing queued, and the error tells the first
    check that failed: the runtime error when the simulation does not run,
    else the value error when the time is not later than the current time,
    else the type error. *)
Theorem set_callback_registers_or_refuses (s : SimulatorHandler) (at_ : time)
    (call : pyobject) :
  ((exists s', set_callback at_ call s = Returns tt s') <->
   is_running s = true /\ (current_time s < at_)%Qc /\ exists c, call = Callable c) /\
  (forall e s',
     set_callback at_ call s = Raises e s' ->
     s' = s /\
     e = if negb (is_running s) then not_running_error
         else if bool_decide (at_ ≤ current_time s)%Qc then past_callback_error
         else not_callable_error).
Proof.
  assert (Heq : set_callback at_ call s =
    if is_running s then
      if bool_decide (at_ ≤ current_time s)%Qc then Raises past_callback_error s
      else match call with
           | NotCallable => Raises not_callable_error s
           | Callable c =>
               (modify (fun s =>
                  set_callbacks
                    (<[at_ := default [] (__callbacks s !! at_) ++ [c]]> (__callbacks s)) s) ;;;
                __set_batsim_call_me_later at_) s
           end
    else Raises not_running_error s).
  { unfold set_callback. rewrite require_running_bind.
    destruct (is_running s); [|reflexivity]. rewrite bind_gets. unfold id.
    destruct (bool_decide _); [reflexivity|]. now destruct call. }
  rewrite Heq. clear Heq.
  destruct (is_running s) eqn:Hrun; cbn [negb].
  - destruct (bool_decide (at_ ≤ current_time s)%Qc) eqn:Hle.
    + apply bool_decide_eq_true in Hle. split.
      * split; [intros (s' & H); discriminate|].
        intros (_ & Hlt & _). now apply Qclt_not_le in Hlt.
      * intros e s' [= <- <-]. auto.
    + apply bool_decide_eq_false in Hle. apply Qcnot_le_lt in Hle.
      destruct call as [c|].
      * assert (Hret : exists s',
          (modify (fun s =>
             set_callbacks
               (<[at_ := default [] (__callbacks s !! at_) ++ [c]]> (__callbacks s)) s) ;;;
           __set_batsim_call_me_later at_) s = Returns tt s').
        { unfold bind, modify, __set_batsim_call_me_later, gets, append_request.
          cbn. destruct (bool_decide _); [eauto|]. destruct (negb _); eauto. }
        destruct Hret as (s1 & ->). split; [|discriminate].
        split; [eauto|]. intros _. eauto.
      * split; [|intros e s' [= <- <-]; auto].
        split; [intros (s' & H); discriminate|]. intros (_ & _ & c & H). discriminate.
  - split; [|intros e s' [= <- <-]; auto].
    split; [intros (s' & H); discriminate|]. intros (H & _). discriminate.
Qed.

Lemma set_callback_registers_or_refuses_witness :
  let s := Fixtures.running (Q2Qc 3) [] [] in
  state_after (set_callback (Q2Qc 5) NotCallable s) = s /\
  not_callable_error
  = if negb (is_running s) then not_running_error
    else if bool_decide (Q2Qc 5 ≤ current_time s)%Qc then past_callback_error
    else not_callable_error.
Proof.
  cbv zeta.
  apply (proj2 (set_callback_registers_or_refuses
                  (Fixtures.running (Q2Qc 3) [] []) (Q2Qc 5) NotCallable)).
  vm_compute. reflexivity.
Defined.

(** ** A change of power state is all or nothing *)

Lemma switch_power_state_cases s h_id pstate_id :
  (exists e, switch_power_state h_id pstate_id s = Raises e s) \/
  (exists pf host q,
     __platform s = Some pf /\ ps_id q = pstate_id /\
     switch_power_state h_id pstate_id s
     = Returns tt
         (set_batsim_requests
            (set_host_pstate_request (current_time s) h_id (ps_id q)
               (__batsim_requests s))
            (set_platform (Some (<[h_id := set_host_pstate q host]> pf)) s))).
Proof.
  assert (Hopen : forall o,
    (if is_running s then
       match __platform s with
       | Some pf =>
           match pf !! h_id with
           | Some host =>
               match Host_set_computation_pstate pstate_id host with
               | inr host' =>
                   (put_host h_id host' ;;;
                    match host_pstate host' with
                    | None => raise (AssertionError "host.pstate")
                    | Some p => __set_batsim_host_pstate h_id (ps_id p)
                    end) s
               | inl e => Raises e s
               end
           | None => Raises (LookupError "There are no resources with this id.") s
           end
       | None => Raises (SystemError "For some reason, the platform was not loaded.") s
       end
     else Raises not_running_error s) = o ->
    switch_power_state h_id pstate_id s = o).
  { intros o <-. unfold switch_power_state. rewrite require_running_bind.
    destruct (is_running s); [|reflexivity].
    unfold bind at 1. unfold require_platform.
    destruct (__platform s) as [pf|] eqn:Hpf; [|reflexivity].
    unfold bind at 1. unfold platform_get, Platform_get. rewrite Hpf.
    destruct (pf !! h_id) as [host|]; cbn [lift ret raise]; [|reflexivity].
    destruct (Host_set_computation_pstate pstate_id host); cbn [lift];
      [now rewrite bind_raise|now rewrite bind_ret]. }
  destruct (is_running s); [|left; eexists; now apply Hopen].
  destruct (__platform s) as [pf|] eqn:Hpf; [|left; eexists; now apply Hopen].
  destruct (pf !! h_id) as [host|] eqn:Hh; [|left; eexists; now apply Hopen].
  destruct (Host_set_computation_pstate pstate_id host) as [e0|host'] eqn:Hset;
    [left; eexists; now apply Hopen|].
  destruct (Host_set_computation_pstate_inv _ _ _ Hset) as (q & Hq & ->).
  right. exists pf, host, q. split; [reflexivity|]. split; [exact Hq|].
  apply Hopen. unfold put_host. rewrite bind_modify. cbn [host_pstate set_host_pstate].
  unfold __set_batsim_host_pstate, modify. rewrite Hpf. reflexivity.
Qed.

(** X5.  [switch_power_state] checks everything before it changes anything:
    when it raises, the handler is as it was.  When it returns, the mirror
    holds the host in the power state asked for, a request to put the host in
    this power state at the current time is pending, and the jobs are
    untouched.  It never waits. *)
Theorem switch_power_state_is_atomic (s : SimulatorHandler) (h_id pstate_id : Z) :
  (forall e s', switch_power_state h_id pstate_id s = Raises e s' -> s' = s) /\
  (forall s',
     switch_power_state h_id pstate_id s = Returns tt s' ->
     mirrored_pstate_id s' h_id = Some pstate_id /\
     requested (current_time s) h_id pstate_id (__batsim_requests s') /\
     __jobs s' = __jobs s) /\
  waits (switch_power_state h_id pstate_id s) = false.
Proof.
  destruct (switch_power_state_cases s h_id pstate_id)
    as [(e0 & ->)|(pf & host & q & Hpf & Hq & ->)].
  - split; [|split]; [intros e s' [= _ <-]|discriminate|]; reflexivity.
  - split; [discriminate|]. split; [|reflexivity].
    intros s' [= <-]. split; [|split].
    + unfold mirrored_pstate_id. cbn. rewrite lookup_insert_eq. cbn. now rewrite Hq.
    + cbn. rewrite Hq. apply requested_now.
    + reflexivity.
Qed.

Lemma switch_power_state_is_atomic_witness :
  let s := Fixtures.running (Q2Qc 0) [] [] in
  mirrored_pstate_id (state_after (switch_power_state 0 2 s)) 0 = Some 2 /\
  requested (current_time s) 0 2
    (__batsim_requests (state_after (switch_power_state 0 2 s))) /\
  __jobs (state_after (switch_power_state 0 2 s)) = __jobs s.
Proof.
  cbv zeta.
  apply (proj1 (proj2 (switch_power_state_is_atomic (Fixtures.running (Q2Qc 0) [] []) 0 2))).
  vm_compute. reflexivity.
Defined.

(** ** What the methods can do to the state

    Every method goes through elementary changes only.  The methods that
    neither send nor receive are quiet. *)

Lemma step_with_wire s s' : step false s s' -> step true s s'.
Proof. destruct 1; try discriminate; eauto using step. Qed.

Lemma evolves_with_wire s s' : evolves false s s' -> evolves true s s'.
Proof.
  induction 1 as [|s1 s2 s3 H _ IH]; [apply rtc_refl|].
  eapply rtc_l; [apply step_with_wire, H|exact IH].
Qed.

Lemma quiet_evolving {A} (c : M A) : quiet c -> evolving c.
Proof. intros H s. apply evolves_with_wire, H. Qed.

Lemma quiet_bind {A B} (c : M A) (k : A -> M B) :
  quiet c -> (forall a, quiet (k a)) -> quiet (bind c k).
Proof.
  intros Hc Hk s. destruct (Hc s) as [Hw He]. unfold bind.
  destruct (c s) as [a s1|e s1|s1]; [|split; [reflexivity|exact He]|discriminate].
  destruct (Hk a s1) as [Hw1 He1]. split; [exact Hw1|].
  etrans; [exact He|exact He1].
Qed.

Lemma evolving_bind {A B} (c : M A) (k : A -> M B) :
  evolving c -> (forall a, evolving (k a)) -> evolving (bind c k).
Proof.
  intros Hc Hk s. specialize (Hc s). unfold bind.
  destruct (c s) as [a s1|e s1|s1]; [|exact Hc|exact Hc].
  etrans; [exact Hc|apply Hk].
Qed.

Lemma quiet_ret {A} (a : A) : quiet (ret a).
Proof. intros s. split; [reflexivity|apply rtc_refl]. Qed.

Lemma quiet_raise {A} e : quiet (@raise A e).
Proof. intros s. split; [reflexivity|apply rtc_refl]. Qed.

Lemma quiet_gets {A} (f : SimulatorHandler -> A) : quiet (gets f).
Proof. intros s. split; [reflexivity|apply rtc_refl]. Qed.

Lemma quiet_lift {A} (r : exn + A) : quiet (lift r).
Proof. destruct r; intros s; (split; [reflexivity|apply rtc_refl]). Qed.

Lemma quiet_modify f : (forall s, step false s (f s)) -> quiet (modify f).
Proof. intros Hf s. split; [reflexivity|apply rtc_once, Hf]. Qed.

Lemma quiet_when (b : bool) c : quiet c -> quiet (when b c).
Proof. destruct b; [auto|intros _; apply quiet_ret]. Qed.

Lemma quiet_for_each {A} (l : list A) (body : A -> M unit) :
  (forall x, quiet (body x)) -> quiet (for_each l body).
Proof.
  intros Hbody. induction l as [|x l IH]; simpl.
  - apply quiet_ret.
  - apply quiet_bind; [apply Hbody|intros _; exact IH].
Qed.

Lemma evolving_for_each {A} (l : list A) (body : A -> M unit) :
  (forall x, evolving (body x)) -> evolving (for_each l body).
Proof.
  intros Hbody. induction l as [|x l IH]; simpl.
  - apply quiet_evolving, quiet_ret.
  - apply evolving_bind; [apply Hbody|intros _; exact IH].
Qed.

(** The rest of a method may look at the state it starts in. *)
Lemma quiet_get_state {B} (k : SimulatorHandler -> M B) :
  (forall s, waits (k s s) = false /\ evolves false s (state_after (k s s))) ->
  quiet (bind (gets id) k).
Proof. intros Hk s. rewrite bind_gets. apply Hk. Qed.

Lemma evolving_get_state {B} (k : SimulatorHandler -> M B) :
  (forall s, evolves true s (state_after (k s s))) ->
  evolving (bind (gets id) k).
Proof. intros Hk s. rewrite bind_gets. apply Hk. Qed.

Lemma quiet_platform_get h_id : quiet (platform_get h_id).
Proof.
  intros s. unfold platform_get, Platform_get.
  destruct (__platform s) as [pf|]; [|split; [reflexivity|apply rtc_refl]].
  destruct (pf !! h_id); (split; [reflexivity|apply rtc_refl]).
Qed.

Lemma quiet_require_running : quiet require_running.
Proof.
  intros s. unfold require_running.
  destruct (is_running s); (split; [reflexivity|apply rtc_refl]).
Qed.

Lemma quiet_require_platform : quiet require_platform.
Proof.
  intros s. unfold require_platform.
  destruct (__platform s); (split; [reflexivity|apply rtc_refl]).
Qed.

Create HintDb quiet discriminated.
#[local] Hint Resolve quiet_ret quiet_raise quiet_gets quiet_lift quiet_when
  quiet_platform_get quiet_require_running quiet_require_platform : quiet.
#[local] Hint Constructors step : quiet.

Ltac quiet_step :=
  lazymatch goal with
  | |- quiet (bind _ _) => apply quiet_bind; [|intros ?]
  | |- quiet (for_each _ _) => apply quiet_for_each; intros ?
  | |- quiet (when _ _) => apply quiet_when
  | |- quiet (modify _) => apply quiet_modify; intros ?
  | |- quiet (ret _) => apply quiet_ret
  | |- quiet (raise _) => apply quiet_raise
  | |- quiet (gets _) => apply quiet_gets
  | |- quiet (lift _) => apply quiet_lift
  | |- quiet (platform_get _) => apply quiet_platform_get
  | |- quiet require_running => apply quiet_require_running
  | |- quiet require_platform => apply quiet_require_platform
  | |- quiet (match ?x with _ => _ end) => destruct x
  | |- quiet (let _ := _ in _) => cbv zeta
  end.

Ltac quietly := repeat quiet_step; try solve [constructor].

Lemma quiet_put_host h host : quiet (put_host h host).
Proof. unfold put_host. quietly. Qed.

Lemma quiet_set_batsim_host_pstate h p : quiet (__set_batsim_host_pstate h p).
Proof. unfold __set_batsim_host_pstate. quietly. Qed.

#[local] Hint Resolve quiet_put_host quiet_set_batsim_host_pstate : quiet.

Lemma quiet_switch_on_host h : quiet (switch_on_host h).
Proof. unfold switch_on_host. quietly; auto with quiet. Qed.

Lemma quiet_switch_off_host h : quiet (switch_off_host h).
Proof. unfold switch_off_host. quietly; auto with quiet. Qed.

Lemma quiet_switch_on l : quiet (switch_on l).
Proof. unfold switch_on. quietly. apply quiet_switch_on_host. Qed.

Lemma quiet_switch_off l : quiet (switch_off l).
Proof. unfold switch_off. quietly. apply quiet_switch_off_host. Qed.

Lemma quiet_switch_power_state h p : quiet (switch_power_state h p).
Proof. unfold switch_power_state. quietly; auto with quiet. Qed.

Lemma quiet_check_allocation alloc b : quiet (check_allocation alloc b).
Proof.
  revert b. induction alloc as [|h alloc IH]; intros b; simpl.
  - apply quiet_ret.
  - apply quiet_bind; [apply quiet_platform_get|intros host].
    apply quiet_bind; [apply quiet_when, quiet_switch_on|intros _].
    apply IH.
Qed.

(** A request that is neither a timer nor a change of power state, stamped
    with the clock. *)
Lemma quiet_stamp (f : time -> BatsimRequest) :
  (forall now, is_call_me_later (f now) = false) ->
  (forall now, is_set_resource_state (f now) = false) ->
  (forall now, request_timestamp (f now) = now) ->
  quiet (let* now := gets current_time in append_request (f now)).
Proof.
  intros Hc Hs Ht s. rewrite bind_gets. split; [reflexivity|].
  apply rtc_once. cbn. now apply step_request_queued.
Qed.

Lemma quiet_start_if_ready i : quiet (start_if_ready i).
Proof.
  unfold start_if_ready.
  apply quiet_bind; [apply quiet_gets|intros s0].
  destruct (__jobs s0 !! i) as [job|]; [|apply quiet_ret].
  destruct (job_allocation job) as [[|h alloc]|] eqn:Halloc; try apply quiet_raise.
  apply quiet_bind; [apply quiet_check_allocation|intros [|]]; [|apply quiet_ret].
  apply quiet_bind; [apply quiet_gets|intros now].
  apply quiet_bind.
  - unfold start_job.
    destruct (Job_start now job) as [e|job'] eqn:Hstart; cbn [lift];
      [intros s; rewrite bind_raise; split; [reflexivity|apply rtc_refl]|].
    intros s. rewrite bind_ret. revert s.
    apply quiet_bind.
    + unfold put_job. apply quiet_modify. intros s.
      eapply step_job_started; eassumption.
    + intros _. apply quiet_modify. intros s. constructor.
  - intros _.
    apply (quiet_stamp (fun now => ExecuteJobBatsimRequest now (job_id job) (h :: alloc)));
      reflexivity.
Qed.

Lemma quiet_start_runnable_jobs : quiet __start_runnable_jobs.
Proof.
  unfold __start_runnable_jobs.
  apply quiet_bind; [apply quiet_gets|intros s0].
  destruct (negb (is_running s0)); [apply quiet_ret|].
  apply quiet_bind; [apply quiet_require_platform|intros _].
  apply quiet_for_each, quiet_start_if_ready.
Qed.

Lemma quiet_set_batsim_call_me_later at_ : quiet (__set_batsim_call_me_later at_).
Proof.
  unfold __set_batsim_call_me_later. apply quiet_get_state. intros s.
  destruct (bool_decide _) eqn:Hle; [split; [reflexivity|apply rtc_refl]|]. cbv zeta.
  destruct (existsb _ _) eqn:Hex; cbn [negb]; (split; [reflexivity|]);
    [apply rtc_refl|].
  apply rtc_once. cbn. apply step_timer_queued; [|exact Hex].
  apply bool_decide_eq_false in Hle. now apply Qcnot_le_lt.
Qed.

Lemma quiet_close : quiet close.
Proof.
  unfold close, __close_simulator, network_close, dispatch. quietly.
Qed.

Lemma quiet_set_callback at_ c : quiet (set_callback at_ c).
Proof.
  unfold set_callback. quietly. apply quiet_set_batsim_call_me_later.
Qed.

Lemma quiet_kill_job id : quiet (kill_job id).
Proof.
  unfold kill_job.
  apply quiet_bind; [apply quiet_require_running|intros _].
  apply quiet_bind; [apply quiet_gets|intros s0].
  destruct (find_job id s0) as [[i job]|]; [|apply quiet_raise].
  apply quiet_bind; [quietly|intros _].
  apply (quiet_stamp (fun now => KillJobBatsimRequest now id)); reflexivity.
Qed.

Lemma quiet_reject_job id : quiet (reject_job id).
Proof.
  unfold reject_job.
  apply quiet_bind; [apply quiet_require_running|intros _].
  apply quiet_bind; [apply quiet_gets|intros s0].
  destruct (find_job id s0) as [[i job]|]; [|apply quiet_raise].
  destruct (negb _); [apply quiet_raise|].
  apply quiet_bind; [quietly|intros _].
  apply (quiet_stamp (fun now => RejectJobBatsimRequest now id)); reflexivity.
Qed.

Lemma quiet_allocate id hosts_id : quiet (allocate id hosts_id).
Proof.
  unfold allocate.
  apply quiet_bind; [apply quiet_require_running|intros _]. intros s.
  destruct (__platform s); [|split; [reflexivity|apply rtc_refl]].
  destruct (find_job id s) as [[i job]|]; [|split; [reflexivity|apply rtc_refl]].
  revert s. change (quiet
    (for_each hosts_id
       (fun h_id => let* host := platform_get h_id in
                    put_host h_id (Host_allocate id host)) ;;;
     let* job' := lift (Job_allocate hosts_id job) in
     put_job i job' ;;; __start_runnable_jobs)).
  apply quiet_bind; [quietly; apply quiet_put_host|intros _].
  destruct (Job_allocate hosts_id job) as [e|job'] eqn:Halloc; cbn [lift];
    [intros s; rewrite bind_raise; split; [reflexivity|apply rtc_refl]|].
  intros s. rewrite bind_ret. revert s.
  apply quiet_bind; [|intros _; apply quiet_start_runnable_jobs].
  unfold put_job. apply quiet_modify. intros s.
  eapply step_job_allocated; eassumption.
Qed.

(** The methods that do not talk to the engine are quiet. *)
Lemma quiet_invoke m : talks m = false -> quiet (invoke m).
Proof.
  destruct m as [? ? ? ?| | | | | | |[l|l|h p]]; try discriminate; intros _;
    cbn [invoke perform].
  - apply quiet_close.
  - apply quiet_set_callback.
  - apply quiet_allocate.
  - apply quiet_kill_job.
  - apply quiet_reject_job.
  - apply quiet_switch_on.
  - apply quiet_switch_off.
  - apply quiet_switch_power_state.
Qed.

(** The handlers of the events, and the exchanges with the engine. *)
Lemma evolving_send_requests : evolving __send_requests.
Proof.
  unfold __send_requests. apply evolving_get_state. intros s.
  cbn. eapply rtc_l; [apply step_sent; reflexivity|].
  apply rtc_once. constructor.
Qed.

Lemma evolving_deliver event : evolving (deliver event).
Proof.
  unfold deliver.
  apply evolving_bind; [apply quiet_evolving; quietly|intros _].
  destruct event; cbn [handle_event].
  - apply quiet_evolving. unfold __on_batsim_simulation_begins. quietly.
  - unfold __on_batsim_simulation_ends. apply evolving_get_state. intros s.
    unfold bind.
    assert (Hack : exists s1,
      when (__simulator s) (network_send (mkBatsimMessage (current_time s) [])) s
      = Returns tt s1 /\ evolves true s s1).
    { destruct (__simulator s); cbn; eexists; (split; [reflexivity|]);
        [apply rtc_once, step_sent; reflexivity|apply rtc_refl]. }
    destruct Hack as (s1 & -> & He).
    etrans; [exact He|]. apply (quiet_evolving _ quiet_close).
  - apply quiet_evolving. unfold __on_batsim_job_completed.
    apply quiet_bind; [apply quiet_gets|intros s0].
    destruct (find_job job s0) as [[i j]|]; [|apply quiet_raise].
    apply quiet_bind; [apply quiet_lift|intros job'].
    apply quiet_bind; [quietly|intros _].
    apply quiet_bind; [quietly|intros _].
    apply quiet_start_runnable_jobs.
  - apply quiet_evolving. unfold __on_batsim_job_submitted. quietly.
  - apply quiet_evolving. unfold __on_batsim_host_state_changed.
    apply quiet_bind; [apply quiet_require_platform|intros _].
    apply quiet_bind; [|intros _; apply quiet_start_runnable_jobs].
    apply quiet_for_each. intros h. unfold host_state_changed.
    quietly; apply quiet_put_host.
  - apply quiet_evolving. unfold __on_batsim_requested_call.
    apply quiet_bind; [apply quiet_gets|intros s0].
    destruct (__callbacks s0 !! current_time s0); [|apply quiet_ret].
    apply quiet_bind; [unfold call; quietly|intros _].
    apply quiet_get_state. intros s.
    destruct (__callbacks s !! current_time s); (split; [reflexivity|]);
      [apply rtc_once; constructor|apply rtc_refl].
  - apply quiet_evolving. unfold __on_batsim_no_more_jobs_to_submit. quietly.
  - apply quiet_evolving, quiet_ret.
Qed.

Lemma evolving_handle_batsim_events : evolving __handle_batsim_events.
Proof.
  unfold __handle_batsim_events.
  apply evolving_bind.
  - intros s. unfold network_recv. destruct (net_inbox s) eqn:Hin; [apply rtc_refl|].
    cbn. apply rtc_once. eapply step_received; [reflexivity|exact Hin].
  - intros msg.
    apply evolving_bind; [apply evolving_for_each, evolving_deliver|intros _].
    apply quiet_evolving. quietly.
Qed.

Lemma evolving_goto_next : evolving __goto_next_batsim_event.
Proof.
  unfold __goto_next_batsim_event.
  apply evolving_bind; [apply evolving_send_requests|intros _].
  apply evolving_bind; [apply evolving_handle_batsim_events|intros _].
  apply quiet_evolving.
  apply quiet_bind; [apply quiet_gets|intros s0].
  destruct (__simulation_time s0); [|apply quiet_ret].
  destruct (_ && _); [apply quiet_close|apply quiet_ret].
Qed.

Lemma evolving_proceed_loop turns : evolving (proceed_loop turns).
Proof.
  induction turns as [|turns IH]; simpl.
  - apply evolving_bind; [apply quiet_evolving, quiet_gets|intros s0].
    destruct (_ && _); [apply evolving_goto_next|apply quiet_evolving, quiet_ret].
  - apply evolving_bind; [apply quiet_evolving, quiet_gets|intros s0].
    destruct (_ && _); [|apply quiet_evolving, quiet_ret].
    apply evolving_bind; [apply evolving_goto_next|intros _].
    apply evolving_bind; [apply quiet_evolving, quiet_start_runnable_jobs|intros _].
    exact IH.
Qed.

Lemma evolving_proceed_time time : evolving (proceed_time time).
Proof.
  unfold proceed_time.
  apply evolving_bind; [apply quiet_evolving, quiet_require_running|intros _].
  apply evolving_bind.
  - apply quiet_evolving.
    destruct time as [t|]; [|quietly].
    destruct (_ && _); [apply quiet_raise|].
    apply quiet_bind; [apply quiet_gets|intros s0].
    destruct (negb (truthy (Some t))); [quietly|].
    destruct (_ && _); [quietly|].
    apply quiet_bind; [quietly|intros _].
    apply quiet_set_callback.
  - intros _.
    apply evolving_bind; [apply evolving_goto_next|intros _].
    apply evolving_bind; [apply quiet_evolving, quiet_start_runnable_jobs|intros _].
    apply evolving_bind; [apply quiet_evolving, quiet_gets|intros s0].
    apply evolving_proceed_loop.
Qed.

Lemma evolving_start_handshake : evolving start_handshake.
Proof.
  unfold start_handshake, network_bind, dispatch.
  apply evolving_bind; [apply quiet_evolving, quiet_ret|intros _].
  apply evolving_bind; [apply evolving_handle_batsim_events|intros _].
  apply quiet_evolving.
  apply quiet_bind; [apply quiet_gets|intros s1].
  destruct (__platform s1); [|apply quiet_raise].
  apply quiet_bind; [|intros _; quietly].
  destruct (__simulation_time s1); [|apply quiet_ret].
  apply quiet_when, quiet_set_batsim_call_me_later.
Qed.

Lemma evolving_start platform workload verbosity limit :
  evolving (start platform workload verbosity limit).
Proof.
  unfold start. apply evolving_get_state. intros s.
  destruct (is_running s) eqn:Hrun; [apply rtc_refl|].
  rewrite bind_modify.
  eapply rtc_l; [apply step_launched, Hrun|].
  apply evolving_start_handshake.
Qed.

(** Every call of a public method goes through elementary changes. *)
Lemma evolving_invoke m : evolving (invoke m).
Proof.
  destruct (talks m) eqn:Hm; [|now apply quiet_evolving, quiet_invoke].
  destruct m; try discriminate; cbn [invoke].
  - apply evolving_start.
  - apply evolving_proceed_time.
Qed.

(** A predicate that the elementary changes keep holds in every state that
    the handler can reach. *)
Lemma evolves_keeps (I : SimulatorHandler -> Prop) wire s s' :
  (forall t t', step wire t t' -> I t -> I t') ->
  evolves wire s s' -> I s -> I s'.
Proof. intros Hstep. induction 1; eauto. Qed.

Lemma reachable_keeps (I : SimulatorHandler -> Prop) :
  (forall inbox, I (set_net_inbox inbox __init__)) ->
  (forall t t', step true t t' -> I t -> I t') ->
  forall s, reachable s -> I s.
Proof.
  intros Hnew Hstep s. induction 1 as [inbox|s m _ IH]; [apply Hnew|].
  exact (evolves_keeps I true _ _ Hstep (evolving_invoke m s) IH).
Qed.

(** ** Actions are local

    Only [start] and [proceed_time] exchange messages with the engine. *)

Lemma evolves_quietly s s' :
  evolves false s s' -> net_sent s' = net_sent s /\ net_inbox s' = net_inbox s.
Proof.
  induction 1 as [|s1 s2 s3 Hstep _ [IH1 IH2]]; [auto|].
  rewrite IH1, IH2. destruct Hstep; try discriminate; auto.
Qed.

(** X6.  Every public method but [start] and [proceed_time] works on the
    mirror alone: it returns or raises without waiting for the engine, and it
    neither sends a message nor takes a reply.  What it asks of the engine
    stays in the pending batch. *)
Theorem actions_are_local (m : method) (s : SimulatorHandler) :
  talks m = false ->
  waits (invoke m s) = false /\
  net_sent (state_after (invoke m s)) = net_sent s /\
  net_inbox (state_after (invoke m s)) = net_inbox s.
Proof.
  intros Hm. destruct (quiet_invoke m Hm s) as [Hw He].
  split; [exact Hw|]. now apply evolves_quietly.
Qed.

Lemma actions_are_local_witness :
  let s := Fixtures.running (Q2Qc 0) [Fixtures.job "j" SUBMITTED None] [] in
  waits (invoke (KillJob "j") s) = false /\
  net_sent (state_after (invoke (KillJob "j") s)) = net_sent s /\
  net_inbox (state_after (invoke (KillJob "j") s)) = net_inbox s.
Proof. cbv zeta. apply actions_are_local. reflexivity. Defined.

(** ** The pending timer requests *)

Lemma timer_targets_app reqs reqs' :
  timer_targets (reqs ++ reqs') = timer_targets reqs ++ timer_targets reqs'.
Proof. apply omap_app. Qed.

Lemma timer_targets_set_host_pstate_request now h p reqs :
  timer_targets (set_host_pstate_request now h p reqs) = timer_targets reqs.
Proof.
  induction reqs as [|r reqs IH].
  - rewrite set_host_pstate_request_nil. reflexivity.
  - rewrite set_host_pstate_request_cons.
    destruct (same_properties now p r) eqn:E.
    + destruct (same_properties_inv _ _ _ E) as (res & ->). reflexivity.
    + unfold timer_targets in *. cbn. now rewrite IH.
Qed.

Lemma timers_later_set_host_pstate_request (P : BatsimRequest -> Prop) now h p reqs :
  (forall t res st, P (SetResourceStateBatsimRequest t res st)) ->
  Forall P reqs -> Forall P (set_host_pstate_request now h p reqs).
Proof.
  intros HP. induction reqs as [|r reqs IH]; intros Hall.
  - rewrite set_host_pstate_request_nil. repeat constructor. apply HP.
  - rewrite set_host_pstate_request_cons.
    inversion Hall as [|? ? Hr Hrest]; subst.
    destruct (same_properties now p r) eqn:E.
    + destruct (same_properties_inv _ _ _ E) as (res & ->).
      constructor; [apply HP|exact Hrest].
    + constructor; [exact Hr|now apply IH].
Qed.

Lemma no_timer_at at_ reqs :
  existsb (is_call_me_later_at at_) reqs = false -> at_ ∉ timer_targets reqs.
Proof.
  induction reqs as [|r reqs IH]; cbn; [intros _ H; inversion H|].
  intros Hex. apply orb_false_iff in Hex as [Hr Hex].
  unfold timer_targets. cbn.
  destruct r; cbn in *; try (now apply IH).
  apply bool_decide_eq_false in Hr.
  intros Hin. apply elem_of_cons in Hin as [->|Hin]; [now apply Hr|].
  now apply IH.
Qed.

Lemma step_keeps_timers_distinct wire s s' :
  step wire s s' -> timers_distinct s -> timers_distinct s'.
Proof.
  intros Hstep [Hnd Hlater].
  destruct Hstep; try (split; assumption); unfold timers_distinct; cbn.
  - split; constructor.
  - split.
    + rewrite timer_targets_app.
      assert (timer_targets [r] = []) as ->; [now destruct r|].
      now rewrite app_nil_r.
    + apply Forall_app. split; [exact Hlater|]. constructor; [|constructor].
      now destruct r.
  - split.
    + rewrite timer_targets_app. cbn. apply NoDup_app. split; [exact Hnd|].
      split; [|apply NoDup_singleton].
      intros x Hx Hx'. apply list_elem_of_singleton in Hx'. subst x.
      now apply (no_timer_at at_ (__batsim_requests s)).
    + apply Forall_app. split; [exact Hlater|]. now repeat constructor.
  - split.
    + now rewrite timer_targets_set_host_pstate_request.
    + now apply timers_later_set_host_pstate_request.
Qed.

(** X7.  Timer requests are deduplicated by their target: in every state that
    the handler can reach, no two pending call-me-later requests have the same
    target, and the target of each is later than the instant at which it was
    asked. *)
Theorem pending_timers_are_distinct (s : SimulatorHandler) :
  reachable s -> timers_distinct s.
Proof.
  apply reachable_keeps.
  - intros inbox. split; constructor.
  - apply step_keeps_timers_distinct.
Qed.

(** ** The registry of jobs *)

Lemma Job_allocate_live hosts job job' : Job_allocate hosts job = inr job' -> live job'.
Proof.
  unfold Job_allocate. destruct (is_submitted job); [|discriminate].
  intros [= <-]. unfold live. cbn. eauto.
Qed.

Lemma Job_start_live now job h alloc job' :
  job_allocation job = Some (h :: alloc) ->
  Job_start now job = inr job' -> live job'.
Proof.
  intros Halloc. unfold Job_start. destruct (is_runnable job); [|discriminate].
  intros [= <-]. unfold live. cbn. split; eauto.
Qed.

Lemma step_keeps_registry_live wire s s' :
  step wire s s' -> registry_live s -> registry_live s'.
Proof.
  intros Hstep Hlive.
  destruct Hstep; try assumption; unfold registry_live in *; cbn.
  - constructor.
  - apply Forall_app. split; [exact Hlive|]. repeat constructor.
  - apply Forall_insert; [exact Hlive|]. eapply Job_allocate_live; eassumption.
  - apply Forall_insert; [exact Hlive|]. eapply Job_start_live; eassumption.
  - now apply Forall_delete.
Qed.

(** X8.  The registry holds the jobs that wait or run, and only them: in every
    state that the handler can reach, each job of the registry is queued, or
    allocated with its hosts, or running on at least one host with its start
    time; a job that has ended, was killed or was rejected is not there. *)
Theorem registry_holds_live_jobs (s : SimulatorHandler) :
  reachable s -> registry_live s.
Proof.
  apply reachable_keeps.
  - intros inbox. constructor.
  - apply step_keeps_registry_live.
Qed.

(** ** The table of callbacks *)

Lemma step_keeps_callbacks_filled wire s s' :
  step wire s s' -> callbacks_filled s -> callbacks_filled s'.
Proof.
  intros Hstep Hfilled.
  destruct Hstep; try assumption; unfold callbacks_filled in *; cbn.
  - intros t registered H. rewrite lookup_empty in H. discriminate.
  - intros t registered H.
    destruct (decide (t = at_)) as [->|Hne].
    + rewrite lookup_insert_eq in H. injection H as <-.
      intros Hnil. now apply app_eq_nil in Hnil as [_ ?].
    + rewrite lookup_insert_ne in H by congruence. eauto.
  - intros t' registered H. apply lookup_delete_Some in H as [_ H]. eauto.
Qed.

(** X9.  An entry of the table of callbacks is never empty, in any state that
    the handler can reach: a timer that fires at a time of the table invokes
    at least one callback. *)
Theorem callback_entries_are_filled (s : SimulatorHandler) :
  reachable s -> callbacks_filled s.
Proof.
  apply reachable_keeps.
  - intros inbox t registered H. cbn in H. rewrite lookup_empty in H. discriminate.
  - apply step_keeps_callbacks_filled.
Qed.

(** ** The pending requests of power state *)

(** X10.  Requests of power state are merged where they are made: in every
    state that the handler can reach, at most one pending set-resource-state
    request bears a given instant and a given destination power state. *)
Theorem pending_power_requests_are_merged (s : SimulatorHandler) :
  reachable s -> coalesced (__batsim_requests s).
Proof. intros Hreach. apply (reachable_well_batched s Hreach). Qed.


(** ** Examples of states that the handler can reach *)

Lemma begun_reachable : reachable Scenario.begun.
Proof. unfold Scenario.begun. apply reachable_call, reachable_new. Qed.

Lemma pending_timers_are_distinct_witness :
  timers_distinct
    (state_after
       (invoke (SetCallback (Q2Qc 5) (Callable (UserCallback 1))) Scenario.begun)).
Proof.
  apply pending_timers_are_distinct. apply reachable_call, begun_reachable.
Defined.

Lemma registry_holds_live_jobs_witness :
  registry_live (state_after (invoke (Allocate "j" [0; 3]) Scenario.begun)).
Proof.
  apply registry_holds_live_jobs. apply reachable_call, begun_reachable.
Defined.

Lemma callback_entries_are_filled_witness :
  callbacks_filled
    (state_after
       (invoke (SetCallback (Q2Qc 5) (Callable (UserCallback 1))) Scenario.begun)).
Proof.
  apply callback_entries_are_filled. apply reachable_call, begun_reachable.
Defined.

Lemma pending_power_requests_are_merged_witness :
  coalesced
    (__batsim_requests
       (state_after (invoke (Power (SwitchOff [0; 3])) Scenario.begun))).
Proof.
  apply pending_power_requests_are_merged. apply reachable_call, begun_reachable.
Defined.

(** What these states are: the timer of the limit and the timer of the
    callback are pending; the job runs on its two hosts; one request sends
    both hosts to sleep. *)
Example reached_states :
  timer_targets
    (__batsim_requests
       (state_after
          (invoke (SetCallback (Q2Qc 5) (Callable (UserCallback 1))) Scenario.begun)))
  = [Q2Qc 100; Q2Qc 5] /\
  job_state <$> __jobs (state_after (invoke (Allocate "j" [0; 3]) Scenario.begun))
  = [RUNNING] /\
  __batsim_requests (state_after (invoke (Power (SwitchOff [0; 3])) Scenario.begun))
  = [CallMeLaterBatsimRequest (Q2Qc 0) (Q2Qc 100);
     SetResourceStateBatsimRequest (Q2Qc 0) {[0; 3]} 1].
Proof. split; [by_evaluation|split; by_evaluation]. Qed.

(** ** The parts of [proceed_time] *)

Lemma proceed_time_parts time :
  proceed_time time = (require_running ;;; arm_timer time ;;; advance).
Proof. reflexivity. Qed.

(** ** What goes out first *)








(** ** When [proceed_time] returns *)

Lemma proceed_loop_exit n s s' :
  (length (net_inbox s) <= n)%nat ->
  proceed_loop n s = Returns tt s' ->
  is_running s' && __wait_callback s' = false.
Proof.
  revert s. induction n as [|n IH]; intros s Hlen Hrun.
  - cbn [proceed_loop] in Hrun. rewrite bind_gets in Hrun. unfold id in Hrun.
    destruct (is_running s && __wait_callback s) eqn:Hcond.
    + assert (Hin : net_inbox s = [])
        by (destruct (net_inbox s); [reflexivity|simpl in Hlen; lia]).
      destruct (goto_next_blocks s Hin) as (s1 & Hblock). congruence.
    + inversion Hrun; subst. exact Hcond.
  - change (proceed_loop (S n) s) with
      ((let* s0 := gets id in
        if is_running s0 && __wait_callback s0
        then __goto_next_batsim_event ;;; __start_runnable_jobs ;;; proceed_loop n
        else ret tt) s) in Hrun.
    rewrite bind_gets in Hrun. unfold id in Hrun.
    destruct (is_running s && __wait_callback s) eqn:Hcond.
    + apply bind_Returns in Hrun as ([] & s1 & Hgoto & Hrun).
      apply bind_Returns in Hrun as ([] & s2 & Hstart & Hrun).
      apply (IH s2); [|exact Hrun].
      destruct (goto_next_takes_one s s1 Hgoto) as (reply & Hin).
      pose proof (start_runnable_jobs_keeps_inbox (net_inbox s1) s1 eq_refl) as Hk.
      rewrite Hstart in Hk. cbn in Hk. rewrite Hk.
      rewrite Hin in Hlen. simpl in Hlen. lia.
    + inversion Hrun; subst. exact Hcond.
Qed.

(** X12.  When [proceed_time] returns, its loop has met its end: the
    simulation does not run any more, or the flag that the timer of the call
    clears is down. *)
Theorem proceed_time_returns_settled (s s' : SimulatorHandler) (time : option time) :
  proceed_time time s = Returns tt s' ->
  is_running s' = false \/ __wait_callback s' = false.
Proof.
  rewrite proceed_time_parts. intros Hrun.
  apply bind_Returns in Hrun as ([] & s1 & _ & Hrun).
  apply bind_Returns in Hrun as ([] & s2 & _ & Hrun).
  unfold advance in Hrun.
  apply bind_Returns in Hrun as ([] & s3 & _ & Hrun).
  apply bind_Returns in Hrun as ([] & s4 & _ & Hrun).
  rewrite bind_gets in Hrun. unfold id in Hrun.
  apply proceed_loop_exit in Hrun; [|lia].
  now apply andb_false_iff in Hrun.
Qed.

Lemma proceed_time_returns_settled_witness :
  let s := Fixtures.running (Q2Qc 0) [] [mkBatsimReply (Q2Qc 1) []] in
  let s' := state_after (proceed_time None s) in
  is_running s' = false \/ __wait_callback s' = false.
Proof.
  cbv zeta.
  apply (proceed_time_returns_settled
           (Fixtures.running (Q2Qc 0) [] [mkBatsimReply (Q2Qc 1) []]) _ None).
  vm_compute. reflexivity.
Defined.

(** ** The time limit *)

(** The attempt to start jobs touches neither the clock, nor the time limit,
    nor the engine. *)
Ltac keeps_clock :=
  repeat first
    [ keeps_step
    | match goal with
      | |- keeps _ (platform_get _) => apply platform_get_keeps
      | |- keeps _ require_running => apply require_running_keeps
      | |- keeps _ require_platform => apply require_platform_keeps
      | |- keeps _ (match ?x with _ => _ end) => destruct x
      | |- keeps _ (if ?b then _ else _) => destruct b
      | |- keeps _ (let _ := _ in _) => cbv zeta
      | H : _ /\ _ |- _ /\ _ => exact H
      end ].

Lemma check_allocation_keeps_clock c l r alloc b :
  keeps (fun s => __current_time s = c /\ __simulation_time s = l /\ __simulator s = r)
        (check_allocation alloc b).
Proof.
  revert b. induction alloc as [|h alloc IH]; intros b; simpl.
  - apply keeps_ret.
  - apply keeps_bind; [apply platform_get_keeps|intros host].
    apply keeps_bind; [|intros _; apply IH].
    unfold switch_on, switch_on_host, put_host, __set_batsim_host_pstate.
    keeps_clock.
Qed.

Lemma start_runnable_jobs_keeps_clock c l r :
  keeps (fun s => __current_time s = c /\ __simulation_time s = l /\ __simulator s = r)
        __start_runnable_jobs.
Proof.
  unfold __start_runnable_jobs.
  apply keeps_bind; [apply keeps_gets|intros s0].
  destruct (negb (is_running s0)); [apply keeps_ret|].
  apply keeps_bind; [apply require_platform_keeps|intros _].
  apply keeps_for_each. intros i. unfold start_if_ready.
  apply keeps_bind; [apply keeps_gets|intros s1].
  destruct (__jobs s1 !! i) as [job|]; [|apply keeps_ret].
  destruct (job_allocation job) as [[|h alloc]|]; try apply keeps_raise.
  apply keeps_bind; [apply check_allocation_keeps_clock|intros [|]];
    [|apply keeps_ret].
  unfold start_job, put_job, append_request. keeps_clock.
Qed.

Lemma start_runnable_jobs_within_limit s s' :
  __start_runnable_jobs s = Returns tt s' -> within_limit s -> within_limit s'.
Proof.
  intros Hrun Hs.
  pose proof (start_runnable_jobs_keeps_clock _ _ _ s (conj eq_refl (conj eq_refl eq_refl)))
    as Hk.
  rewrite Hrun in Hk. cbn in Hk. destruct Hk as (Hc & Hl & Hr).
  unfold within_limit, is_running, current_time in *. rewrite Hc, Hl, Hr. exact Hs.
Qed.

(** After an exchange with the engine the simulation is within its limit:
    it has been closed if the clock has reached a limit that counts. *)
Lemma goto_next_within_limit s s' :
  __goto_next_batsim_event s = Returns tt s' -> within_limit s'.
Proof.
  unfold __goto_next_batsim_event. intros H.
  apply bind_Returns in H as ([] & s1 & _ & H).
  apply bind_Returns in H as ([] & s2 & _ & H).
  rewrite bind_gets in H. unfold id in H.
  destruct (__simulation_time s2) as [limit|] eqn:Hlimit.
  - destruct (truthy (Some limit) && bool_decide (limit ≤ current_time s2)%Qc) eqn:Hcond.
    + apply close_stops in H. intros Hrun. congruence.
    + inversion H; subst s'. intros _ limit' Hl Hne.
      rewrite Hlimit in Hl. injection Hl as <-.
      apply andb_false_iff in Hcond as [Hcond|Hcond].
      * unfold truthy in Hcond. apply negb_false_iff, bool_decide_eq_true in Hcond.
        congruence.
      * apply bool_decide_eq_false in Hcond. now apply Qcnot_le_lt.
  - inversion H; subst s'. intros _ limit' Hl. congruence.
Qed.

Lemma proceed_loop_within_limit n s s' :
  (length (net_inbox s) <= n)%nat ->
  within_limit s ->
  proceed_loop n s = Returns tt s' ->
  within_limit s'.
Proof.
  revert s. induction n as [|n IH]; intros s Hlen Hs Hrun.
  - cbn [proceed_loop] in Hrun. rewrite bind_gets in Hrun. unfold id in Hrun.
    destruct (is_running s && __wait_callback s).
    + now apply goto_next_within_limit in Hrun.
    + now inversion Hrun; subst.
  - change (proceed_loop (S n) s) with
      ((let* s0 := gets id in
        if is_running s0 && __wait_callback s0
        then __goto_next_batsim_event ;;; __start_runnable_jobs ;;; proceed_loop n
        else ret tt) s) in Hrun.
    rewrite bind_gets in Hrun. unfold id in Hrun.
    destruct (is_running s && __wait_callback s).
    + apply bind_Returns in Hrun as ([] & s1 & Hgoto & Hrun).
      apply bind_Returns in Hrun as ([] & s2 & Hstart & Hrun).
      apply (IH s2); [| |exact Hrun].
      * destruct (goto_next_takes_one s s1 Hgoto) as (reply & Hin).
        pose proof (start_runnable_jobs_keeps_inbox (net_inbox s1) s1 eq_refl) as Hk.
        rewrite Hstart in Hk. cbn in Hk. rewrite Hk.
        rewrite Hin in Hlen. simpl in Hlen. lia.
      * eapply start_runnable_jobs_within_limit; [exact Hstart|].
        eapply goto_next_within_limit, Hgoto.
    + now inversion Hrun; subst.
Qed.

(** X13.  The simulation never runs past its time limit between two calls:
    when [proceed_time] returns and the simulation still runs under a time
    limit other than zero, the current time is earlier than the limit.  Once
    an exchange with the engine brings the clock to the limit, the simulation
    is closed before the call returns. *)
Theorem proceed_time_respects_limit (s s' : SimulatorHandler) (time : option time)
    (limit : Qc) :
  proceed_time time s = Returns tt s' ->
  is_running s' = true ->
  __simulation_time s' = Some limit ->
  limit <> Q2Qc 0 ->
  (current_time s' < limit)%Qc.
Proof.
  rewrite proceed_time_parts. intros Hrun Hstill Hlimit Hne.
  apply bind_Returns in Hrun as ([] & s1 & _ & Hrun).
  apply bind_Returns in Hrun as ([] & s2 & _ & Hrun).
  unfold advance in Hrun.
  apply bind_Returns in Hrun as ([] & s3 & Hgoto & Hrun).
  apply bind_Returns in Hrun as ([] & s4 & Hstart & Hrun).
  rewrite bind_gets in Hrun. unfold id in Hrun.
  apply proceed_loop_within_limit in Hrun; [now apply Hrun|lia|].
  eapply start_runnable_jobs_within_limit; [exact Hstart|].
  eapply goto_next_within_limit, Hgoto.
Qed.

Lemma proceed_time_respects_limit_witness :
  let reply := mkBatsimReply (Q2Qc 5) [RequestedCallBatsimEvent (Q2Qc 5)] in
  let s := set_net_inbox [reply] Scenario.begun in
  (current_time (state_after (proceed_time (Some (Q2Qc 5)) s)) < Q2Qc 100)%Qc.
Proof.
  cbv zeta.
  apply (proceed_time_respects_limit
           (set_net_inbox [mkBatsimReply (Q2Qc 5) [RequestedCallBatsimEvent (Q2Qc 5)]]
              Scenario.begun) _ (Some (Q2Qc 5))).
  - vm_compute. reflexivity.
  - reflexivity.
  - by_evaluation.
  - by_evaluation.
Defined.

(** ** The clock follows the engine *)

Lemma goto_next_follows s s' :
  __goto_next_batsim_event s = Returns tt s' ->
  exists reply,
    net_inbox s = reply :: net_inbox s' /\ __current_time s' = reply_now reply.
Proof.
  intros H. destruct (goto_next_takes_one s s' H) as (reply & Hin).
  exists reply. split; [exact Hin|].
  unfold __goto_next_batsim_event in H.
  apply bind_Returns in H as ([] & s1 & Hsend & H).
  apply bind_Returns in H as ([] & s2 & Hhandle & H).
  assert (Hin1 : net_inbox s1 = net_inbox s).
  { unfold __send_requests, network_send, bind, gets, modify in Hsend.
    inversion Hsend; subst. reflexivity. }
  unfold __handle_batsim_events in Hhandle.
  apply bind_Returns in Hhandle as (msg & s3 & Hrecv & Hhandle).
  unfold network_recv in Hrecv. rewrite Hin1, Hin in Hrecv.
  injection Hrecv as <- <-.
  apply bind_Returns in Hhandle as ([] & s4 & _ & Hset).
  assert (Hnow : __current_time s2 = reply_now reply).
  { unfold modify in Hset. now injection Hset as <-. }
  rewrite bind_gets in H. unfold id in H.
  assert (Hret : forall t, ret tt s2 = Returns tt t -> __current_time t = reply_now reply).
  { intros t Ht. unfold ret in Ht. now injection Ht as <-. }
  destruct (__simulation_time s2); [|now apply Hret].
  destruct (_ && _); [|now apply Hret].
  destruct (close_Returns s2) as (t & Hclose & _ & _ & Hclock & _).
  rewrite Hclose in H. injection H as <-. congruence.
Qed.

Lemma start_runnable_jobs_follows s s' :
  __start_runnable_jobs s = Returns tt s' ->
  net_inbox s' = net_inbox s /\ __current_time s' = __current_time s.
Proof.
  intros Hrun. split.
  - pose proof (start_runnable_jobs_keeps_inbox (net_inbox s) s eq_refl) as Hk.
    now rewrite Hrun in Hk.
  - pose proof (start_runnable_jobs_keeps_clock _ _ _ s
                  (conj eq_refl (conj eq_refl eq_refl))) as Hk.
    rewrite Hrun in Hk. apply Hk.
Qed.

Lemma proceed_loop_follows n s s' :
  (length (net_inbox s) <= n)%nat ->
  proceed_loop n s = Returns tt s' ->
  s' = s \/
  exists taken reply,
    net_inbox s = taken ++ reply :: net_inbox s' /\
    __current_time s' = reply_now reply.
Proof.
  revert s. induction n as [|n IH]; intros s Hlen Hrun.
  - cbn [proceed_loop] in Hrun. rewrite bind_gets in Hrun. unfold id in Hrun.
    destruct (is_running s && __wait_callback s).
    + right. destruct (goto_next_follows s s' Hrun) as (reply & Hin & Hnow).
      exists [], reply. auto.
    + left. now inversion Hrun.
  - change (proceed_loop (S n) s) with
      ((let* s0 := gets id in
        if is_running s0 && __wait_callback s0
        then __goto_next_batsim_event ;;; __start_runnable_jobs ;;; proceed_loop n
        else ret tt) s) in Hrun.
    rewrite bind_gets in Hrun. unfold id in Hrun.
    destruct (is_running s && __wait_callback s); [|left; now inversion Hrun].
    right.
    apply bind_Returns in Hrun as ([] & s1 & Hgoto & Hrun).
    apply bind_Returns in Hrun as ([] & s2 & Hstart & Hrun).
    destruct (goto_next_follows s s1 Hgoto) as (reply & Hin & Hnow).
    destruct (start_runnable_jobs_follows s1 s2 Hstart) as (Hin2 & Hnow2).
    destruct (IH s2) as [->|(taken & reply' & Hin' & Hnow')]; [|exact Hrun| |].
    + rewrite Hin2. rewrite Hin in Hlen. simpl in Hlen. lia.
    + exists [], reply. rewrite Hin2, Hnow2. auto.
    + exists (reply :: taken), reply'. split; [|exact Hnow'].
      rewrite Hin, <- Hin2, Hin'. reflexivity.
Qed.

Lemma quiet_arm_timer time : quiet (arm_timer time).
Proof.
  unfold arm_timer. destruct time as [t|]; [|quietly].
  destruct (_ && _); [apply quiet_raise|].
  apply quiet_bind; [apply quiet_gets|intros s0].
  destruct (negb (truthy (Some t))); [quietly|].
  destruct (_ && _); [quietly|].
  apply quiet_bind; [quietly|intros _].
  apply quiet_set_callback.
Qed.

(** X14.  [proceed_time] advances with the engine.  When it returns it has
    taken at least one reply of the engine, in the order in which they came;
    the clock of the handler is the time of the last reply taken, whatever the
    timestamps of the events in it; and the replies that it has not taken are
    still to come. *)
Theorem proceed_time_follows_engine (s s' : SimulatorHandler) (time : option time) :
  proceed_time time s = Returns tt s' ->
  exists taken reply,
    net_inbox s = taken ++ reply :: net_inbox s' /\
    __current_time s' = reply_now reply.
Proof.
  rewrite proceed_time_parts. intros Hrun.
  apply bind_Returns in Hrun as ([] & s1 & Hreq & Hrun).
  apply bind_Returns in Hrun as ([] & s2 & Harm & Hrun).
  unfold advance in Hrun.
  apply bind_Returns in Hrun as ([] & s3 & Hgoto & Hrun).
  apply bind_Returns in Hrun as ([] & s4 & Hstart & Hrun).
  rewrite bind_gets in Hrun. unfold id in Hrun.
  assert (Hin1 : net_inbox s2 = net_inbox s).
  { assert (s1 = s) as ->.
    { unfold require_running in Hreq. destruct (is_running s); now inversion Hreq. }
    destruct (quiet_arm_timer time s) as [_ He].
    apply evolves_quietly in He as [_ He]. now rewrite Harm in He. }
  destruct (goto_next_follows s2 s3 Hgoto) as (reply & Hin & Hnow).
  destruct (start_runnable_jobs_follows s3 s4 Hstart) as (Hin4 & Hnow4).
  rewrite <- Hin1, Hin, <- Hin4.
  apply proceed_loop_follows in Hrun as [->|(taken & reply' & Hin' & Hnow')]; [| |lia].
  - exists [], reply. split; [reflexivity|congruence].
  - exists (reply :: taken), reply'. split; [|exact Hnow'].
    rewrite Hin'. reflexivity.
Qed.

Lemma proceed_time_follows_engine_witness :
  let s := Fixtures.running (Q2Qc 0) []
             [mkBatsimReply (Q2Qc 7) [NoMoreStaticJobToSubmitBatsimEvent (Q2Qc 3)];
              mkBatsimReply (Q2Qc 9) []] in
  exists taken reply,
    net_inbox s = taken ++ reply :: net_inbox (state_after (proceed_time None s)) /\
    __current_time (state_after (proceed_time None s)) = reply_now reply.
Proof.
  cbv zeta.
  apply (proceed_time_follows_engine _ _ None).
  vm_compute. reflexivity.
Defined.

(** ** Jobs that leave the registry *)

Lemma find_job_Some id s i job :
  find_job id s = Some (i, job) -> __jobs s !! i = Some job /\ job_id job = id.
Proof. unfold find_job. intros H. apply list_find_Some in H as (H1 & H2 & _). auto. Qed.

Lemma filter_other_ids id (l : list Job) :
  id ∉ job_id <$> l -> filter (fun j => job_id j ≠ id) l = l.
Proof.
  induction l as [|x l IH]; [reflexivity|]. intros Hni. cbn in Hni.
  apply not_elem_of_cons in Hni as [Hx Hl].
  rewrite filter_cons_True by congruence. now rewrite IH.
Qed.

(** With distinct ids, to delete the job found under an id is to keep the
    jobs of the other ids. *)
Lemma delete_found id (l : list Job) i job :
  list_find (fun j => job_id j = id) l = Some (i, job) ->
  NoDup (job_id <$> l) ->
  delete i l = filter (fun j => job_id j ≠ id) l.
Proof.
  revert i. induction l as [|x l IH]; intros i Hfind Hnd; [discriminate|].
  cbn in Hfind, Hnd. apply NoDup_cons in Hnd as [Hx Hnd].
  destruct (decide (job_id x = id)) as [Heq|Hne].
  - injection Hfind as <- <-.
    rewrite filter_cons_False by (intros H; now apply H).
    cbn. symmetry. apply filter_other_ids. now rewrite <- Heq.
  - destruct (list_find _ l) as [[i' job']|] eqn:Hl; [|discriminate].
    cbn in Hfind. injection Hfind as <- <-.
    rewrite filter_cons_True by exact Hne. cbn. f_equal. now apply IH.
Qed.

Lemma find_job_filtered id s s' :
  __jobs s' = filter (fun j => job_id j ≠ id) (__jobs s) -> find_job id s' = None.
Proof.
  intros Hjobs. unfold find_job. apply list_find_None. rewrite Hjobs.
  apply Forall_forall. intros j Hj. apply list_elem_of_filter in Hj as [Hj _].
  exact Hj.
Qed.

Lemma removal_Returns m id s s' :
  removed_job m = Some id ->
  invoke m s = Returns tt s' ->
  exists i job r,
    is_running s = true /\ find_job id s = Some (i, job) /\
    is_call_me_later r = false /\ request_timestamp r = current_time s /\
    s' = set_batsim_requests (__batsim_requests s ++ [r])
           (set_jobs (delete i (__jobs s)) s).
Proof.
  intros Hm Hrun.
  destruct m; try discriminate; injection Hm as ->; cbn [invoke] in Hrun.
  - unfold kill_job in Hrun. rewrite require_running_bind in Hrun.
    destruct (is_running s); [|discriminate].
    rewrite bind_gets in Hrun. unfold Datatypes.id at 1 in Hrun.
    destruct (find_job id s) as [[i job]|]; [|discriminate].
    rewrite bind_modify, bind_gets in Hrun. inversion Hrun; subst s'.
    exists i, job. eexists. repeat split; reflexivity.
  - unfold reject_job in Hrun. rewrite require_running_bind in Hrun.
    destruct (is_running s); [|discriminate].
    rewrite bind_gets in Hrun. unfold Datatypes.id at 1 in Hrun.
    destruct (find_job id s) as [[i job]|]; [|discriminate].
    destruct (negb _); [discriminate|].
    rewrite bind_modify, bind_gets in Hrun. inversion Hrun; subst s'.
    exists i, job. eexists. repeat split; reflexivity.
Qed.

Lemma removal_of_unknown_job m id s :
  removed_job m = Some id ->
  is_running s = true -> find_job id s = None ->
  invoke m s = Raises job_not_found_error s.
Proof.
  intros Hm Hrun Hnone.
  destruct m; try discriminate; injection Hm as ->; cbn [invoke];
    unfold kill_job, reject_job; rewrite require_running_bind, Hrun, bind_gets;
    unfold Datatypes.id at 1; now rewrite Hnone.
Qed.

(** X15.  [kill_job] and [reject_job] take the job out of the registry at once
    and for good.  When the ids of the known jobs are distinct, the registry
    after the call is the registry before it without the job, in the same
    order; the platform is left as it is, so that the hosts bound to a killed
    job are not released; the same call again finds no job and raises the
    lookup error; and the completion of the job, when the engine reports it,
    is refused with a system error, since the handler of the completion finds
    no job either. *)
Theorem removed_job_is_forgotten (m : method) (id : string) (s s' : SimulatorHandler) :
  removed_job m = Some id ->
  NoDup (job_id <$> __jobs s) ->
  invoke m s = Returns tt s' ->
  __jobs s' = filter (fun j => job_id j ≠ id) (__jobs s) /\
  __platform s' = __platform s /\
  invoke m s' = Raises job_not_found_error s' /\
  forall ts final,
    deliver (JobCompletedBatsimEvent ts id final) s'
    = Raises unknown_job_error (set_current_time ts s').
Proof.
  intros Hm Hnd Hrun.
  destruct (removal_Returns m id s s' Hm Hrun)
    as (i & job & r & Hrunning & Hfind & _ & _ & ->).
  assert (Hjobs : delete i (__jobs s) = filter (fun j => job_id j ≠ id) (__jobs s))
    by (exact (delete_found id (__jobs s) i job Hfind Hnd)).
  split; [exact Hjobs|]. split; [reflexivity|]. split.
  - apply (removal_of_unknown_job m id); [exact Hm|exact Hrunning|].
    now apply (find_job_filtered id s).
  - intros ts final. unfold deliver. rewrite bind_modify. cbn [handle_event].
    unfold __on_batsim_job_completed. rewrite bind_gets. unfold Datatypes.id at 1.
    rewrite (find_job_filtered id s); [reflexivity|exact Hjobs].
Qed.

Lemma removed_job_is_forgotten_witness :
  let s := Fixtures.running (Q2Qc 0)
             [Fixtures.job "a" SUBMITTED None; Fixtures.job "b" RUNNING (Some [1])] [] in
  let s' := state_after (invoke (KillJob "b") s) in
  __jobs s' = filter (fun j => job_id j ≠ "b") (__jobs s) /\
  __platform s' = __platform s /\
  invoke (KillJob "b") s' = Raises job_not_found_error s' /\
  forall ts final,
    deliver (JobCompletedBatsimEvent ts "b" final) s'
    = Raises unknown_job_error (set_current_time ts s').
Proof.
  cbv zeta. apply removed_job_is_forgotten.
  - reflexivity.
  - apply (bool_decide_unpack _). vm_compute. exact I.
  - vm_compute. reflexivity.
Defined.

(** ** A job that comes and goes *)

Lemma find_last_job id (l : list Job) job :
  (forall j, j ∈ l -> job_id j <> job_id job) ->
  id = job_id job ->
  list_find (fun j => job_id j = id) (l ++ [job]) = Some (length l, job).
Proof.
  intros Hfresh ->. rewrite list_find_app_r.
  - cbn. rewrite decide_True by reflexivity. cbn. reflexivity.
  - apply list_find_None, Forall_forall. exact Hfresh.
Qed.

(** X16.  To submit a job and to take it out again leaves the registry as it
    was.  When the engine submits a job whose id is new, the job is the last
    of the registry and of the queue; [kill_job] or [reject_job] on its id
    then returns, the registry is the one of before the submission, and one
    more request is pending, stamped with the current time. *)
Theorem submitted_job_can_be_removed (m : method) (s : SimulatorHandler)
    (ts : time) (job : Job) :
  removed_job m = Some (job_id job) ->
  is_running s = true ->
  (forall j, j ∈ __jobs s -> job_id j <> job_id job) ->
  exists s1 s2 r,
    deliver (JobSubmittedBatsimEvent ts job) s = Returns tt s1 /\
    __jobs s1 = __jobs s ++ [Job_submit (round1 ts) job] /\
    queue s1 = queue s ++ [Job_submit (round1 ts) job] /\
    invoke m s1 = Returns tt s2 /\
    __jobs s2 = __jobs s /\
    __batsim_requests s2 = __batsim_requests s ++ [r] /\
    request_timestamp r = round1 ts.
Proof.
  intros Hm Hrun Hfresh.
  set (s1 := set_jobs (__jobs s ++ [Job_submit (round1 ts) job]) (set_current_time ts s)).
  assert (Hfind : find_job (job_id job) s1
                  = Some (length (__jobs s), Job_submit (round1 ts) job)).
  { unfold find_job. cbn. apply find_last_job; [exact Hfresh|reflexivity]. }
  assert (Hdel : delete (length (__jobs s)) (__jobs s1) = __jobs s).
  { cbn. rewrite delete_middle. apply app_nil_r. }
  exists s1.
  destruct m; try discriminate; injection Hm as ->; cbn [invoke].
  - eexists. exists (KillJobBatsimRequest (round1 ts) (job_id job)).
    split; [reflexivity|]. split; [reflexivity|]. split.
    { unfold queue. cbn. now rewrite List.filter_app. }
    split.
    { unfold kill_job. rewrite require_running_bind.
      change (is_running s1) with (is_running s). rewrite Hrun.
      rewrite bind_gets. unfold Datatypes.id at 1. rewrite Hfind.
      rewrite bind_modify, bind_gets. reflexivity. }
    split; [exact Hdel|]. split; reflexivity.
  - eexists. exists (RejectJobBatsimRequest (round1 ts) (job_id job)).
    split; [reflexivity|]. split; [reflexivity|]. split.
    { unfold queue. cbn. now rewrite List.filter_app. }
    split.
    { unfold reject_job. rewrite require_running_bind.
      change (is_running s1) with (is_running s). rewrite Hrun.
      rewrite bind_gets. unfold Datatypes.id at 1. rewrite Hfind.
      assert (is_submitted (Job_submit (round1 ts) job) = true) as -> by reflexivity.
      cbn [negb].
      rewrite bind_modify, bind_gets. reflexivity. }
    split; [exact Hdel|]. split; reflexivity.
Qed.

Lemma submitted_job_can_be_removed_witness :
  let s := Fixtures.running (Q2Qc 0) [Fixtures.job "a" RUNNING (Some [1])] [] in
  let job := Fixtures.job "b" SUBMITTED None in
  exists s1 s2 r,
    deliver (JobSubmittedBatsimEvent (Q2Qc 3) job) s = Returns tt s1 /\
    __jobs s1 = __jobs s ++ [Job_submit (round1 (Q2Qc 3)) job] /\
    queue s1 = queue s ++ [Job_submit (round1 (Q2Qc 3)) job] /\
    invoke (RejectJob "b") s1 = Returns tt s2 /\
    __jobs s2 = __jobs s /\
    __batsim_requests s2 = __batsim_requests s ++ [r] /\
    request_timestamp r = round1 (Q2Qc 3).
Proof.
  cbv zeta. apply submitted_job_can_be_removed.
  - reflexivity.
  - reflexivity.
  - intros j Hj. apply list_elem_of_singleton in Hj as ->. discriminate.
Defined.

(** ** Allocation *)

(** The loop of [allocate] binds the job to each host, and changes nothing
    else of the hosts. *)
Lemma allocate_binds_hosts id hosts :
  forall s pf,
    __platform s = Some pf ->
    (forall h, h ∈ hosts -> is_Some (pf !! h)) ->
    exists pf1,
      for_each hosts
        (fun h_id => let* host := platform_get h_id in
                     put_host h_id (Host_allocate id host)) s
      = Returns tt (set_platform (Some pf1) s) /\
      forall h host,
        pf !! h = Some host ->
        exists host1,
          pf1 !! h = Some host1 /\ host_state host1 = host_state host /\
          (h ∈ hosts \/ id ∈ host_jobs host -> id ∈ host_jobs host1).
Proof.
  induction hosts as [|h0 hosts IH]; intros s pf Hpf Hknown.
  - exists pf. split.
    + cbn. unfold ret. f_equal. destruct s; cbn in *; now subst.
    + intros h host Hh. exists host. split; [exact Hh|]. split; [reflexivity|].
      intros [Hin|Hin]; [inversion Hin|exact Hin].
  - destruct (Hknown h0) as [host0 Hh0]; [set_solver|].
    set (pf' := <[h0 := Host_allocate id host0]> pf).
    destruct (IH (set_platform (Some pf') s) pf') as (pf1 & Hloop & Hhosts).
    { reflexivity. }
    { intros h Hh. unfold pf'. destruct (decide (h = h0)) as [->|Hne].
      - rewrite lookup_insert_eq. eauto.
      - rewrite lookup_insert_ne by congruence. apply Hknown. set_solver. }
    exists pf1. split.
    + cbn [for_each]. unfold bind at 1. unfold bind at 1.
      unfold platform_get, Platform_get. rewrite Hpf, Hh0. cbn [lift ret].
      unfold put_host, modify. rewrite Hpf. cbn [fmap option_fmap option_map].
      exact Hloop.
    + intros h host Hh. destruct (decide (h = h0)) as [->|Hne].
      * assert (host = host0) as -> by congruence.
        destruct (Hhosts h0 (Host_allocate id host0)) as (host1 & H1 & Hst & Hjobs).
        { unfold pf'. apply lookup_insert_eq. }
        exists host1. split; [exact H1|]. split; [exact Hst|].
        intros _. apply Hjobs. right. cbn. set_solver.
      * destruct (Hhosts h host) as (host1 & H1 & Hst & Hjobs).
        { unfold pf'. now rewrite lookup_insert_ne by congruence. }
        exists host1. split; [exact H1|]. split; [exact Hst|].
        intros [Hin|Hin]; apply Hjobs; [left; set_solver|now right].
Qed.

(** With every host idle, the inner loop finds the job ready and changes
    nothing. *)
Lemma check_allocation_idle alloc b s :
  all_idle s alloc -> check_allocation alloc b s = Returns b s.
Proof.
  revert b. induction alloc as [|h alloc IH]; intros b Hidle; [reflexivity|].
  destruct (Hidle h) as (host & Hhost & Hi); [set_solver|].
  cbn [check_allocation]. unfold bind at 1.
  unfold mirrored_host in Hhost. unfold platform_get, Platform_get.
  destruct (__platform s) as [pf|]; [|discriminate]. cbn in Hhost. rewrite Hhost.
  cbn [lift ret]. rewrite Hi. cbn [negb].
  assert (is_sleeping host = false) as ->.
  { unfold is_idle, is_sleeping in *. apply bool_decide_eq_true in Hi.
    apply bool_decide_eq_false. congruence. }
  unfold bind at 1. cbn [when ret]. apply IH.
  intros k Hk. apply Hidle. set_solver.
Qed.

(** The hosts of a job that starts compute, with the jobs bound to them. *)
Lemma started_hosts_compute alloc (pf : Platform) h host :
  pf !! h = Some host ->
  exists host',
    foldr (alter Host_start_computing) pf alloc !! h = Some host' /\
    host_jobs host' = host_jobs host /\
    (h ∈ alloc -> host_state host' = COMPUTING).
Proof.
  intros Hh. induction alloc as [|a alloc (host' & H' & Hjobs & Hst)]; cbn [foldr].
  - exists host. split; [exact Hh|]. split; [reflexivity|]. intros Hin. inversion Hin.
  - destruct (decide (a = h)) as [->|Hne].
    + rewrite lookup_alter_eq, H'. cbn. eexists. split; [reflexivity|].
      split; [exact Hjobs|reflexivity].
    + rewrite lookup_alter_ne by exact Hne. exists host'. split; [exact H'|].
      split; [exact Hjobs|]. intros Hin. apply Hst. set_solver.
Qed.

Lemma only_element (l : list nat) i :
  NoDup l -> i ∈ l -> (forall k, k ∈ l -> k = i) -> l = [i].
Proof.
  intros Hnd Hi Hall. destruct l as [|x l]; [inversion Hi|].
  assert (x = i) as -> by (apply Hall; set_solver).
  apply NoDup_cons in Hnd as [Hni _].
  destruct l as [|y l]; [reflexivity|].
  assert (y = i) as -> by (apply Hall; set_solver). set_solver.
Qed.

(** X17.  A job that is allocated idle hosts starts at once.  On a running
    simulation where no job waits for hosts, [allocate] of a queued job on
    hosts that are all idle returns with the job running since the current
    time on these hosts, the request to execute it pending after the requests
    of before, and each of the hosts computing and bound to the job. *)
Theorem allocate_starts_at_once (s : SimulatorHandler) (pf : Platform)
    (id : string) (hosts_id : list Z) (i : nat) (job : Job) :
  is_running s = true ->
  __platform s = Some pf ->
  find_job id s = Some (i, job) ->
  is_submitted job = true ->
  hosts_id <> [] ->
  (forall h, h ∈ hosts_id -> exists host, pf !! h = Some host /\ is_idle host = true) ->
  (forall k j, __jobs s !! k = Some j -> is_runnable j = false) ->
  exists s',
    allocate id hosts_id s = Returns tt s' /\
    __jobs s'
    = <[i := mkJob id RUNNING (Some hosts_id) (job_subtime job)
                   (Some (current_time s)) (job_stop_time job)]> (__jobs s) /\
    __batsim_requests s'
    = __batsim_requests s ++ [ExecuteJobBatsimRequest (current_time s) id hosts_id] /\
    forall h, h ∈ hosts_id ->
      exists host,
        mirrored_host s' h = Some host /\ is_computing host = true /\
        id ∈ host_jobs host.
Proof.
  intros Hrun Hpf Hfind Hq Hne Hidle Hnone.
  destruct (find_job_Some id s i job Hfind) as [Hjob Hid].
  destruct (allocate_binds_hosts id hosts_id s pf Hpf) as (pf1 & Hbind & Hhosts).
  { intros h Hh. destruct (Hidle h Hh) as (host & -> & _). eauto. }
  set (job_a := mkJob (job_id job) ALLOCATED (Some hosts_id) (job_subtime job)
                      (job_start_time job) (job_stop_time job)).
  set (s2 := set_jobs (<[i := job_a]> (__jobs s)) (set_platform (Some pf1) s)).
  assert (Hi : (i < length (__jobs s))%nat) by (now apply lookup_lt_Some in Hjob).
  assert (Hjob2 : __jobs s2 !! i = Some job_a).
  { cbn. now apply list_lookup_insert_eq. }
  assert (Hall : all_idle s2 hosts_id).
  { intros h Hh. destruct (Hidle h Hh) as (host & Hhost & Hi').
    destruct (Hhosts h host Hhost) as (host1 & H1 & Hst & _).
    exists host1. split; [exact H1|].
    unfold is_idle in *. apply bool_decide_eq_true in Hi'.
    apply bool_decide_eq_true. congruence. }
  assert (Hrunnable : runnable_jobs s2 = [i]).
  { apply only_element.
    - apply runnable_jobs_NoDup.
    - now apply (runnable_jobs_elem s2 i job_a).
    - intros k Hk. destruct (runnable_jobs_spec s2 k Hk) as (j & Hj & Hr).
      destruct (decide (k = i)) as [->|Hki]; [reflexivity|].
      cbn in Hj. rewrite list_lookup_insert_ne in Hj by congruence.
      rewrite (Hnone k j Hj) in Hr. discriminate. }
  destruct hosts_id as [|h0 hosts]; [contradiction|].
  eexists. split; [|split; [|split]].
  - unfold allocate. rewrite require_running_bind, Hrun, Hpf, Hfind.
    unfold bind at 1. rewrite Hbind.
    unfold Job_allocate. rewrite Hq. cbn [lift]. rewrite bind_ret.
    unfold put_job. rewrite bind_modify.
    change (set_jobs (<[i:=_]> (__jobs (set_platform (Some pf1) s)))
              (set_platform (Some pf1) s)) with s2.
    unfold __start_runnable_jobs. rewrite bind_gets. unfold Datatypes.id.
    change (is_running s2) with (is_running s). rewrite Hrun. cbn [negb].
    unfold bind at 1. unfold require_platform.
    change (__platform s2) with (Some pf1). cbv beta iota.
    rewrite Hrunnable. cbn [for_each].
    unfold start_if_ready. unfold bind at 1. rewrite bind_gets.
    unfold Datatypes.id. rewrite Hjob2. cbn [job_allocation job_a].
    unfold bind at 1. rewrite (check_allocation_idle _ true s2 Hall).
    rewrite bind_gets. unfold start_job, Job_start.
    change (is_runnable job_a) with true. cbn [lift]. reflexivity.
  - cbn. rewrite list_insert_insert_eq. now rewrite Hid.
  - cbn. now rewrite Hid.
  - intros h Hh. destruct (Hidle h Hh) as (host & Hhost & _).
    destruct (Hhosts h host Hhost) as (host1 & H1 & _ & Hjobs).
    destruct (started_hosts_compute (h0 :: hosts) pf1 h host1 H1)
      as (host' & H' & Hj' & Hst').
    exists host'. split; [exact H'|]. split.
    + unfold is_computing. apply bool_decide_eq_true. now apply Hst'.
    + rewrite Hj'. apply Hjobs. now left.
Qed.

Lemma allocate_starts_at_once_witness :
  let s := Fixtures.running (Q2Qc 0) [Fixtures.job "j" SUBMITTED None] [] in
  exists s',
    allocate "j" [0; 3] s = Returns tt s' /\
    __jobs s'
    = <[0%nat := mkJob "j" RUNNING (Some [0; 3])
                   (job_subtime (Fixtures.job "j" SUBMITTED None))
                   (Some (current_time s))
                   (job_stop_time (Fixtures.job "j" SUBMITTED None))]> (__jobs s) /\
    __batsim_requests s'
    = __batsim_requests s ++ [ExecuteJobBatsimRequest (current_time s) "j" [0; 3]] /\
    forall h, h ∈ [0; 3] ->
      exists host,
        mirrored_host s' h = Some host /\ is_computing host = true /\
        "j" ∈ host_jobs host.
Proof.
  cbv zeta.
  apply (allocate_starts_at_once _ Fixtures.four_hosts "j" [0; 3] 0%nat
           (Fixtures.job "j" SUBMITTED None)).
  - reflexivity.
  - reflexivity.
  - reflexivity.
  - reflexivity.
  - discriminate.
  - intros h Hh. apply elem_of_cons in Hh as [->|Hh];
      [|apply list_elem_of_singleton in Hh as ->];
      (eexists; split; [reflexivity|reflexivity]).
  - intros [|k] j Hj; [injection Hj as <-; reflexivity|discriminate].
Defined.

(** ** An allocation that fails *)

(** X18.  [allocate] binds the hosts before it allocates the job.  When the
    job is known but not queued, the call raises a runtime error after it has
    bound the job to every host of the sequence: the hosts keep the job among
    their jobs, while the registry and the pending requests are as they were. *)
Theorem failed_allocation_binds_hosts (s : SimulatorHandler) (pf : Platform)
    (id : string) (hosts_id : list Z) (i : nat) (job : Job) :
  is_running s = true ->
  __platform s = Some pf ->
  find_job id s = Some (i, job) ->
  is_submitted job = false ->
  (forall h, h ∈ hosts_id -> is_Some (pf !! h)) ->
  exists msg s',
    allocate id hosts_id s = Raises (RuntimeError msg) s' /\
    __jobs s' = __jobs s /\
    __batsim_requests s' = __batsim_requests s /\
    forall h, h ∈ hosts_id ->
      exists host, mirrored_host s' h = Some host /\ id ∈ host_jobs host.
Proof.
  intros Hrun Hpf Hfind Hq Hknown.
  destruct (allocate_binds_hosts id hosts_id s pf Hpf Hknown) as (pf1 & Hbind & Hhosts).
  eexists. eexists. split; [|split; [|split]].
  - unfold allocate. rewrite require_running_bind, Hrun, Hpf, Hfind.
    unfold bind at 1. rewrite Hbind.
    unfold Job_allocate. rewrite Hq. cbn [lift]. rewrite bind_raise. reflexivity.
  - reflexivity.
  - reflexivity.
  - intros h Hh. destruct (Hknown h Hh) as [host Hhost].
    destruct (Hhosts h host Hhost) as (host1 & H1 & _ & Hjobs).
    exists host1. split; [exact H1|]. apply Hjobs. now left.
Qed.

Lemma failed_allocation_binds_hosts_witness :
  let s := Fixtures.running (Q2Qc 0) [Fixtures.job "j" RUNNING (Some [1])] [] in
  exists msg s',
    allocate "j" [0; 3] s = Raises (RuntimeError msg) s' /\
    __jobs s' = __jobs s /\
    __batsim_requests s' = __batsim_requests s /\
    forall h, h ∈ [0; 3] ->
      exists host, mirrored_host s' h = Some host /\ "j" ∈ host_jobs host.
Proof.
  cbv zeta.
  apply (failed_allocation_binds_hosts _ Fixtures.four_hosts "j" [0; 3] 0%nat
           (Fixtures.job "j" RUNNING (Some [1]))).
  - reflexivity.
  - reflexivity.
  - reflexivity.
  - reflexivity.
  - intros h Hh. apply elem_of_cons in Hh as [->|Hh];
      [|apply list_elem_of_singleton in Hh as ->]; eexists; reflexivity.
Defined.

(** ** A runnable job without hosts *)

Lemma starved_frame i job s s' :
  is_running s' = is_running s ->
  (is_Some (__platform s) -> is_Some (__platform s')) ->
  __jobs s' !! i = __jobs s !! i ->
  starved i job s -> starved i job s'.
Proof.
  intros Hr Hp Hj (H1 & H2 & H3 & H4 & H5).
  unfold starved. rewrite Hr, Hj. auto.
Qed.

(** Changes of the hosts and of the pending requests keep the job as it
    is. *)
Ltac starved_frame :=
  match goal with
  | H : starved ?i ?job ?s |- starved ?i ?job _ =>
      apply (starved_frame i job s); [reflexivity| |try reflexivity|exact H];
      cbn; try (intros [? ->]; cbn; eauto); auto
  end.

Ltac keeps_starved :=
  repeat first
    [ keeps_step
    | match goal with
      | |- keeps _ (platform_get _) => apply platform_get_keeps
      | |- keeps _ require_running => apply require_running_keeps
      | |- keeps _ require_platform => apply require_platform_keeps
      | |- keeps _ (match ?x with _ => _ end) => destruct x
      | |- keeps _ (if ?b then _ else _) => destruct b
      | |- keeps _ (let _ := _ in _) => cbv zeta
      end
    | starved_frame ].

Lemma check_allocation_keeps_starved i job alloc b :
  keeps (starved i job) (check_allocation alloc b).
Proof.
  revert b. induction alloc as [|h alloc IH]; intros b; simpl.
  - apply keeps_ret.
  - apply keeps_bind; [apply platform_get_keeps|intros host].
    apply keeps_bind; [|intros _; apply IH].
    unfold switch_on, switch_on_host, put_host, __set_batsim_host_pstate.
    keeps_starved.
Qed.

Lemma start_if_ready_keeps_starved i job k :
  keeps (starved i job) (start_if_ready k).
Proof.
  unfold start_if_ready. apply keeps_get_state. intros s HI.
  destruct (__jobs s !! k) as [j|] eqn:Hk; [|exact HI].
  destruct (job_allocation j) as [[|h alloc]|] eqn:Halloc; try exact HI.
  assert (Hne : k <> i).
  { intros ->. destruct HI as (_ & _ & Hi & _ & Hnone).
    assert (j = job) as -> by congruence. rewrite Halloc in Hnone. discriminate. }
  revert s HI Hk.
  assert (Hkeeps : keeps (starved i job)
    (let* is_ready := check_allocation (h :: alloc) true in
     if is_ready then
       let* now := gets current_time in
       start_job k j now ;;;
       let* now := gets current_time in
       append_request (ExecuteJobBatsimRequest now (job_id j) (h :: alloc))
     else ret tt)).
  { apply keeps_bind; [apply check_allocation_keeps_starved|intros [|]];
      [|apply keeps_ret].
    unfold start_job, put_job, append_request. keeps_starved.
    now rewrite list_lookup_insert_ne by exact Hne. }
  intros s HI _. now apply Hkeeps.
Qed.

Lemma start_if_ready_starved i job s :
  starved i job s -> start_if_ready i s = Raises no_resources_error s.
Proof.
  intros (_ & _ & Hi & _ & Hnone).
  unfold start_if_ready. rewrite bind_gets. unfold id. rewrite Hi.
  destruct (job_allocation job) as [[|h alloc]|]; try reflexivity. discriminate.
Qed.

Lemma starved_loop i job (l : list nat) s :
  i ∈ l -> starved i job s ->
  exists e s', for_each l start_if_ready s = Raises e s' /\ starved i job s'.
Proof.
  revert s. induction l as [|k l IH]; intros s Hin HI; [inversion Hin|].
  cbn [for_each]. unfold bind.
  pose proof (start_if_ready_keeps_starved i job k s HI) as Hkeeps.
  destruct (quiet_start_if_ready k s) as [Hwait _].
  destruct (start_if_ready k s) as [[] s1|e s1|s1] eqn:Hturn; cbn in Hkeeps.
  - apply IH; [|exact Hkeeps].
    apply elem_of_cons in Hin as [Heq|Hin]; [|exact Hin]. subst k.
    rewrite (start_if_ready_starved i job s HI) in Hturn. discriminate.
  - eauto.
  - discriminate.
Qed.

(** X19.  A job needs hosts to start.  On a running simulation with a
    platform, the attempt to start the runnable jobs never comes to its end
    while a runnable job has no host: it raises, and it leaves that job as it
    is, so that the next attempt raises again. *)
Theorem runnable_job_needs_hosts (s : SimulatorHandler) (i : nat) (job : Job) :
  starved i job s ->
  exists e s', __start_runnable_jobs s = Raises e s' /\ starved i job s'.
Proof.
  intros HI. pose proof HI as (Hrun & [pf Hpf] & Hi & Hr & _).
  unfold __start_runnable_jobs. rewrite bind_gets. unfold id. rewrite Hrun.
  cbn [negb]. unfold bind at 1. unfold require_platform. rewrite Hpf.
  apply starved_loop; [|exact HI]. now apply (runnable_jobs_elem s i job).
Qed.

Lemma runnable_job_needs_hosts_witness :
  let job := Fixtures.job "j" ALLOCATED (Some []) in
  let s := Fixtures.running (Q2Qc 0) [Fixtures.job "a" SUBMITTED None; job] [] in
  exists e s', __start_runnable_jobs s = Raises e s' /\ starved 1 job s'.
Proof.
  cbv zeta. apply runnable_job_needs_hosts.
  split; [reflexivity|]. split; [eexists; reflexivity|].
  split; [reflexivity|]. split; reflexivity.
Defined.

(** The job of the example is the only runnable one: the error is the one of
    the job without resources, and the handler is left as it was. *)
Example start_without_hosts :
  let job := Fixtures.job "j" ALLOCATED (Some []) in
  let s := Fixtures.running (Q2Qc 0) [Fixtures.job "a" SUBMITTED None; job] [] in
  __start_runnable_jobs s = Raises no_resources_error s.
Proof. vm_compute. reflexivity. Qed.

(** ** Hosts that wake up *)

Lemma woken_up_waking_up state host : woken_up state host -> waking_up state host.
Proof. intros (p & Hd & Hp & Hst & Hps). exists p. auto. Qed.

(** The engine reports that a host is in its default power state: a host
    that was switching on is idle from now on, and one that is idle already
    stays as it is. *)
Lemma host_wakes_up state h s pf host :
  __platform s = Some pf -> pf !! h = Some host ->
  waking_up state host ->
  exists host',
    host_state_changed state h s
    = Returns tt (set_platform (Some (<[h := host']> pf)) s) /\
    woken_up state host'.
Proof.
  intros Hpf Hh (p & Hd & Hp & [[Hst [ps Hps]]|[Hst Hps]]).
  - exists (set_host_pstate p (set_host_state IDLE host)). split.
    + unfold host_state_changed. unfold bind at 1.
      unfold platform_get, Platform_get. rewrite Hpf, Hh. cbn [lift ret].
      rewrite Hps. unfold apply_reported_state, is_switching_off, is_switching_on.
      rewrite Hst. cbn [bool_decide decide_rel]. 
      rewrite (bool_decide_eq_false_2 (SWITCHING_ON = SWITCHING_OFF)) by discriminate.
      rewrite (bool_decide_eq_true_2 (SWITCHING_ON = SWITCHING_ON)) by reflexivity.
      unfold Host_set_on, is_switching_on. rewrite Hd, Hst.
      rewrite (bool_decide_eq_true_2 (SWITCHING_ON = SWITCHING_ON)) by reflexivity.
      cbn [lift]. rewrite bind_ret. unfold put_host. rewrite bind_modify.
      cbn [host_pstate set_host_pstate].
      rewrite (bool_decide_eq_true_2 (ps_id p = state)) by exact Hp.
      cbn [negb]. rewrite Hpf. reflexivity.
    + exists p. cbn. auto.
  - exists host. split.
    + unfold host_state_changed. unfold bind at 1.
      unfold platform_get, Platform_get. rewrite Hpf, Hh. cbn [lift ret].
      rewrite Hps. unfold apply_reported_state, is_switching_off, is_switching_on,
        is_idle, is_computing.
      rewrite Hst.
      rewrite (bool_decide_eq_false_2 (IDLE = SWITCHING_OFF)) by discriminate.
      rewrite (bool_decide_eq_false_2 (IDLE = SWITCHING_ON)) by discriminate.
      rewrite (bool_decide_eq_true_2 (ps_id p = state)) by exact Hp.
      rewrite andb_false_r. cbn [lift]. rewrite bind_ret.
      unfold put_host. rewrite bind_modify. rewrite Hps.
      rewrite (bool_decide_eq_true_2 (ps_id p = state)) by exact Hp.
      cbn [negb]. rewrite Hpf. reflexivity.
    + exists p. auto.
Qed.

Lemma hosts_wake_up state (l : list Z) :
  forall s pf,
    __platform s = Some pf ->
    (forall h, h ∈ l -> exists host, pf !! h = Some host /\ waking_up state host) ->
    exists pf',
      for_each l (host_state_changed state) s
      = Returns tt (set_platform (Some pf') s) /\
      (forall h host, pf !! h = Some host -> woken_up state host ->
         exists host', pf' !! h = Some host' /\ woken_up state host') /\
      (forall h, h ∈ l -> exists host', pf' !! h = Some host' /\ woken_up state host').
Proof.
  induction l as [|h0 l IH]; intros s pf Hpf Hall.
  - exists pf. split.
    + cbn. unfold ret. f_equal. destruct s; cbn in *; now subst.
    + split; [eauto|]. intros h Hh. inversion Hh.
  - destruct (Hall h0) as (host0 & Hh0 & Hw0); [set_solver|].
    destruct (host_wakes_up state h0 s pf host0 Hpf Hh0 Hw0) as (host0' & Hturn & Hw0').
    set (pf1 := <[h0 := host0']> pf).
    destruct (IH (set_platform (Some pf1) s) pf1) as (pf' & Hloop & Hkeep & Hwoken).
    { reflexivity. }
    { intros h Hh. unfold pf1. destruct (decide (h = h0)) as [->|Hne].
      - rewrite lookup_insert_eq. eexists. split; [reflexivity|].
        now apply woken_up_waking_up.
      - rewrite lookup_insert_ne by congruence. apply Hall. set_solver. }
    exists pf'. split; [|split].
    + cbn [for_each]. unfold bind at 1. rewrite Hturn. exact Hloop.
    + intros h host Hh Hw. destruct (decide (h = h0)) as [->|Hne].
      * apply (Hkeep h0 host0'); [apply lookup_insert_eq|exact Hw0'].
      * apply (Hkeep h host); [|exact Hw].
        unfold pf1. now rewrite lookup_insert_ne by congruence.
    + intros h Hh. apply elem_of_cons in Hh as [->|Hh]; [|now apply Hwoken].
      apply (Hkeep h0 host0'); [apply lookup_insert_eq|exact Hw0'].
Qed.

(** X20.  A job that waits for its hosts starts when they are on.  A runnable
    job whose hosts are all switching on, and no other runnable job: when the
    engine reports that these hosts are in their default power state, the
    handler of the event makes them idle and starts the job in the same
    stroke.  The job runs since the time of the event, rounded to one decimal,
    and the request to execute it is pending. *)
Theorem waiting_job_starts_when_hosts_wake (s : SimulatorHandler) (pf : Platform)
    (ts : time) (i : nat) (job : Job) (alloc : list Z) (state : Z) :
  is_running s = true ->
  __platform s = Some pf ->
  __jobs s !! i = Some job ->
  is_runnable job = true ->
  job_allocation job = Some alloc ->
  alloc <> [] ->
  (forall k j, k <> i -> __jobs s !! k = Some j -> is_runnable j = false) ->
  (forall h, h ∈ alloc ->
     exists host, pf !! h = Some host /\ waking_up state host) ->
  exists s',
    deliver (ResourcePowerStateChangedBatsimEvent ts alloc state) s = Returns tt s' /\
    __jobs s'
    = <[i := mkJob (job_id job) RUNNING (Some alloc) (job_subtime job)
                   (Some (round1 ts)) (job_stop_time job)]> (__jobs s) /\
    __batsim_requests s'
    = __batsim_requests s ++ [ExecuteJobBatsimRequest (round1 ts) (job_id job) alloc] /\
    forall h, h ∈ alloc ->
      exists host, mirrored_host s' h = Some host /\ is_computing host = true.
Proof.
  intros Hrun Hpf Hjob Hr Halloc Hne Hnone Hwaking.
  set (s0 := set_current_time ts s).
  destruct (hosts_wake_up state alloc s0 pf Hpf Hwaking) as (pf' & Hloop & _ & Hwoken).
  set (s1 := set_platform (Some pf') s0).
  assert (Hall : all_idle s1 alloc).
  { intros h Hh. destruct (Hwoken h Hh) as (host' & Hh' & p & _ & _ & Hst & _).
    exists host'. split; [exact Hh'|]. unfold is_idle. now apply bool_decide_eq_true. }
  assert (Hrunnable : runnable_jobs s1 = [i]).
  { apply only_element.
    - apply runnable_jobs_NoDup.
    - now apply (runnable_jobs_elem s1 i job).
    - intros k Hk. destruct (runnable_jobs_spec s1 k Hk) as (j & Hj & Hrj).
      destruct (decide (k = i)) as [->|Hki]; [reflexivity|].
      rewrite (Hnone k j Hki Hj) in Hrj. discriminate. }
  destruct alloc as [|h0 hosts]; [contradiction|].
  eexists. split; [|split; [|split]].
  - unfold deliver. rewrite bind_modify. cbn [handle_event event_timestamp].
    fold s0. unfold __on_batsim_host_state_changed.
    unfold bind at 1. unfold require_platform.
    change (__platform s0) with (__platform s). rewrite Hpf.
    unfold bind at 1. rewrite Hloop. fold s1.
    unfold __start_runnable_jobs. rewrite bind_gets. unfold Datatypes.id.
    change (is_running s1) with (is_running s). rewrite Hrun. cbn [negb].
    unfold bind at 1. unfold require_platform.
    change (__platform s1) with (Some pf'). cbv beta iota.
    rewrite Hrunnable. cbn [for_each].
    unfold start_if_ready. unfold bind at 1. rewrite bind_gets.
    unfold Datatypes.id. change (__jobs s1) with (__jobs s). rewrite Hjob, Halloc.
    unfold bind at 1. rewrite (check_allocation_idle _ true s1 Hall).
    rewrite bind_gets. unfold start_job, Job_start. rewrite Hr.
    cbn [lift]. reflexivity.
  - cbn. now rewrite Halloc.
  - reflexivity.
  - intros h Hh. destruct (Hwoken h Hh) as (host' & Hh' & _).
    destruct (started_hosts_compute (h0 :: hosts) pf' h host' Hh')
      as (host'' & H'' & _ & Hst'').
    exists host''. split.
    + cbn. rewrite Halloc. exact H''.
    + unfold is_computing. apply bool_decide_eq_true. now apply Hst''.
Qed.

Lemma waiting_job_starts_when_hosts_wake_witness :
  let pf := <[2 := Fixtures.host SWITCHING_ON Fixtures.p_sleep]> Fixtures.four_hosts in
  let job := Fixtures.job "j" ALLOCATED (Some [2]) in
  let s := set_platform (Some pf) (Fixtures.running (Q2Qc 0) [job] []) in
  exists s',
    deliver (ResourcePowerStateChangedBatsimEvent (Q2Qc 4) [2] 0) s = Returns tt s' /\
    __jobs s'
    = <[0%nat := mkJob (job_id job) RUNNING (Some [2]) (job_subtime job)
                   (Some (round1 (Q2Qc 4))) (job_stop_time job)]> (__jobs s) /\
    __batsim_requests s'
    = __batsim_requests s
      ++ [ExecuteJobBatsimRequest (round1 (Q2Qc 4)) (job_id job) [2]] /\
    forall h, h ∈ [2] ->
      exists host, mirrored_host s' h = Some host /\ is_computing host = true.
Proof.
  cbv zeta.
  apply (waiting_job_starts_when_hosts_wake _
           (<[2 := Fixtures.host SWITCHING_ON Fixtures.p_sleep]> Fixtures.four_hosts)).
  - reflexivity.
  - reflexivity.
  - reflexivity.
  - reflexivity.
  - reflexivity.
  - discriminate.
  - intros [|k] j Hk Hj; [contradiction|discriminate].
  - intros h Hh. apply list_elem_of_singleton in Hh as ->.
    eexists. split; [reflexivity|].
    exists Fixtures.p_on. split; [reflexivity|]. split; [reflexivity|].
    left. split; [reflexivity|eexists; reflexivity].
Defined.

(** ** The end of the simulation, told by the engine *)

Ltac keeps_stopped :=
  repeat first
    [ keeps_step
    | match goal with
      | |- keeps _ (platform_get _) => apply platform_get_keeps
      | |- keeps _ require_running => apply require_running_keeps
      | |- keeps _ require_platform => apply require_platform_keeps
      | |- keeps _ (match ?x with _ => _ end) => destruct x
      | |- keeps _ (if ?b then _ else _) => destruct b
      | |- keeps _ (let _ := _ in _) => cbv zeta
      | H : stopped ?s |- stopped _ => exact H
      | |- stopped (set_simulator false _) => reflexivity
      end ].

Lemma check_allocation_keeps_stopped alloc b : keeps stopped (check_allocation alloc b).
Proof.
  revert b. induction alloc as [|h alloc IH]; intros b; simpl.
  - apply keeps_ret.
  - apply keeps_bind; [apply platform_get_keeps|intros host].
    apply keeps_bind; [|intros _; apply IH].
    unfold switch_on, switch_on_host, put_host, __set_batsim_host_pstate.
    keeps_stopped.
Qed.

Lemma start_runnable_jobs_keeps_stopped : keeps stopped __start_runnable_jobs.
Proof.
  unfold __start_runnable_jobs.
  apply keeps_bind; [apply keeps_gets|intros s0].
  destruct (negb (is_running s0)); [apply keeps_ret|].
  apply keeps_bind; [apply require_platform_keeps|intros _].
  apply keeps_for_each. intros i. unfold start_if_ready.
  apply keeps_bind; [apply keeps_gets|intros s1].
  destruct (__jobs s1 !! i) as [job|]; [|apply keeps_ret].
  destruct (job_allocation job) as [[|h alloc]|]; try apply keeps_raise.
  apply keeps_bind; [apply check_allocation_keeps_stopped|intros [|]];
    [|apply keeps_ret].
  unfold start_job, put_job, append_request. keeps_stopped.
Qed.

Lemma close_keeps_stopped : keeps stopped close.
Proof. unfold close, __close_simulator, network_close, dispatch. keeps_stopped. Qed.

(** No handler of an event starts a simulation. *)
Lemma deliver_keeps_stopped event : keeps stopped (deliver event).
Proof.
  unfold deliver.
  apply keeps_bind; [keeps_stopped|intros _].
  destruct event; cbn [handle_event].
  - unfold __on_batsim_simulation_begins. keeps_stopped.
  - unfold __on_batsim_simulation_ends, network_send.
    apply keeps_bind; [apply keeps_gets|intros s0].
    apply keeps_bind; [keeps_stopped|intros _]. apply close_keeps_stopped.
  - unfold __on_batsim_job_completed.
    apply keeps_bind; [apply keeps_gets|intros s0].
    destruct (find_job job s0) as [[i j]|]; [|apply keeps_raise].
    apply keeps_bind; [apply keeps_lift|intros job'].
    apply keeps_bind; [keeps_stopped|intros _].
    apply keeps_bind; [keeps_stopped|intros _].
    apply start_runnable_jobs_keeps_stopped.
  - unfold __on_batsim_job_submitted. keeps_stopped.
  - unfold __on_batsim_host_state_changed.
    apply keeps_bind; [apply require_platform_keeps|intros _].
    apply keeps_bind; [|intros _; apply start_runnable_jobs_keeps_stopped].
    apply keeps_for_each. intros h. unfold host_state_changed, put_host.
    keeps_stopped.
  - unfold __on_batsim_requested_call, call. keeps_stopped.
  - unfold __on_batsim_no_more_jobs_to_submit. keeps_stopped.
  - apply keeps_ret.
Qed.

Lemma simulation_ends_stops ts s s' :
  deliver (SimulationEndsBatsimEvent ts) s = Returns tt s' -> stopped s'.
Proof.
  unfold deliver. rewrite bind_modify. cbn [handle_event].
  unfold __on_batsim_simulation_ends. rewrite bind_gets. unfold id.
  intros H. apply bind_Returns in H as ([] & s1 & _ & H).
  now apply close_stops in H.
Qed.

Lemma events_with_end_stop events s s' :
  for_each events deliver s = Returns tt s' ->
  existsb is_simulation_ends events = true ->
  stopped s'.
Proof.
  revert s. induction events as [|event events IH]; intros s Hrun Hends;
    [discriminate|].
  cbn [for_each] in Hrun. apply bind_Returns in Hrun as ([] & s1 & Hturn & Hrun).
  cbn [existsb] in Hends. apply orb_true_iff in Hends as [Hends|Hends].
  - destruct event; try discriminate.
    apply simulation_ends_stops in Hturn.
    pose proof (keeps_for_each stopped events deliver deliver_keeps_stopped s1 Hturn) as Hk.
    now rewrite Hrun in Hk.
  - now apply (IH s1).
Qed.

Lemma stopped_loop n s : stopped s -> proceed_loop n s = Returns tt s.
Proof.
  intros Hs. destruct n; cbn [proceed_loop]; rewrite bind_gets; unfold id;
    now rewrite Hs.
Qed.

Lemma stopped_start_runnable_jobs s : stopped s -> __start_runnable_jobs s = Returns tt s.
Proof.
  intros Hs. unfold __start_runnable_jobs. rewrite bind_gets. unfold id.
  now rewrite Hs.
Qed.

(** X21.  The engine ends the simulation.  When the reply that [proceed_time]
    takes first holds a simulation-ends event and the call returns, the
    simulation does not run any more, and no other reply has been taken: the
    loop of the call ends with the simulation. *)
Theorem engine_ends_simulation (s s' : SimulatorHandler) (time : option time)
    (reply : BatsimReply) (rest : list BatsimReply) :
  net_inbox s = reply :: rest ->
  existsb is_simulation_ends (reply_events reply) = true ->
  proceed_time time s = Returns tt s' ->
  is_running s' = false /\ net_inbox s' = rest.
Proof.
  intros Hin Hends. rewrite proceed_time_parts. intros Hrun.
  apply bind_Returns in Hrun as ([] & s1 & Hreq & Hrun).
  apply bind_Returns in Hrun as ([] & s2 & Harm & Hrun).
  unfold advance in Hrun.
  apply bind_Returns in Hrun as ([] & s3 & Hgoto & Hrun).
  assert (Hin2 : net_inbox s2 = reply :: rest).
  { assert (s1 = s) as ->.
    { unfold require_running in Hreq. destruct (is_running s); now inversion Hreq. }
    destruct (quiet_arm_timer time s) as [_ He].
    apply evolves_quietly in He as [_ He]. rewrite Harm in He. cbn in He. congruence. }
  destruct (goto_next_takes_one s2 s3 Hgoto) as (reply' & Hin3).
  assert (Hstopped : stopped s3).
  { unfold __goto_next_batsim_event in Hgoto.
    apply bind_Returns in Hgoto as ([] & t1 & Hsend & Hgoto).
    apply bind_Returns in Hgoto as ([] & t2 & Hhandle & Hgoto).
    assert (Hin1 : net_inbox t1 = net_inbox s2).
    { unfold __send_requests, network_send, bind, gets, modify in Hsend.
      inversion Hsend; subst. reflexivity. }
    unfold __handle_batsim_events in Hhandle.
    apply bind_Returns in Hhandle as (msg & t3 & Hrecv & Hhandle).
    unfold network_recv in Hrecv. rewrite Hin1, Hin2 in Hrecv.
    injection Hrecv as <- <-.
    apply bind_Returns in Hhandle as ([] & t4 & Hloop & Hset).
    apply events_with_end_stop in Hloop; [|exact Hends].
    assert (Ht2 : stopped t2).
    { unfold modify in Hset. injection Hset as <-. exact Hloop. }
    rewrite bind_gets in Hgoto. unfold id in Hgoto.
    assert (Hret : forall t, ret tt t2 = Returns tt t -> stopped t).
    { intros t Ht. unfold ret in Ht. now injection Ht as <-. }
    destruct (__simulation_time t2); [|now apply Hret].
    destruct (_ && _); [|now apply Hret].
    now apply close_stops in Hgoto. }
  rewrite (bind_Returns_eq _ _ _ _ _ (stopped_start_runnable_jobs s3 Hstopped)) in Hrun.
  rewrite bind_gets in Hrun. unfold id in Hrun.
  rewrite (stopped_loop _ s3 Hstopped) in Hrun. injection Hrun as <-.
  split; [exact Hstopped|]. congruence.
Qed.

Lemma engine_ends_simulation_witness :
  let reply := mkBatsimReply (Q2Qc 8) [SimulationEndsBatsimEvent (Q2Qc 8)] in
  let s := set_net_inbox [reply; mkBatsimReply (Q2Qc 9) []] Scenario.begun in
  is_running (state_after (proceed_time (Some (Q2Qc 50)) s)) = false /\
  net_inbox (state_after (proceed_time (Some (Q2Qc 50)) s))
  = [mkBatsimReply (Q2Qc 9) []].
Proof.
  cbv zeta.
  apply (engine_ends_simulation
           (set_net_inbox [mkBatsimReply (Q2Qc 8) [SimulationEndsBatsimEvent (Q2Qc 8)];
                           mkBatsimReply (Q2Qc 9) []] Scenario.begun)
           _ (Some (Q2Qc 50))
           (mkBatsimReply (Q2Qc 8) [SimulationEndsBatsimEvent (Q2Qc 8)])).
  - reflexivity.
  - reflexivity.
  - vm_compute. reflexivity.
Defined.

(** ** The timer of [proceed_time] *)

Lemma same_but_callbacks_trans s1 s2 s3 :
  same_but_callbacks s1 s2 -> same_but_callbacks s2 s3 -> same_but_callbacks s1 s3.
Proof. unfold same_but_callbacks. congruence. Qed.

Lemma same_but_callbacks_fields s s' :
  same_but_callbacks s s' ->
  __jobs s' = __jobs s /\ __platform s' = __platform s /\
  is_running s' = is_running s /\ __simulation_time s' = __simulation_time s /\
  net_inbox s' = net_inbox s /\ __current_time s' = __current_time s.
Proof.
  unfold same_but_callbacks. intros E.
  split; [apply (f_equal __jobs) in E; cbn in E; congruence|].
  split; [apply (f_equal __platform) in E; cbn in E; congruence|].
  split; [apply (f_equal __simulator) in E; cbn in E; unfold is_running; congruence|].
  split; [apply (f_equal __simulation_time) in E; cbn in E; congruence|].
  split; [apply (f_equal net_inbox) in E; cbn in E; congruence|].
  apply (f_equal __current_time) in E; cbn in E; congruence.
Qed.

(** The callbacks of a time are invoked in their order; the closure of
    [proceed_time] among them puts the flag down. *)
Lemma call_all_unflags (registered : list callback) :
  forall s,
  exists s',
    for_each registered
      (fun callback => let* now := gets current_time in call callback now) s
    = Returns tt s' /\
    invoked s' = invoked s ++ map (fun c => (c, current_time s)) registered /\
    same_but_callbacks s s' /\
    __callbacks s' = __callbacks s /\
    (unflag ∈ registered \/ __wait_callback s = false -> __wait_callback s' = false).
Proof.
  induction registered as [|c l IH]; intros s.
  - exists s. cbn. rewrite app_nil_r. repeat split.
    intros [H|H]; [inversion H|exact H].
  - set (s0 := set_invoked (invoked s ++ [(c, current_time s)]) s).
    set (s1 := match c with
               | unflag => set_wait_callback false s0
               | UserCallback _ => s0
               end).
    assert (Hcall : (let* now := gets current_time in call c now) s = Returns tt s1).
    { rewrite bind_gets. unfold call. rewrite bind_modify. fold s0.
      unfold s1. now destruct c. }
    assert (Hnow : current_time s1 = current_time s) by (unfold s1; now destruct c).
    assert (Hsame : same_but_callbacks s s1) by (unfold s1; now destruct c).
    assert (Hinv : invoked s1 = invoked s ++ [(c, current_time s)])
      by (unfold s1; now destruct c).
    assert (Hcb : __callbacks s1 = __callbacks s) by (unfold s1; now destruct c).
    destruct (IH s1) as (s' & Hrun & Hinv' & Hsame' & Hcb' & Hflag).
    exists s'. split; [|split; [|split; [|split]]].
    + cbn [for_each]. now rewrite (bind_Returns_eq _ _ _ _ _ Hcall).
    + rewrite Hinv', Hinv, Hnow. cbn. now rewrite <- app_assoc.
    + eapply same_but_callbacks_trans; eassumption.
    + congruence.
    + intros [Hin|Hdown]; apply Hflag.
      * apply elem_of_cons in Hin as [<-|Hin]; [right; reflexivity|now left].
      * right. unfold s1. now destruct c.
Qed.

Lemma requested_call_unflags s registered :
  __callbacks s !! current_time s = Some registered ->
  unflag ∈ registered ->
  exists s',
    __on_batsim_requested_call s = Returns tt s' /\
    invoked s' = invoked s ++ map (fun c => (c, current_time s)) registered /\
    same_but_callbacks s s' /\
    __wait_callback s' = false.
Proof.
  intros Hreg Hin. unfold __on_batsim_requested_call.
  rewrite bind_gets. unfold id at 1 2. rewrite Hreg.
  destruct (call_all_unflags registered s) as (s1 & Hrun & Hinv & Hsame & Hcb & Hflag).
  rewrite (bind_Returns_eq _ _ _ _ _ Hrun).
  destruct (same_but_callbacks_fields s s1 Hsame) as (_ & _ & _ & _ & _ & Hnow).
  rewrite bind_gets. unfold id at 1 2 3 4.
  unfold current_time at 1 2. rewrite Hnow, Hcb. fold (current_time s). rewrite Hreg.
  eexists. split; [reflexivity|]. cbn. split; [exact Hinv|].
  split; [exact Hsame|]. apply Hflag. now left.
Qed.

(** An exchange in which the engine fires the timer that the closure of
    [proceed_time] waits for. *)
Lemma goto_next_fires s now' ts rest registered :
  net_inbox s = mkBatsimReply now' [RequestedCallBatsimEvent ts] :: rest ->
  __callbacks s !! round1 ts = Some registered ->
  unflag ∈ registered ->
  exists s',
    __goto_next_batsim_event s = Returns tt s' /\
    net_inbox s' = rest /\
    invoked s' = invoked s ++ map (fun c => (c, round1 ts)) registered /\
    __current_time s' = now' /\
    (is_running s' = false \/
     (__wait_callback s' = false /\ __platform s' = __platform s /\
      __jobs s' = __jobs s)).
Proof.
  intros Hin Hreg Hunflag.
  set (s2 := set_batsim_requests []
               (set_net_sent
                  (net_sent s ++ [mkBatsimMessage (current_time s) (__batsim_requests s)])
                  s)).
  set (s3 := set_current_time ts (set_net_inbox rest s2)).
  destruct (requested_call_unflags s3 registered Hreg Hunflag)
    as (s4 & Hfire & Hinv & Hsame & Hflag).
  destruct (same_but_callbacks_fields s3 s4 Hsame)
    as (Hjobs & Hpf & Hrun & Hlimit & Hinbox & _).
  set (s5 := set_current_time now' s4).
  assert (Hhandle : __handle_batsim_events s2 = Returns tt s5).
  { unfold __handle_batsim_events, bind at 1, network_recv.
    change (net_inbox s2) with (net_inbox s). rewrite Hin.
    cbn [reply_events reply_now for_each].
    unfold bind at 1. unfold bind at 1. unfold deliver.
    rewrite bind_modify. cbn [handle_event event_timestamp]. fold s3.
    rewrite Hfire. reflexivity. }
  assert (Hgoto : __goto_next_batsim_event s
                  = (let* s := gets id in
                     match __simulation_time s with
                     | Some limit =>
                         if truthy (Some limit) && bool_decide (limit ≤ current_time s)%Qc
                         then close else ret tt
                     | None => ret tt
                     end) s5).
  { unfold __goto_next_batsim_event.
    assert (Hsend : __send_requests s = Returns tt s2) by reflexivity.
    rewrite (bind_Returns_eq _ _ _ _ _ Hsend).
    now rewrite (bind_Returns_eq _ _ _ _ _ Hhandle). }
  rewrite Hgoto, bind_gets. unfold id.
  assert (Hstay : exists s',
    ret tt s5 = Returns tt s' /\ net_inbox s' = rest /\
    invoked s' = invoked s ++ map (fun c => (c, round1 ts)) registered /\
    __current_time s' = now' /\
    (is_running s' = false \/
     (__wait_callback s' = false /\ __platform s' = __platform s /\
      __jobs s' = __jobs s))).
  { exists s5. split; [reflexivity|]. cbn.
    split; [exact Hinbox|]. split; [exact Hinv|]. split; [reflexivity|].
    right. split; [exact Hflag|]. split; [exact Hpf|exact Hjobs]. }
  destruct (__simulation_time s5); [|exact Hstay].
  destruct (_ && _); [|exact Hstay].
  destruct (close_Returns s5) as (s6 & Hclose & Hstop & Hin6 & Hnow6 & Hinv6).
  exists s6. split; [exact Hclose|]. rewrite Hin6, Hinv6, Hnow6. cbn.
  split; [exact Hinbox|]. split; [exact Hinv|]. split; [reflexivity|]. now left.
Qed.

Lemma nothing_to_start s :
  is_running s = false \/
  (is_Some (__platform s) /\
   forall k j, __jobs s !! k = Some j -> is_runnable j = false) ->
  __start_runnable_jobs s = Returns tt s.
Proof.
  intros [Hs|[[pf Hpf] Hnone]]; [now apply stopped_start_runnable_jobs|].
  unfold __start_runnable_jobs. rewrite bind_gets. unfold id.
  destruct (is_running s); [|reflexivity]. cbn [negb].
  unfold bind at 1. unfold require_platform. rewrite Hpf.
  assert (runnable_jobs s = []) as ->; [|reflexivity].
  destruct (runnable_jobs s) as [|k l] eqn:Hl; [reflexivity|].
  destruct (runnable_jobs_spec s k) as (j & Hj & Hr); [rewrite Hl; set_solver|].
  rewrite (Hnone k j Hj) in Hr. discriminate.
Qed.

(** The timer is armed: the closure waits at the end of the entry of the
    target, the sum, as floats, of the time asked for and of the clock. *)
Lemma arm_timer_arms s t :
  is_running s = true ->
  (Q2Qc 0 < t)%Qc ->
  nothing_left s = false ->
  (current_time s < float_add t (current_time s))%Qc ->
  exists s1,
    arm_timer (Some t) s = Returns tt s1 /\
    __callbacks s1 !! float_add t (current_time s)
    = Some (default [] (__callbacks s !! float_add t (current_time s)) ++ [unflag]) /\
    net_inbox s1 = net_inbox s /\ invoked s1 = invoked s /\
    __platform s1 = __platform s /\ __jobs s1 = __jobs s.
Proof.
  intros Hrun Hpos Hleft Hlater. cbn [arm_timer]. unfold truthy at 1 2.
  rewrite (bool_decide_eq_false_2 (t = Q2Qc 0)).
  2:{ intros ->. exact (Qclt_not_eq _ _ Hpos eq_refl). }
  rewrite (bool_decide_eq_false_2 (t ≤ Q2Qc 0)%Qc) by (apply Qclt_not_le, Hpos).
  cbn [negb andb]. rewrite bind_gets. unfold id.
  unfold nothing_left in Hleft. rewrite Hleft.
  rewrite bind_modify.
  unfold set_callback. rewrite require_running_bind.
  change (is_running (set_wait_callback true s)) with (is_running s). rewrite Hrun.
  rewrite bind_gets. unfold id.
  change (current_time (set_wait_callback true s)) with (current_time s).
  rewrite bool_decide_eq_false_2 by (apply Qclt_not_le, Hlater).
  rewrite bind_modify. unfold __set_batsim_call_me_later.
  rewrite bind_gets. unfold id. cbn [current_time __current_time set_callbacks].
  change (round1 (__current_time (set_wait_callback true s))) with (current_time s).
  rewrite bool_decide_eq_false_2 by (apply Qclt_not_le, Hlater).
  cbv zeta.
  destruct (existsb _ _); cbn [negb]; (eexists; split; [reflexivity|]); cbn;
    (split; [apply lookup_insert_eq|repeat split]).
Qed.

(** X22.  [proceed_time] with a time comes back when its timer fires at the
    instant under which its closure is registered.  On a running simulation
    where something can still happen and no job is runnable, the call with a
    positive time [t] arms a timer for the sum, as floats, of [t] and of the
    clock, when this sum is later than the clock.  When the next reply of the
    engine is the firing of a timer whose time, rounded to one decimal, is
    that sum, the call returns after this one exchange: the callbacks
    registered for the time have been invoked in their order, the closure of
    the call last, the clock is the time of the reply, and the later replies
    are still to come. *)
Theorem proceed_time_returns_at_timer (s : SimulatorHandler) (t ts now' : time)
    (rest : list BatsimReply) :
  is_running s = true ->
  is_Some (__platform s) ->
  (Q2Qc 0 < t)%Qc ->
  nothing_left s = false ->
  (forall k j, __jobs s !! k = Some j -> is_runnable j = false) ->
  net_inbox s = mkBatsimReply now' [RequestedCallBatsimEvent ts] :: rest ->
  (current_time s < float_add t (current_time s))%Qc ->
  round1 ts = float_add t (current_time s) ->
  exists s',
    proceed_time (Some t) s = Returns tt s' /\
    net_inbox s' = rest /\
    invoked s'
    = invoked s
      ++ map (fun c => (c, round1 ts))
           (default [] (__callbacks s !! float_add t (current_time s)) ++ [unflag]) /\
    __current_time s' = now'.
Proof.
  intros Hrun Hpf Hpos Hleft Hnone Hin Hlater Hts.
  destruct (arm_timer_arms s t Hrun Hpos Hleft Hlater)
    as (s1 & Harm & Hcb & Hin1 & Hinv1 & Hpf1 & Hjobs1).
  destruct (goto_next_fires s1 now' ts rest
              (default [] (__callbacks s !! float_add t (current_time s)) ++ [unflag]))
    as (s2 & Hgoto & Hin2 & Hinv2 & Hnow2 & Hend).
  { now rewrite Hin1. }
  { now rewrite Hts. }
  { set_solver. }
  exists s2. split; [|split; [exact Hin2|split; [congruence|exact Hnow2]]].
  rewrite proceed_time_parts, require_running_bind, Hrun.
  rewrite (bind_Returns_eq _ _ _ _ _ Harm). unfold advance.
  rewrite (bind_Returns_eq _ _ _ _ _ Hgoto).
  assert (Hstart : __start_runnable_jobs s2 = Returns tt s2).
  { apply nothing_to_start. destruct Hend as [Hstop|(_ & Hpf2 & Hjobs2)]; [now left|].
    right. rewrite Hpf2, Hpf1, Hjobs2, Hjobs1. auto. }
  rewrite (bind_Returns_eq _ _ _ _ _ Hstart), bind_gets. unfold id.
  destruct (length (net_inbox s2)); cbn [proceed_loop]; rewrite bind_gets; unfold id;
    (destruct Hend as [->|(-> & _)]; [reflexivity|now rewrite andb_false_r]).
Qed.

Lemma proceed_time_returns_at_timer_witness :
  let reply := mkBatsimReply (Q2Qc 5) [RequestedCallBatsimEvent (Q2Qc 5)] in
  let s := Fixtures.running (Q2Qc 0) [Fixtures.job "j" RUNNING (Some [1])]
             [reply; mkBatsimReply (Q2Qc 9) []] in
  exists s',
    proceed_time (Some (Q2Qc 5)) s = Returns tt s' /\
    net_inbox s' = [mkBatsimReply (Q2Qc 9) []] /\
    invoked s'
    = invoked s
      ++ map (fun c => (c, round1 (Q2Qc 5)))
           (default [] (__callbacks s !! float_add (Q2Qc 5) (current_time s))
            ++ [unflag]) /\
    __current_time s' = Q2Qc 5.
Proof.
  cbv zeta. apply proceed_time_returns_at_timer.
  - reflexivity.
  - eexists. reflexivity.
  - reflexivity.
  - reflexivity.
  - intros [|[|k]] j Hj; [|discriminate|discriminate]. injection Hj as <-. reflexivity.
  - reflexivity.
  - by_evaluation.
  - by_evaluation.
Defined.

(** A timer that [proceed_time] does not come back from: at the clock 0.2
    the call with the time 0.1 registers its closure under the float
    0.30000000000000004 and asks for a timer there; when the engine fires it,
    the clock is 0.3, no callback is found under it, and the loop goes on to
    a next exchange. *)
Example proceed_time_misses_its_timer :
  let target := float_add (Qc_of_tenths 1) (Qc_of_tenths 2) in
  let reply := mkBatsimReply target [RequestedCallBatsimEvent target] in
  let s := Fixtures.running (Qc_of_tenths 2) [Fixtures.job "j" RUNNING (Some [1])]
             [reply] in
  exists s',
    proceed_time (Some (Qc_of_tenths 1)) s = Blocks s' /\
    net_sent s'
    = [mkBatsimMessage (Qc_of_tenths 2)
         [CallMeLaterBatsimRequest (Qc_of_tenths 2) target];
       mkBatsimMessage (Qc_of_tenths 3) []] /\
    net_inbox s' = [] /\
    invoked s' = [] /\
    __callbacks s' !! target = Some [unflag] /\
    __wait_callback s' = true.
Proof.
  cbv zeta. eexists. split; [vm_compute; reflexivity|].
  repeat split; by_evaluation.
Qed.
